(** * AIRA backend: the telephony / realtime-AI relay of [server.py] and
    [newServer.py]

    A shallow embedding of the two [media_stream] handlers (the original
    [server.py] and the cleaned-up [newServer.py]) and of the Python values
    they manipulate, followed by the properties of the relay, of the
    interview state tracking and of the extraction parsing.  The
    configuration of the connection to the AI service and the script
    [main.py], which places the call, are embedded after the servers.

    Conventions of the embedding.
    - A Python [str] is a Rocq [string]: its UTF-8 bytes, a surrogate
      code point (which a [str] can hold and UTF-8 cannot encode) being
      written with the three-byte pattern.  [str.lower] is exact on every
      character whose lower case holds an ASCII character: the letters A
      to Z, U+212A KELVIN SIGN and U+0130.  The other characters that it
      changes lie outside ASCII, and so do their lower cases; they are
      left as they are, so that an ASCII phrase occurs in the lowered text
      of the model exactly when it occurs in the one of Python.
    - [print] writes to a standard output that encodes UTF-8 with the
      strict error handler, as Python opens it under a UTF-8 locale (the
      lines of both servers hold characters that narrower encodings
      lack): it raises [UnicodeEncodeError] on a text that holds a
      surrogate, and on no other.
    - A value decoded by [json.loads] is a [json]; Python's [None] is
      [JNull].
    - An [await] on a connection is a point where the environment answers:
      a receive yields a text or raises, a send succeeds or raises.  The
      answer is an input of the model.
    - Everything a handler does to the outside (a message sent on one of the
      two connections, a line written with [print]) is an [action] of its
      trace, in program order.
    - The two tasks of a call run under [asyncio], which switches between
      them at an [await] only: a session is a sequence of messages, each
      handled by the task it is for, and a handler's assignments to the
      shared variables all come before the one send it may await. *)

From Stdlib Require Import String Ascii List ZArith NArith Bool Arith Lia.
Import ListNotations.
Set Warnings "-register-all".
Local Open Scope string_scope.
Local Open Scope list_scope.

(* ===================================================================== *)
(** ** Python strings *)
(* ===================================================================== *)

Module Py.

(** The double quote character, and single-character strings. *)
Definition dquote : ascii := "034"%char.
Definition backslash : ascii := "092"%char.
Definition str1 (c : ascii) : string := String c EmptyString.

(** [q s] is [s] with every apostrophe replaced by a double quote: it lets
    the JSON texts of the examples be written in one piece. *)
Fixpoint q (s : string) : string :=
  match s with
  | EmptyString => EmptyString
  | String c r => String (if Ascii.eqb c "'"%char then dquote else c) (q r)
  end.

Definition nat_of (c : ascii) : nat := nat_of_ascii c.

Definition is_upper (c : ascii) : bool :=
  ((65 <=? nat_of c) && (nat_of c <=? 90))%nat.

(** The lower case of an ASCII letter. *)
Definition lower_char (c : ascii) : ascii :=
  if is_upper c then ascii_of_nat (nat_of c + 32) else c.

Definition is_byte (c : ascii) (n : nat) : bool := (nat_of c =? n)%nat.

(** The lower case of U+0130: [i] and U+0307, the bytes CC 87. *)
Definition dotted_i : string :=
  String "i" (String "204" (String "135" EmptyString)).

(** [str.lower].  Outside ASCII two characters have a lower case that
    holds an ASCII letter: U+0130 (the bytes C4 B0), which lowers to
    [dotted_i], and U+212A KELVIN SIGN (the bytes E2 84 AA), which lowers
    to [k].  Every other character outside ASCII is left as it is. *)
Fixpoint lower (s : string) : string :=
  match s with
  | EmptyString => EmptyString
  | String c r =>
      match r with
      | EmptyString => String (lower_char c) EmptyString
      | String d r1 =>
          if is_byte c 196 && is_byte d 176 then (dotted_i ++ lower r1)%string
          else
            match r1 with
            | String e r2 =>
                if is_byte c 226 && is_byte d 132 && is_byte e 170
                then String "k" (lower r2)
                else String (lower_char c) (lower r)
            | EmptyString => String (lower_char c) (lower r)
            end
      end
  end.

(** A surrogate code point (U+D800 to U+DFFF) in a [str]: the byte ED
    followed by a byte from A0 to BF.  UTF-8 cannot encode it. *)
Fixpoint has_surrogate (s : string) : bool :=
  match s with
  | EmptyString => false
  | String c r =>
      match r with
      | String d _ =>
          is_byte c 237 && (160 <=? nat_of d)%nat && (nat_of d <=? 191)%nat
      | EmptyString => false
      end
      || has_surrogate r
  end.

(** A text of ASCII characters only. *)
Fixpoint plain (s : string) : bool :=
  match s with
  | EmptyString => true
  | String c r => (nat_of c <? 128)%nat && plain r
  end.

(** [sub in s] for two strings. *)
Fixpoint contains (sub s : string) : bool :=
  String.prefix sub s ||
  match s with
  | EmptyString => false
  | String _ r => contains sub r
  end.

(** [any(phrase in text for phrase in phrases)]. *)
Definition any_in (phrases : list string) (text : string) : bool :=
  existsb (fun phrase => contains phrase text) phrases.

(* ===================================================================== *)
(** ** Python values, as [json.loads] produces them *)
(* ===================================================================== *)

(** A decoded number: a Python [int], or a [float] kept as the decimal
    [(-1)^neg * m * 10^e] it was read from, or one of the constants
    [NaN], [Infinity], [-Infinity] that Python's decoder accepts. *)
Inductive number : Type :=
| NInt (z : Z)
| NFloat (neg : bool) (m : N) (e : Z)
| NNaN
| NInf (neg : bool).

Inductive json : Type :=
| JNull
| JBool (b : bool)
| JNum (n : number)
| JStr (s : string)
| JArr (items : list json)
| JObj (fields : list (string * json)).

(** Exceptions that the handlers can meet. *)
Inductive exn : Type :=
| KeyError
| TypeError
| AttributeError
| JSONDecodeError
| WebSocketDisconnect
| ConnectionClosed
| RuntimeError
| UnicodeEncodeError.

Definition exn_eqb (a b : exn) : bool :=
  match a, b with
  | KeyError, KeyError | TypeError, TypeError
  | AttributeError, AttributeError | JSONDecodeError, JSONDecodeError
  | WebSocketDisconnect, WebSocketDisconnect
  | ConnectionClosed, ConnectionClosed | RuntimeError, RuntimeError
  | UnicodeEncodeError, UnicodeEncodeError => true
  | _, _ => false
  end.

(** A Python expression evaluates to a value or raises. *)
Definition result (A : Type) : Type := (exn + A)%type.

(** *** dict: insertion-ordered, one entry per key *)

Fixpoint dict_get (d : list (string * json)) (k : string) : option json :=
  match d with
  | [] => None
  | (k', v) :: r => if String.eqb k' k then Some v else dict_get r k
  end.

Fixpoint dict_set (d : list (string * json)) (k : string) (v : json)
  : list (string * json) :=
  match d with
  | [] => [(k, v)]
  | (k', v') :: r =>
      if String.eqb k' k then (k', v) :: r else (k', v') :: dict_set r k v
  end.

(** [v[k]] with a string key: [KeyError] on a dict without the key,
    [TypeError] on anything that is not a dict. *)
Definition getitem (v : json) (k : string) : result json :=
  match v with
  | JObj d => match dict_get d k with
              | Some x => inr x
              | None => inl KeyError
              end
  | _ => inl TypeError
  end.

(** [v.get(k, default)]: only a dict has the method. *)
Definition get (v : json) (k : string) (default : json) : result json :=
  match v with
  | JObj d => match dict_get d k with
              | Some x => inr x
              | None => inr default
              end
  | _ => inl AttributeError
  end.

(** [v == "literal"]. *)
Definition eq_str (v : json) (s : string) : bool :=
  match v with
  | JStr t => String.eqb t s
  | _ => false
  end.

(** A float read from the decimal [m * 10^e] is [0.0] when [m] is zero or
    when the decimal is at most half the smallest subnormal double,
    [2^-1075] (the tie rounds to even, that is to zero). *)
Definition float_is_zero (m : N) (e : Z) : bool :=
  (m =? 0)%N ||
  ((e <? 0)%Z && (Z.of_N m * 2 ^ 1075 <=? 10 ^ (- e))%Z).

Definition number_truthy (n : number) : bool :=
  match n with
  | NInt z => negb (z =? 0)%Z
  | NFloat _ m e => negb (float_is_zero m e)
  | NNaN => true
  | NInf _ => true
  end.

(** The truth value of [v] in an [if]. *)
Definition truthy (v : json) : bool :=
  match v with
  | JNull => false
  | JBool b => b
  | JNum n => number_truthy n
  | JStr s => negb (String.eqb s "")
  | JArr l => match l with [] => false | _ => true end
  | JObj d => match d with [] => false | _ => true end
  end.

(** Whether standard output can encode [str(v)], the text that [print]
    and an f-string write for [v].  A [str] is written as it is.  The text
    of every other value holds no surrogate: it is a number, [None],
    [True] or [False], or the text of a list or of a dict, in which the
    strings are written as [repr] gives them, a surrogate as its escape. *)
Definition encodable (v : json) : bool :=
  match v with
  | JStr s => negb (has_surrogate s)
  | _ => true
  end.

(** [text.lower()]: only a [str] has the method. *)
Definition str_lower (v : json) : result string :=
  match v with
  | JStr s => inr (lower s)
  | _ => inl AttributeError
  end.

End Py.

(* ===================================================================== *)
(** ** [json.loads] *)
(* ===================================================================== *)

(** The decoder of Python's [json] module ([JSONDecoder.decode] with the
    default scanner, strict strings): the library function both servers
    call on every message, and the extraction handler on the text it cut
    out.  Numbers are read exactly; an escape [\uXXXX] becomes the UTF-8
    bytes of its code point.  Two limits of the interpreter are left out:
    its recursion limit on deeply nested texts and its limit on the
    number of digits of an integer. *)
Module Json.
Import Py.

Definition is_ws (c : ascii) : bool :=
  Ascii.eqb c " " || Ascii.eqb c "009" || Ascii.eqb c "010" || Ascii.eqb c "013".

Fixpoint skip_ws (s : string) : string :=
  match s with
  | String c r => if is_ws c then skip_ws r else s
  | EmptyString => s
  end.

Definition is_digit (c : ascii) : bool :=
  ((48 <=? nat_of c) && (nat_of c <=? 57))%nat.

Definition digit_val (c : ascii) : N := N.of_nat (nat_of c - 48).

(** The longest run of digits at the head of [s], read in base ten after
    the digits already in [acc]: (value, number of digits read, rest). *)
Fixpoint digits (acc : N) (n : nat) (s : string) : N * nat * string :=
  match s with
  | String c r =>
      if is_digit c then digits (10 * acc + digit_val c)%N (S n) r
      else (acc, n, s)
  | EmptyString => (acc, n, s)
  end.

(** The integer part [0|[1-9][0-9]*]. *)
Definition int_part (s : string) : option (N * string) :=
  match s with
  | String c r =>
      if Ascii.eqb c "0" then Some (0%N, r)
      else if is_digit c then
        let '(v, _, rest) := digits 0 0 s in Some (v, rest)
      else None
  | EmptyString => None
  end.

(** The optional fraction [\.[0-9]+]: (the digits appended to [m], how many,
    rest); nothing is consumed when no digit follows the dot. *)
Definition frac_part (m : N) (s : string) : option (N * nat * string) :=
  match s with
  | String c (String d r) =>
      if Ascii.eqb c "." && is_digit d then Some (digits m 0 (String d r))
      else None
  | _ => None
  end.

(** The optional exponent [[eE][-+]?[0-9]+]. *)
Definition exp_part (s : string) : option (Z * string) :=
  match s with
  | String c r =>
      if Ascii.eqb c "e" || Ascii.eqb c "E" then
        match r with
        | String sg (String d r') =>
            if (Ascii.eqb sg "-" || Ascii.eqb sg "+") && is_digit d then
              let '(v, _, rest) := digits 0 0 (String d r') in
              Some ((if Ascii.eqb sg "-" then - Z.of_N v else Z.of_N v)%Z, rest)
            else if is_digit sg then
              let '(v, _, rest) := digits 0 0 r in Some (Z.of_N v, rest)
            else None
        | String d EmptyString =>
            if is_digit d then Some (Z.of_N (digit_val d), EmptyString)
            else None
        | EmptyString => None
        end
      else None
  | EmptyString => None
  end.

(** [NUMBER_RE.match]: the longest number at the head of [s]. *)
Definition match_number (s : string) : option (number * string) :=
  let '(neg, s1) :=
    match s with
    | String c r => if Ascii.eqb c "-" then (true, r) else (false, s)
    | EmptyString => (false, s)
    end in
  match int_part s1 with
  | None => None
  | Some (i, s2) =>
      match frac_part i s2, exp_part s2 with
      | None, None =>
          Some (NInt (if neg then - Z.of_N i else Z.of_N i)%Z, s2)
      | None, Some (e, s3) => Some (NFloat neg i e, s3)
      | Some (m, k, s3), _ =>
          match exp_part s3 with
          | Some (e, s4) => Some (NFloat neg m (e - Z.of_nat k)%Z, s4)
          | None => Some (NFloat neg m (- Z.of_nat k)%Z, s3)
          end
      end
  end.

Definition hex_val (c : ascii) : option N :=
  let n := nat_of c in
  if ((48 <=? n) && (n <=? 57))%nat then Some (N.of_nat (n - 48))
  else if ((97 <=? n) && (n <=? 102))%nat then Some (N.of_nat (n - 87))
  else if ((65 <=? n) && (n <=? 70))%nat then Some (N.of_nat (n - 55))
  else None.

(** [_decode_uXXXX]: four hexadecimal digits. *)
Definition hex4 (a b c d : ascii) : option N :=
  match hex_val a, hex_val b, hex_val c, hex_val d with
  | Some x, Some y, Some z, Some w => Some (((x * 16 + y) * 16 + z) * 16 + w)%N
  | _, _, _, _ => None
  end.

Definition byte (n : N) : ascii := ascii_of_N n.

(** The UTF-8 bytes of a code point (a lone surrogate, which a Python [str]
    can hold, is written with the three-byte pattern as well). *)
Definition utf8 (u : N) : string :=
  if (u <? 128)%N then str1 (byte u)
  else if (u <? 2048)%N then
    String (byte (192 + u / 64)) (str1 (byte (128 + u mod 64)))
  else if (u <? 65536)%N then
    String (byte (224 + u / 4096))
      (String (byte (128 + (u / 64) mod 64)) (str1 (byte (128 + u mod 64))))
  else
    String (byte (240 + u / 262144))
      (String (byte (128 + (u / 4096) mod 64))
         (String (byte (128 + (u / 64) mod 64)) (str1 (byte (128 + u mod 64))))).

Definition is_high_surrogate (u : N) : bool := ((55296 <=? u) && (u <=? 56319))%N.
Definition is_low_surrogate (u : N) : bool := ((56320 <=? u) && (u <=? 57343))%N.

(** The one-letter escapes of [BACKSLASH]. *)
Definition simple_escape (c : ascii) : option ascii :=
  if Ascii.eqb c dquote then Some dquote
  else if Ascii.eqb c backslash then Some backslash
  else if Ascii.eqb c "/" then Some "/"%char
  else if Ascii.eqb c "b" then Some "008"%char
  else if Ascii.eqb c "f" then Some "012"%char
  else if Ascii.eqb c "n" then Some "010"%char
  else if Ascii.eqb c "r" then Some "013"%char
  else if Ascii.eqb c "t" then Some "009"%char
  else None.

Definition cons_str (c : ascii) (x : option (string * string))
  : option (string * string) :=
  match x with
  | Some (t, rest) => Some (String c t, rest)
  | None => None
  end.

Definition app_str (p : string) (x : option (string * string))
  : option (string * string) :=
  match x with
  | Some (t, rest) => Some ((p ++ t)%string, rest)
  | None => None
  end.

(** [py_scanstring], from just after the opening quote: (contents, rest
    after the closing quote).  [None] is a [JSONDecodeError]: no closing
    quote, a control character, or a bad escape. *)
Fixpoint scanstring (s : string) : option (string * string) :=
  match s with
  | EmptyString => None
  | String c r =>
      if Ascii.eqb c dquote then Some (EmptyString, r)
      else if Ascii.eqb c backslash then
        match r with
        | EmptyString => None
        | String e r1 =>
            if Ascii.eqb e "u" then
              match r1 with
              | String h1 (String h2 (String h3 (String h4 r2))) =>
                  match hex4 h1 h2 h3 h4 with
                  | None => None
                  | Some u =>
                      match r2 with
                      | String b (String v (String g1 (String g2
                          (String g3 (String g4 r3))))) =>
                          if is_high_surrogate u && Ascii.eqb b backslash
                             && Ascii.eqb v "u" then
                            match hex4 g1 g2 g3 g4 with
                            | None => None
                            | Some u2 =>
                                if is_low_surrogate u2 then
                                  app_str
                                    (utf8 (65536 + (u - 55296) * 1024
                                           + (u2 - 56320))%N)
                                    (scanstring r3)
                                else app_str (utf8 u) (scanstring r2)
                            end
                          else app_str (utf8 u) (scanstring r2)
                      | _ =>
                          if is_high_surrogate u
                             && String.prefix (String backslash "u") r2
                          then None
                          else app_str (utf8 u) (scanstring r2)
                      end
                  end
              | _ => None
              end
            else
              match simple_escape e with
              | Some ch => cons_str ch (scanstring r1)
              | None => None
              end
        end
      else if (nat_of c <? 32)%nat then None
      else cons_str c (scanstring r)
  end.

(** [drop n s]: [s] without its first [n] characters. *)
Fixpoint drop (n : nat) (s : string) : string :=
  match n, s with
  | S k, String _ r => drop k r
  | _, _ => s
  end.

(** [scan_once] with its two loops, [JSONObject] and [JSONArray].  The
    recursion is on [fuel]: a call takes one unit, and of two nested calls
    at least one reads a character, so a fuel above twice the length of
    the text is never used up ([JsonFacts.fuel_is_enough]). *)
Fixpoint scan_once (fuel : nat) (s : string) : option (json * string) :=
  match fuel with
  | O => None
  | S f =>
      match s with
      | EmptyString => None
      | String c r =>
          if Ascii.eqb c dquote then
            match scanstring r with
            | Some (t, rest) => Some (JStr t, rest)
            | None => None
            end
          else if Ascii.eqb c "{" then
            match skip_ws r with
            | String c1 r1 =>
                if Ascii.eqb c1 "}" then Some (JObj [], r1)
                else members f [] (String c1 r1)
            | EmptyString => None
            end
          else if Ascii.eqb c "[" then
            match skip_ws r with
            | String c1 r1 =>
                if Ascii.eqb c1 "]" then Some (JArr [], r1)
                else elements f [] (String c1 r1)
            | EmptyString => None
            end
          else if String.prefix "null" s then Some (JNull, drop 4 s)
          else if String.prefix "true" s then Some (JBool true, drop 4 s)
          else if String.prefix "false" s then Some (JBool false, drop 5 s)
          else
            match match_number s with
            | Some (n, rest) => Some (JNum n, rest)
            | None =>
                if String.prefix "NaN" s then Some (JNum NNaN, drop 3 s)
                else if String.prefix "Infinity" s
                then Some (JNum (NInf false), drop 8 s)
                else if String.prefix "-Infinity" s
                then Some (JNum (NInf true), drop 9 s)
                else None
            end
      end
  end

(** [JSONObject]'s loop, at the opening quote of a key, with the pairs read
    so far in [acc] (a later pair with the same key replaces the value). *)
with members (fuel : nat) (acc : list (string * json)) (s : string)
  : option (json * string) :=
  match fuel with
  | O => None
  | S f =>
      match s with
      | String c r =>
          if Ascii.eqb c dquote then
            match scanstring r with
            | Some (key, r1) =>
                match skip_ws r1 with
                | String c2 r2 =>
                    if Ascii.eqb c2 ":" then
                      match scan_once f (skip_ws r2) with
                      | Some (v, r3) =>
                          match skip_ws r3 with
                          | String c4 r4 =>
                              if Ascii.eqb c4 "}"
                              then Some (JObj (dict_set acc key v), r4)
                              else if Ascii.eqb c4 ","
                              then members f (dict_set acc key v) (skip_ws r4)
                              else None
                          | EmptyString => None
                          end
                      | None => None
                      end
                    else None
                | EmptyString => None
                end
            | None => None
            end
          else None
      | EmptyString => None
      end
  end

(** [JSONArray]'s loop, at the start of an element. *)
with elements (fuel : nat) (acc : list json) (s : string)
  : option (json * string) :=
  match fuel with
  | O => None
  | S f =>
      match scan_once f s with
      | Some (v, r1) =>
          match skip_ws r1 with
          | String c2 r2 =>
              if Ascii.eqb c2 "]" then Some (JArr (acc ++ [v]), r2)
              else if Ascii.eqb c2 ","
              then elements f (acc ++ [v]) (skip_ws r2)
              else None
          | EmptyString => None
          end
      | None => None
      end
  end.

(** [json.loads(s)]: one value between optional white space, and nothing
    after it. *)
Definition loads (s : string) : result json :=
  match scan_once (S (S (2 * String.length s))) (skip_ws s) with
  | Some (v, rest) =>
      match skip_ws rest with
      | EmptyString => inr v
      | String _ _ => inl JSONDecodeError
      end
  | None => inl JSONDecodeError
  end.

End Json.


(* ===================================================================== *)
(** ** Connections, traces and the handlers' monad *)
(* ===================================================================== *)

Module Relay.
Import Py.

(** What a handler does to the outside, in program order. *)
Inductive action : Type :=
| AISend (cmd : json)        (** [await openai_ws.send(json.dumps(cmd))] *)
| AIClose                    (** [await openai_ws.close()] *)
| PhoneSend (msg : json)     (** [await websocket.send_text(json.dumps(msg))] *)
| PhoneClose (code : Z) (reason : string)
                             (** [await websocket.close(code, reason)] *)
| Log (text : string) (args : list json)
                             (** [print(text, *args)]: the words of the
                                 line and the values printed with them *)
| LogCut (text : string)     (** the words of [print(text, value)], written
                                 before the value made [print] raise: a
                                 line without its end *)
| LogExn (text : string) (e : exn)
                             (** [print(f"text {e}")] for a caught exception *)
| LogField (key : string) (value : json).
                             (** the line printed for one extracted field *)

(** What [await receive] gives: a text, or an exception. *)
Inductive received : Type :=
| Text (s : string)
| Fails (e : exn).

(** How the body of a [while True] loop ends. *)
Inductive flow : Type :=
| Next     (** the next iteration *)
| Break.   (** [break] *)

(** Where a task stands. *)
Inductive status : Type :=
| Running              (** awaiting its next message *)
| Returned             (** the coroutine returned *)
| Raised (e : exn).    (** the coroutine ended with an exception *)

Definition terminated (t : status) : bool :=
  match t with Running => false | _ => true end.

Section Monad.
Context {S : Type}.

(** A computation over the variables [S] that writes a trace and returns
    or raises.  Assignments made and actions done before an exception
    stay. *)
Definition M (A : Type) : Type := S -> S * list action * result A.

Definition ret {A} (a : A) : M A := fun s => (s, [], inr a).

Definition bind {A B} (m : M A) (k : A -> M B) : M B :=
  fun s =>
    match m s with
    | (s1, t1, inr a) => let '(s2, t2, r) := k a s1 in (s2, t1 ++ t2, r)
    | (s1, t1, inl e) => (s1, t1, inl e)
    end.

Definition raise {A} (e : exn) : M A := fun s => (s, [], inl e).

(** The value of a Python expression. *)
Definition eval {A} (r : result A) : M A := fun s => (s, [], r).

Definition read : M S := fun s => (s, [], inr s).
Definition write (s' : S) : M unit := fun _ => (s', [], inr tt).
Definition act (a : action) : M unit := fun s => (s, [a], inr tt).

(** [print(f"text {value}")]: the line is one [str], encoded as a whole;
    nothing is written when the value cannot be encoded. *)
Definition print_f (text : string) (value : json) : M unit :=
  if encodable value then act (Log text [value])
  else raise UnicodeEncodeError.

(** [print(text, value)]: [print] writes its arguments one after the
    other, so that [text] is written already when the value cannot be
    encoded. *)
Definition print (text : string) (value : json) : M unit :=
  if encodable value then act (Log text [value])
  else bind (act (LogCut text)) (fun _ => raise UnicodeEncodeError).

(** [print(f"{key}: {value}")], the line of one extracted field ([key]
    is printed with its underscores replaced and in title case, which
    leaves a surrogate where it is). *)
Definition print_field (key : string) (value : json) : M unit :=
  if negb (has_surrogate key) && encodable value
  then act (LogField key value)
  else raise UnicodeEncodeError.

(** [try: m  except Exception as e: h e]. *)
Definition try_except {A} (m : M A) (h : exn -> M A) : M A :=
  fun s =>
    match m s with
    | (s1, t1, inr a) => (s1, t1, inr a)
    | (s1, t1, inl e) => let '(s2, t2, r) := h e s1 in (s2, t1 ++ t2, r)
    end.

(** [await conn.receive()]. *)
Definition await_receive (r : received) : M string :=
  match r with
  | Text s => ret s
  | Fails e => raise e
  end.

(** [await conn.send(...)]: the send is attempted, and raises when the
    environment says so. *)
Definition await_send (a : action) (answer : option exn) : M unit :=
  bind (act a) (fun _ =>
    match answer with
    | None => ret tt
    | Some e => raise e
    end).
End Monad.

Arguments M : clear implicits.

(** The trace and the result of a computation, its variables dropped. *)
Definition act_of {S A} (m : M S A) (s : S) : list action * result A :=
  let '(_, t, r) := m s in (t, r).

Declare Scope relay_scope.
Delimit Scope relay_scope with relay.
Notation "x <- m ;; k" := (bind m (fun x => k))
  (at level 61, m at next level, right associativity) : relay_scope.
Notation "m ;; k" := (bind m (fun _ => k))
  (at level 61, right associativity) : relay_scope.

(** The messages of one task, each with the environment's answer to the
    send that handling it may attempt. *)
Definition arrival : Type := (received * option exn)%type.

(** The next message of a session: one for the task that awaits the phone
    connection, or one for the task that awaits the AI connection. *)
Inductive input : Type :=
| FromPhone (a : arrival)
| FromAI (a : arrival).

(** A session handles its messages one after the other, in the order in
    which the event loop delivers them. *)
Fixpoint iterate {S I : Type} (step : S -> I -> S * list action)
    (s : S) (ins : list I) : S * list action :=
  match ins with
  | [] => (s, [])
  | i :: r =>
      let '(s1, t1) := step s i in
      let '(s2, t2) := iterate step s1 r in
      (s2, t1 ++ t2)
  end.

End Relay.

(* ===================================================================== *)
(** ** [re.search(r'\{.*\}', text, re.DOTALL)] *)
(* ===================================================================== *)

Module Regex.

(** Greedy [.*] followed by [\}]: the longest prefix of [s] that ends with
    a closing brace. *)
Fixpoint greedy_close (s : string) : option string :=
  match s with
  | EmptyString => None
  | String c r =>
      match greedy_close r with
      | Some m => Some (String c m)
      | None => if Ascii.eqb c "}" then Some (String c EmptyString) else None
      end
  end.

(** The leftmost match of [\{.*\}], the dot matching every character:
    the start positions are tried from the left. *)
Fixpoint search_braces (s : string) : option string :=
  match s with
  | EmptyString => None
  | String c r =>
      if Ascii.eqb c "{" then
        match greedy_close r with
        | Some m => Some (String c m)
        | None => search_braces r
        end
      else search_braces r
  end.




End Regex.


(* ===================================================================== *)
(** ** The system prompt and the commands built from constants *)
(* ===================================================================== *)

Module Prompt.
Import Py.

Definition nl : string := str1 "010".

(** [SYSTEM_INSTRUCTIONS], the same text in both servers (written here
    with apostrophes where the source has double quotes, see [q]). *)
Definition SYSTEM_INSTRUCTIONS : string := q "
You are SAVIRA, a professional HR interviewer from Kainskep Solutions.
You are conducting a live outbound telephonic screening interview.

STRICT BEHAVIOR RULES:
- Stay focused ONLY on job and interview-related conversation.
- Ask a maximum of 8 to 10 interview questions in total.
- Do NOT ask additional questions beyond these 8–10 under any condition.
- Ask ONE question at a time and wait for the candidate’s response.
- Keep responses short, clear, and professional (1–2 sentences).
- Do NOT engage in casual conversation or unrelated topics.
- If the candidate goes off-topic, politely redirect them back to the interview.
- Do NOT explain evaluation, scoring, or internal decisions.

INTERVIEW FLOW (FOLLOW STRICTLY):

STEP 1 – GREETING:
Say exactly:
'Hello, I am SAVIRA from Kainskep Solutions. Are you currently looking for a job or considering a job change?'

Wait for a clear response.

If NO:
- Say:
'Thank you for your time. Have a great day. Goodbye.'
- End the conversation.

If YES:
- Proceed to STEP 2.

STEP 2 – ROLE CONFIRMATION:
Ask:
'Which role or position are you currently looking for?'

Do not proceed until the role is clearly stated.

STEP 3 – INTERVIEW QUESTIONS (8–10 TOTAL):
- Ask 8 to 10 job-relevant interview questions based on the stated role.
- These questions must naturally gather the following information where possible:
  - Full name
  - Email address
  - Current or last company name
  - Total years of experience
  - Previous salary
  - Expected salary
  - Desired role
- Do NOT ask separate questions only for data collection.
- Embed required details naturally within interview-style questions.
- If a detail is not provided, do NOT ask extra questions to collect it.
- If a candidate refuses to share any detail, mark it internally as 'Not disclosed'.
- Do NOT guess, assume, or overwrite previously provided information.

DATA HANDLING RULES:
- Maintain an internal structured record of the candidate’s responses.
- Preserve the first confirmed value for each field.
- Do NOT read collected data aloud during the interview.
- Do NOT summarize candidate data during the call.

STEP 4 – CLOSING:
After completing the 8–10 interview questions, say:
'Thank you for your time. Your telephonic interview is complete. Based on your responses and our scoring system, shortlisted candidates will be contacted for the next round. Take care and goodbye.'

POST-CLOSING BEHAVIOR:
- After the closing statement, do not continue the conversation.
- If the candidate speaks again, repeat the closing message once and stop responding.

VOICE STYLE:
- Calm, confident, human, and professional.
- Speak like a real HR interviewer, not a chatbot.
".

(** The text after the first occurrence of [marker] in [s]. *)
Fixpoint after (marker s : string) : option string :=
  if String.prefix marker s then Some (Json.drop (String.length marker) s)
  else match s with
       | EmptyString => None
       | String _ r => after marker r
       end.

(** The text before the first occurrence of the character [c] in [s]. *)
Fixpoint before (c : ascii) (s : string) : option string :=
  match s with
  | EmptyString => None
  | String d r =>
      if Ascii.eqb d c then Some EmptyString
      else option_map (String d) (before c r)
  end.

(** The greeting the prompt mandates: the quoted line that follows
    [Say exactly:]. *)
Definition mandated_greeting (instructions : string) : option string :=
  match after ("Say exactly:" ++ nl ++ str1 dquote)%string instructions with
  | Some rest => before dquote rest
  | None => None
  end.

Definition num (z : Z) : json := JNum (NInt z).
(** The float literal [0.5], and [0.8]. *)
Definition half : json := JNum (NFloat false 5 (-1)).
Definition point8 : json := JNum (NFloat false 8 (-1)).

(** The seven fields of the record asked for. *)
Definition candidate_fields : list string :=
  ["full_name"; "email"; "role"; "last_company_name"; "experience";
   "previous_salary"; "expected_salary"].

End Prompt.


(* ===================================================================== *)
(** ** [newServer.py] *)
(* ===================================================================== *)

Module NewServer.
Import Py Relay Prompt.
Local Open Scope relay_scope.

(** *** OpenAI session helpers *)

Definition session_config : json :=
  JObj [("type", JStr "session.update");
        ("session", JObj [
           ("modalities", JArr [JStr "text"; JStr "audio"]);
           ("instructions", JStr SYSTEM_INSTRUCTIONS);
           ("voice", JStr "alloy");
           ("input_audio_format", JStr "g711_ulaw");
           ("output_audio_format", JStr "g711_ulaw");
           ("input_audio_transcription", JObj [("model", JStr "whisper-1")]);
           ("turn_detection", JObj [
              ("type", JStr "server_vad");
              ("threshold", half);
              ("prefix_padding_ms", num 300);
              ("silence_duration_ms", num 700)])])].

Definition greeting_instructions : string :=
  ("Hello, I am SAVIRA from Kainskep Solutions. "
   ++ "Are you currently looking for a job or considering a job change?")%string.

Definition greeting_message : json :=
  JObj [("type", JStr "response.create");
        ("response", JObj [
           ("modalities", JArr [JStr "text"; JStr "audio"]);
           ("instructions", JStr greeting_instructions)])].

Definition extraction_instructions : string :=
  ("Extract candidate information from the conversation. "
   ++ "Return STRICT JSON only:" ++ nl
   ++ "{"
   ++ q "'full_name': string|null, "
   ++ q "'email': string|null, "
   ++ q "'role': string|null, "
   ++ q "'last_company_name': string|null, "
   ++ q "'experience': string|null, "
   ++ q "'previous_salary': string|null, "
   ++ q "'expected_salary': string|null"
   ++ "}")%string.

Definition extraction_prompt : json :=
  JObj [("type", JStr "response.create");
        ("response", JObj [
           ("modalities", JArr [JStr "text"]);
           ("instructions", JStr extraction_instructions)])].

Definition closing_phrases : list string :=
  ["interview is complete";
   "thank you for your time";
   "take care and goodbye";
   "goodbye";
   "telephonic interview is complete"].

(** *** The variables of one [media_stream] call *)

(** [stream_sid] and [extraction_done] are the [nonlocal] variables of the
    two tasks; [conversation_turns] is the local counter of
    [openai_to_twilio]. *)
Record vars : Type := {
  stream_sid : json;
  extraction_done : bool;
  conversation_turns : Z
}.

Definition initial_vars : vars :=
  {| stream_sid := JNull; extraction_done := false; conversation_turns := 0 |}.

Definition set_stream_sid (v : json) : M vars unit :=
  s <- read ;;
  write {| stream_sid := v;
           extraction_done := extraction_done s;
           conversation_turns := conversation_turns s |}.

Definition set_extraction_done (b : bool) : M vars unit :=
  s <- read ;;
  write {| stream_sid := stream_sid s;
           extraction_done := b;
           conversation_turns := conversation_turns s |}.

Definition incr_conversation_turns : M vars unit :=
  s <- read ;;
  write {| stream_sid := stream_sid s;
           extraction_done := extraction_done s;
           conversation_turns := conversation_turns s + 1 |}.

(** *** Twilio -> OpenAI *)

(** The [if]/[elif] chain of [twilio_to_openai] on the decoded frame [msg],
    [event] being the value of [msg["event"]] (the source evaluates it
    again in each [elif], with the same result). *)
Definition route (msg event : json) (answer : option exn) : M vars flow :=
  if eq_str event "start" then
    start <- eval (getitem msg "start") ;;
    sid <- eval (getitem start "streamSid") ;;
    set_stream_sid sid ;;
    print_f "Stream started:" sid ;;
    ret Next
  else if eq_str event "media" then
    media <- eval (getitem msg "media") ;;
    payload <- eval (getitem media "payload") ;;
    await_send
      (AISend (JObj [("type", JStr "input_audio_buffer.append");
                     ("audio", payload)]))
      answer ;;
    ret Next
  else if eq_str event "stop" then
    await_send
      (AISend (JObj [("type", JStr "input_audio_buffer.commit")]))
      answer ;;
    ret Break
  else ret Next.

(** One turn of the [while True] of [twilio_to_openai]. *)
Definition twilio_to_openai_body (a : arrival) : M vars flow :=
  text <- await_receive (fst a) ;;
  msg <- eval (Json.loads text) ;;
  event <- eval (getitem msg "event") ;;
  route msg event (snd a).

(** The [try] around the loop: only [WebSocketDisconnect] is caught. *)
Definition twilio_to_openai (a : arrival) (s : vars)
  : vars * list action * status :=
  match twilio_to_openai_body a s with
  | (s1, t, inr Next) => (s1, t, Running)
  | (s1, t, inr Break) => (s1, t, Returned)
  | (s1, t, inl WebSocketDisconnect) =>
      (s1, t ++ [Log "Twilio disconnected" []], Returned)
  | (s1, t, inl e) => (s1, t, Raised e)
  end.

(** *** OpenAI -> Twilio *)

(** [re.search(r'\{.*\}', extracted_text, re.DOTALL)], then [.group()]:
    a [TypeError] when the text is not a [str]. *)
Definition re_search (v : json) : result (option string) :=
  match v with
  | JStr s => inr (Regex.search_braces s)
  | _ => inl TypeError
  end.

(** [candidate_data.items()]: only a dict has the method. *)
Definition items (v : json) : result (list (string * json)) :=
  match v with
  | JObj d => inr d
  | _ => inl AttributeError
  end.

Definition rule : string := String.concat "" (repeat "=" 50).

Fixpoint print_fields (d : list (string * json)) : M vars unit :=
  match d with
  | [] => ret tt
  | (key, value) :: r => print_field key value ;; print_fields r
  end.

(** The body of the [try] of the extraction branch. *)
Definition parse_extraction (extracted_text : json) : M vars unit :=
  json_match <- eval (re_search extracted_text) ;;
  match json_match with
  | Some group =>
      candidate_data <- eval (Json.loads group) ;;
      act (Log rule []) ;;
      act (Log "EXTRACTED CANDIDATE DATA:" []) ;;
      act (Log rule []) ;;
      d <- eval (items candidate_data) ;;
      print_fields d ;;
      act (Log rule [])
  | None => act (Log "No JSON found in extraction response" [])
  end.

(** Its two [except] clauses. *)
Definition extraction_handler (e : exn) : M vars unit :=
  match e with
  | JSONDecodeError => act (LogExn "Failed to parse extraction JSON:" e)
  | _ => act (LogExn "Error processing extraction:" e)
  end.

(** The [if]/[elif] chain of [openai_to_twilio] on the decoded [event] of
    type [etype]. *)
Definition dispatch (event etype : json) (answer : option exn) : M vars flow :=
  s <- read ;;
  if eq_str etype "response.audio.delta" && truthy (stream_sid s) then
    delta <- eval (getitem event "delta") ;;
    await_send
      (PhoneSend (JObj [("event", JStr "media");
                        ("streamSid", stream_sid s);
                        ("media", JObj [("payload", delta)])]))
      answer ;;
    ret Next
  else if eq_str etype "conversation.item.input_audio_transcription.completed"
  then
    user_text <- eval (get event "transcript" (JStr "")) ;;
    print "User:" user_text ;;
    incr_conversation_turns ;;
    s <- read ;;
    if negb (extraction_done s) && (15 <? conversation_turns s)%Z then
      act (Log "Auto-triggering extraction after 15+ turns..." []) ;;
      set_extraction_done true ;;
      await_send (AISend extraction_prompt) answer ;;
      ret Next
    else ret Next
  else if eq_str etype "response.audio_transcript.done" then
    text <- eval (get event "transcript" (JStr "")) ;;
    print "AI:" text ;;
    s <- read ;;
    closing <-
      (if negb (extraction_done s)
       then low <- eval (str_lower text) ;; ret (any_in closing_phrases low)
       else ret false) ;;
    if closing then
      act (Log "Triggering data extraction..." []) ;;
      set_extraction_done true ;;
      await_send (AISend extraction_prompt) answer ;;
      ret Next
    else ret Next
  else if eq_str etype "response.output_text.done" then
    extracted_text <- eval (get event "text" (JStr "")) ;;
    s <- read ;;
    if extraction_done s && truthy extracted_text then
      print "EXTRACTION RESPONSE:" extracted_text ;;
      try_except (parse_extraction extracted_text) extraction_handler ;;
      ret Next
    else ret Next
  else if eq_str etype "response.text.done" then
    text_content <- eval (get event "text" (JStr "")) ;;
    s <- read ;;
    if extraction_done s && truthy text_content then
      print "TEXT EXTRACTION:" text_content ;;
      ret Next
    else ret Next
  else ret Next.

(** One turn of the [while True] of [openai_to_twilio]. *)
Definition openai_to_twilio_body (a : arrival) : M vars flow :=
  message <- await_receive (fst a) ;;
  event <- eval (Json.loads message) ;;
  etype <- eval (get event "type" JNull) ;;
  dispatch event etype (snd a).

(** The loop has no [try] and no [break]: it ends only by an exception. *)
Definition openai_to_twilio (a : arrival) (s : vars)
  : vars * list action * status :=
  match openai_to_twilio_body a s with
  | (s1, t, inr Next) => (s1, t, Running)
  | (s1, t, inr Break) => (s1, t, Returned)
  | (s1, t, inl e) => (s1, t, Raised e)
  end.

(** *** The session: both tasks under [asyncio.gather] *)

Record session : Type := {
  variables : vars;
  inbound : status;     (** [twilio_to_openai] *)
  outbound : status     (** [openai_to_twilio] *)
}.

(** A message is handled by its task when that task is still in its loop;
    the other task's variables are shared, nothing else of it is touched. *)
Definition step (s : session) (i : input) : session * list action :=
  match i with
  | FromPhone a =>
      match inbound s with
      | Running =>
          let '(v, t, st) := twilio_to_openai a (variables s) in
          ({| variables := v; inbound := st; outbound := outbound s |}, t)
      | _ => (s, [])
      end
  | FromAI a =>
      match outbound s with
      | Running =>
          let '(v, t, st) := openai_to_twilio a (variables s) in
          ({| variables := v; inbound := inbound s; outbound := st |}, t)
      | _ => (s, [])
      end
  end.

Definition run (s : session) (ins : list input) : session * list action :=
  iterate step s ins.

(** [asyncio.gather(a, b)] without [return_exceptions]: it returns when
    both have returned and re-raises as soon as one has raised; it cancels
    neither. *)
Definition gather (a b : status) : option (result unit) :=
  match a, b with
  | Raised e, _ => Some (inl e)
  | _, Raised e => Some (inl e)
  | Returned, Returned => Some (inr tt)
  | _, _ => None
  end.

(** [media_stream] up to the start of the two tasks.  [key] is
    [OPENAI_REALTIME_API_KEY]; [connect], [a1] and [a2] are the
    environment's answers to [websockets.connect] and to the two sends. *)
Definition open_session (key : option string) (connect a1 a2 : option exn)
  : list action * result bool :=
  act_of (
    act (Log "Twilio WebSocket connected" []) ;;
    if match key with None => true | Some k => String.eqb k "" end then
      act (PhoneClose 1008 "Missing OpenAI API key") ;;
      ret false
    else
      match connect with Some e => raise e | None => ret tt end ;;
      await_send (AISend session_config) a1 ;;
      await_send (AISend greeting_message) a2 ;;
      ret true) initial_vars.

Definition initial : session :=
  {| variables := initial_vars; inbound := Running; outbound := Running |}.

(** The trace of a whole call of [media_stream]: the opening, then the
    messages [ins] of the two tasks. *)
Definition media_stream (key : option string) (connect a1 a2 : option exn)
    (ins : list input) : list action :=
  match open_session key connect a1 a2 with
  | (t, inr true) => t ++ snd (run initial ins)
  | (t, _) => t
  end.

End NewServer.

(* ===================================================================== *)
(** ** [server.py] *)
(* ===================================================================== *)

Module Server.
Import Py Relay Prompt.
Local Open Scope relay_scope.

Definition session_config : json :=
  JObj [("type", JStr "session.update");
        ("session", JObj [
           ("modalities", JArr [JStr "text"; JStr "audio"]);
           ("instructions", JStr SYSTEM_INSTRUCTIONS);
           ("voice", JStr "alloy");
           ("input_audio_format", JStr "g711_ulaw");
           ("output_audio_format", JStr "g711_ulaw");
           ("input_audio_transcription", JObj [("model", JStr "whisper-1")]);
           ("turn_detection", JObj [
              ("type", JStr "server_vad");
              ("threshold", half);
              ("prefix_padding_ms", num 300);
              ("silence_duration_ms", num 700)]);
           ("temperature", point8)])].

Definition greeting_instructions : string :=
  ("Hello, I am AIRA from Kainskep Solutions. "
   ++ "Are you currently looking for a job or considering a job change?")%string.

Definition greeting_message : json :=
  JObj [("type", JStr "response.create");
        ("response", JObj [
           ("modalities", JArr [JStr "text"; JStr "audio"]);
           ("instructions", JStr greeting_instructions)])].

Definition extraction_instructions : string :=
  ("Extract candidate information from the full conversation so far. "
   ++ "Return STRICT JSON ONLY with the following keys:" ++ nl
   ++ "{"
   ++ q "'full_name': string or null, "
   ++ q "'email': string or null, "
   ++ q "'role': string or null, "
   ++ q "'last_company_name': string or null, "
   ++ q "'experience': string or null, "
   ++ q "'previous_salary': string or null, "
   ++ q "'expected_salary': string or null"
   ++ "}")%string.

Definition final_extraction : json :=
  JObj [("type", JStr "response.create");
        ("response", JObj [
           ("modalities", JArr [JStr "text"]);
           ("instructions", JStr extraction_instructions)])].

Definition closing_phrases : list string :=
  ["interview is complete";
   "interview is done";
   "thank you for your time"].

(** [stream_sid], [interview_completed] and [extraction_requested] are the
    variables of [media_stream] that the tasks share; [audio_count] is the
    local counter of [twilio_to_openai]. *)
Record vars : Type := {
  stream_sid : json;
  interview_completed : bool;
  extraction_requested : bool;
  audio_count : Z
}.

Definition initial_vars : vars :=
  {| stream_sid := JNull; interview_completed := false;
     extraction_requested := false; audio_count := 0 |}.

Definition set_stream_sid (v : json) : M vars unit :=
  s <- read ;;
  write {| stream_sid := v;
           interview_completed := interview_completed s;
           extraction_requested := extraction_requested s;
           audio_count := audio_count s |}.

Definition set_extraction_requested (b : bool) : M vars unit :=
  s <- read ;;
  write {| stream_sid := stream_sid s;
           interview_completed := interview_completed s;
           extraction_requested := b;
           audio_count := audio_count s |}.

Definition set_interview_completed (b : bool) : M vars unit :=
  s <- read ;;
  write {| stream_sid := stream_sid s;
           interview_completed := b;
           extraction_requested := extraction_requested s;
           audio_count := audio_count s |}.

Definition incr_audio_count : M vars unit :=
  s <- read ;;
  write {| stream_sid := stream_sid s;
           interview_completed := interview_completed s;
           extraction_requested := extraction_requested s;
           audio_count := audio_count s + 1 |}.

(** *** Twilio -> OpenAI *)

(** The [if]/[elif] chain of [twilio_to_openai] on the decoded frame
    [data], [event] being the value of [data['event']] (evaluated again in
    each [elif] of the source, with the same result). *)
Definition route (data event : json) (answer : option exn) : M vars flow :=
  if eq_str event "start" then
    start <- eval (getitem data "start") ;;
    sid <- eval (getitem start "streamSid") ;;
    set_stream_sid sid ;;
    print_f "Stream started:" sid ;;
    ret Next
  else if eq_str event "media" then
    media <- eval (getitem data "media") ;;
    audio_payload <- eval (getitem media "payload") ;;
    await_send
      (AISend (JObj [("type", JStr "input_audio_buffer.append");
                     ("audio", audio_payload)]))
      answer ;;
    incr_audio_count ;;
    s <- read ;;
    if (audio_count s mod 100 =? 0)%Z then
      act (Log "Received audio packets from caller:" [num (audio_count s)]) ;;
      ret Next
    else ret Next
  else if eq_str event "stop" then
    act (Log "Stream stopped by Twilio" []) ;;
    await_send
      (AISend (JObj [("type", JStr "input_audio_buffer.commit")]))
      answer ;;
    ret Break
  else ret Next.

(** The inner [try] of the loop of [twilio_to_openai]. *)
Definition twilio_to_openai_try (a : arrival) : M vars flow :=
  message <- await_receive (fst a) ;;
  data <- eval (Json.loads message) ;;
  event <- eval (getitem data "event") ;;
  route data event (snd a).

(** Its two [except] clauses: both end the loop. *)
Definition twilio_to_openai_except (e : exn) : M vars flow :=
  match e with
  | WebSocketDisconnect => act (Log "Twilio disconnected" []) ;; ret Break
  | _ => act (LogExn "Error receiving from Twilio:" e) ;; ret Break
  end.

Definition twilio_to_openai_body (a : arrival) : M vars flow :=
  try_except (twilio_to_openai_try a) twilio_to_openai_except.

(** The outer [try] catches what is left (nothing can be). *)
Definition twilio_to_openai (a : arrival) (s : vars)
  : vars * list action * status :=
  match twilio_to_openai_body a s with
  | (s1, t, inr Next) => (s1, t, Running)
  | (s1, t, inr Break) => (s1, t, Returned)
  | (s1, t, inl e) => (s1, t ++ [LogExn "Error in Twilio->OpenAI:" e], Returned)
  end.

(** *** OpenAI -> Twilio *)

(** The events that are only logged: type and printed line. *)
Definition logged_events : list (string * string) :=
  [("session.created", "OpenAI session created");
   ("session.updated", "OpenAI session updated");
   ("input_audio_buffer.speech_started", "User started speaking");
   ("input_audio_buffer.speech_stopped", "User stopped speaking");
   ("input_audio_buffer.committed", "Audio buffer committed");
   ("response.created", "AI is generating response...")].

Fixpoint logged_line (ty : json) (l : list (string * string)) : option string :=
  match l with
  | [] => None
  | (name, line) :: r => if eq_str ty name then Some line else logged_line ty r
  end.

(** The [if]/[elif] chain of [openai_to_twilio] on the decoded
    [response], [ty] being the value of [response['type']]; the first six
    branches of the source, which only print, are the table
    [logged_events]. *)
Definition dispatch (response ty : json) (answer : option exn) : M vars flow :=
  match logged_line ty logged_events with
  | Some line => act (Log line []) ;; ret Next
  | None =>
    if eq_str ty "response.audio.delta" then
      s <- read ;;
      if truthy (stream_sid s) then
        audio_delta <- eval (getitem response "delta") ;;
        await_send
          (PhoneSend (JObj [("event", JStr "media");
                            ("streamSid", stream_sid s);
                            ("media", JObj [("payload", audio_delta)])]))
          answer ;;
        ret Next
      else ret Next
    else if eq_str ty "response.audio.done" then
      act (Log "AI finished speaking" []) ;;
      ret Next
    else if eq_str ty "response.audio_transcript.done" then
      transcript <- eval (get response "transcript" (JStr "")) ;;
      print_f "AI said:" transcript ;;
      s <- read ;;
      closing <-
        (if negb (extraction_requested s)
         then low <- eval (str_lower transcript) ;;
              ret (any_in closing_phrases low)
         else ret false) ;;
      if closing then
        act (Log "Interview completion detected - starting extraction" []) ;;
        set_extraction_requested true ;;
        set_interview_completed true ;;
        await_send (AISend final_extraction) answer ;;
        ret Next
      else ret Next
    else if eq_str ty "conversation.item.input_audio_transcription.completed"
    then
      transcript <- eval (get response "transcript" (JStr "")) ;;
      print_f "User said:" transcript ;;
      ret Next
    else if eq_str ty "error" then
      error_info <- eval (get response "error" (JObj [])) ;;
      print_f "OpenAI error:" error_info ;;
      ret Next
    else if eq_str ty "response.output_text.delta" then
      delta <- eval (getitem response "delta") ;;
      print "Extraction chunk:" delta ;;
      ret Next
    else if eq_str ty "response.output_text.done" then
      extracted_json <- eval (get response "text" (JStr "")) ;;
      print "FINAL CANDIDATE DATA:" extracted_json ;;
      ret Next
    else ret Next
  end.

(** The inner [try] of the loop of [openai_to_twilio]. *)
Definition openai_to_twilio_try (a : arrival) : M vars flow :=
  message <- await_receive (fst a) ;;
  response <- eval (Json.loads message) ;;
  ty <- eval (getitem response "type") ;;
  dispatch response ty (snd a).

(** Its two [except] clauses: both end the loop. *)
Definition openai_to_twilio_except (e : exn) : M vars flow :=
  match e with
  | ConnectionClosed => act (Log "OpenAI connection closed" []) ;; ret Break
  | _ => act (LogExn "Error receiving from OpenAI:" e) ;; ret Break
  end.

Definition openai_to_twilio_body (a : arrival) : M vars flow :=
  try_except (openai_to_twilio_try a) openai_to_twilio_except.

Definition openai_to_twilio (a : arrival) (s : vars)
  : vars * list action * status :=
  match openai_to_twilio_body a s with
  | (s1, t, inr Next) => (s1, t, Running)
  | (s1, t, inr Break) => (s1, t, Returned)
  | (s1, t, inl e) => (s1, t ++ [LogExn "Error in OpenAI->Twilio:" e], Returned)
  end.

(** *** The session: [gather], then [finally] *)

Record session : Type := {
  variables : vars;
  inbound : status;     (** [twilio_to_openai] *)
  outbound : status;    (** [openai_to_twilio] *)
  closed : bool         (** the [finally] block has run *)
}.

Definition gather (a b : status) : option (result unit) :=
  match a, b with
  | Raised e, _ => Some (inl e)
  | _, Raised e => Some (inl e)
  | Returned, Returned => Some (inr tt)
  | _, _ => None
  end.

(** What follows [await asyncio.gather(...)] once it is over: the
    [except] clause of [media_stream] when it raised, then [finally]. *)
Definition finish (s : session) : session * list action :=
  if closed s then (s, [])
  else
    match gather (inbound s) (outbound s) with
    | None => (s, [])
    | Some r =>
        ({| variables := variables s; inbound := inbound s;
            outbound := outbound s; closed := true |},
         match r with
         | inl e => [LogExn "WebSocket error:" e]
         | inr _ => []
         end ++ [AIClose; Log "Connections closed" []])
    end.

Definition deliver (s : session) (i : input) : session * list action :=
  match i with
  | FromPhone a =>
      match inbound s with
      | Running =>
          let '(v, t, st) := twilio_to_openai a (variables s) in
          ({| variables := v; inbound := st; outbound := outbound s;
              closed := closed s |}, t)
      | _ => (s, [])
      end
  | FromAI a =>
      match outbound s with
      | Running =>
          let '(v, t, st) := openai_to_twilio a (variables s) in
          ({| variables := v; inbound := inbound s; outbound := st;
              closed := closed s |}, t)
      | _ => (s, [])
      end
  end.

Definition step (s : session) (i : input) : session * list action :=
  let '(s1, t1) := deliver s i in
  let '(s2, t2) := finish s1 in
  (s2, t1 ++ t2).

Definition run (s : session) (ins : list input) : session * list action :=
  iterate step s ins.

Definition placeholder_key : string := "your-openai-realtime-api-key-here".

(** [media_stream] up to the start of the two tasks; an exception of the
    connect or of a send is caught by the [except] of [media_stream], and
    [finally] closes the AI connection when there is one.  The lines that
    print the endpoint, the model and the URL before the connect depend on
    the configuration only and are left out; the configuration is taken
    to be text that standard output can encode. *)
Definition open_session (key : option string) (connect a1 a2 : option exn)
  : list action * result bool :=
  act_of (
    act (Log "Twilio WebSocket connected!" []) ;;
    if match key with
       | None => true
       | Some k => String.eqb k "" || String.eqb k placeholder_key
       end
    then
      act (Log "ERROR: OPENAI_REALTIME_API_KEY not configured in .env!" []) ;;
      act (Log "Please update .env with your OpenAI Realtime API key" []) ;;
      act (PhoneClose 1008 "OpenAI API key not configured") ;;
      ret false
    else
      act (Log "Connecting to OpenAI Realtime API..." []) ;;
      match connect with
      | Some e =>
          act (LogExn "WebSocket error:" e) ;;
          act (Log "Connections closed" []) ;;
          ret false
      | None =>
          act (Log "Connected to OpenAI Realtime API!" []) ;;
          try_except
            (await_send (AISend session_config) a1 ;;
             act (Log "Session configured with g711_ulaw audio format" []) ;;
             await_send (AISend greeting_message) a2 ;;
             act (Log "Sent greeting request to AI" []) ;;
             ret true)
            (fun e =>
               act (LogExn "WebSocket error:" e) ;;
               act AIClose ;;
               act (Log "Connections closed" []) ;;
               ret false)
      end) initial_vars.

Definition initial : session :=
  {| variables := initial_vars; inbound := Running; outbound := Running;
     closed := false |}.

(** The trace of a whole call of [media_stream]: the opening, then the
    messages [ins] of the two tasks. *)
Definition media_stream (key : option string) (connect a1 a2 : option exn)
    (ins : list input) : list action :=
  match open_session key connect a1 a2 with
  | (t, inr true) => t ++ snd (run initial ins)
  | (t, _) => t
  end.

End Server.

(* ===================================================================== *)
(** ** The two servers side by side *)
(* ===================================================================== *)

(** Properties that hold of both files are stated once, over the index
    [variant]. *)
Module Both.
Import Py Relay.

Inductive variant : Type :=
| new_server    (** [newServer.py] *)
| old_server.   (** [server.py] *)

Definition vars_of (k : variant) : Type :=
  match k with
  | new_server => NewServer.vars
  | old_server => Server.vars
  end.

Definition session_of (k : variant) : Type :=
  match k with
  | new_server => NewServer.session
  | old_server => Server.session
  end.

Definition initial_vars_of (k : variant) : vars_of k :=
  match k with
  | new_server => NewServer.initial_vars
  | old_server => Server.initial_vars
  end.

Definition initial_of (k : variant) : session_of k :=
  match k with
  | new_server => NewServer.initial
  | old_server => Server.initial
  end.

Definition variables_of (k : variant) : session_of k -> vars_of k :=
  match k with
  | new_server => NewServer.variables
  | old_server => Server.variables
  end.

Definition inbound_of (k : variant) : session_of k -> status :=
  match k with
  | new_server => NewServer.inbound
  | old_server => Server.inbound
  end.

Definition outbound_of (k : variant) : session_of k -> status :=
  match k with
  | new_server => NewServer.outbound
  | old_server => Server.outbound
  end.

(** The stream correlation id. *)
Definition sid (k : variant) : vars_of k -> json :=
  match k with
  | new_server => NewServer.stream_sid
  | old_server => Server.stream_sid
  end.

(** The guard of the extraction request: [extraction_done] in
    [newServer.py], [extraction_requested] in [server.py]. *)
Definition requested (k : variant) : vars_of k -> bool :=
  match k with
  | new_server => NewServer.extraction_done
  | old_server => Server.extraction_requested
  end.

Definition closing_phrases_of (k : variant) : list string :=
  match k with
  | new_server => NewServer.closing_phrases
  | old_server => Server.closing_phrases
  end.

(** The extraction request of each file. *)
Definition extraction_request_of (k : variant) : json :=
  match k with
  | new_server => NewServer.extraction_prompt
  | old_server => Server.final_extraction
  end.

(** The line printed when a closing phrase starts the extraction. *)
Definition closing_line_of (k : variant) : string :=
  match k with
  | new_server => "Triggering data extraction..."
  | old_server => "Interview completion detected - starting extraction"
  end.

(** The line printed for an assistant transcript. *)
Definition transcript_line_of (k : variant) : string :=
  match k with
  | new_server => "AI:"
  | old_server => "AI said:"
  end.

(** How each file reads the type of an event: [event.get("type")] or
    [response['type']]. *)
Definition event_type (k : variant) (event : json) : result json :=
  match k with
  | new_server => get event "type" JNull
  | old_server => getitem event "type"
  end.

Definition twilio_task (k : variant)
  : arrival -> vars_of k -> vars_of k * list action * status :=
  match k with
  | new_server => NewServer.twilio_to_openai
  | old_server => Server.twilio_to_openai
  end.

Definition openai_task (k : variant)
  : arrival -> vars_of k -> vars_of k * list action * status :=
  match k with
  | new_server => NewServer.openai_to_twilio
  | old_server => Server.openai_to_twilio
  end.

Definition step_of (k : variant)
  : session_of k -> input -> session_of k * list action :=
  match k with
  | new_server => NewServer.step
  | old_server => Server.step
  end.

Definition run_of (k : variant) (s : session_of k) (ins : list input)
  : session_of k * list action :=
  iterate (step_of k) s ins.

Definition media_stream_of (k : variant)
  : option string -> option exn -> option exn -> option exn -> list input
    -> list action :=
  match k with
  | new_server => NewServer.media_stream
  | old_server => Server.media_stream
  end.

(** The variables, the trace and the status that a task step returns. *)
Definition vars_after {V : Type} (x : V * list action * status) : V :=
  fst (fst x).
Definition trace_of {V : Type} (x : V * list action * status) : list action :=
  snd (fst x).
Definition status_of {V : Type} (x : V * list action * status) : status :=
  snd x.

End Both.

(* ===================================================================== *)
(** ** The vocabulary of the properties *)
(* ===================================================================== *)

Module Trace.
Import Py Relay Prompt Both.

(** The instructions of a [response.create] command. *)
Definition instructions_of (cmd : json) : option string :=
  match getitem cmd "response" with
  | inr r => match getitem r "instructions" with
             | inr (JStr i) => Some i
             | _ => None
             end
  | inl _ => None
  end.

Definition quoted (f : string) : string := (str1 dquote ++ f ++ str1 dquote)%string.

(** The instructions ask for a JSON object with the seven fields. *)
Definition asks_seven_fields (i : string) : bool :=
  contains "STRICT JSON" i
  && forallb (fun f => contains (quoted f) i) candidate_fields.

(** An extraction request: a [response.create] sent into the AI session
    that carries the seven-field strict-JSON instructions. *)
Definition is_extraction_request (a : action) : bool :=
  match a with
  | AISend cmd =>
      match getitem cmd "type", instructions_of cmd with
      | inr ty, Some i => eq_str ty "response.create" && asks_seven_fields i
      | _, _ => false
      end
  | _ => false
  end.

Definition count_extraction (t : list action) : nat :=
  List.length (filter is_extraction_request t).

Definition is_phone_send (a : action) : bool :=
  match a with PhoneSend _ => true | _ => false end.

Definition is_ai_close (a : action) : bool :=
  match a with AIClose => true | _ => false end.

Definition is_ai_send (a : action) : bool :=
  match a with AISend _ => true | _ => false end.

Definition is_log (a : action) : bool :=
  match a with
  | Log _ _ | LogCut _ | LogExn _ _ | LogField _ _ => true
  | _ => false
  end.

Definition no_phone_send (t : list action) : bool :=
  forallb (fun a => negb (is_phone_send a)) t.

Definition no_ai_close (t : list action) : bool :=
  forallb (fun a => negb (is_ai_close a)) t.

Definition count_ai_close (t : list action) : nat :=
  List.length (filter is_ai_close t).

(** The [media] message sent to the phone, and the two commands that
    feed the input audio buffer of the AI session. *)
Definition media_message (sid payload : json) : json :=
  JObj [("event", JStr "media"); ("streamSid", sid);
        ("media", JObj [("payload", payload)])].

Definition append_command (payload : json) : json :=
  JObj [("type", JStr "input_audio_buffer.append"); ("audio", payload)].

Definition commit_command : json :=
  JObj [("type", JStr "input_audio_buffer.commit")].

(** The message decoded from an arrival, with its type as the file [k]
    reads it, when the receive, the decoding and the reading succeed. *)
Definition decoded (k : variant) (a : arrival) : option (json * json) :=
  match fst a with
  | Text m =>
      match Json.loads m with
      | inr event =>
          match event_type k event with
          | inr ty => Some (event, ty)
          | inl _ => None
          end
      | inl _ => None
      end
  | Fails _ => None
  end.

(** A finalized user transcript. *)
Definition is_user_transcript (k : variant) (i : input) : bool :=
  match i with
  | FromAI a =>
      match decoded k a with
      | Some (_, ty) =>
          eq_str ty "conversation.item.input_audio_transcription.completed"
      | None => false
      end
  | FromPhone _ => false
  end.

(** A finalized assistant transcript whose text matches a closing phrase
    of the file [k]. *)
Definition is_closing_transcript (k : variant) (i : input) : bool :=
  match i with
  | FromAI a =>
      match decoded k a with
      | Some (event, ty) =>
          eq_str ty "response.audio_transcript.done"
          && match get event "transcript" (JStr "") with
             | inr (JStr text) => any_in (closing_phrases_of k) (lower text)
             | _ => false
             end
      | None => false
      end
  | FromPhone _ => false
  end.


Definition user_turns (k : variant) (ins : list input) : nat :=
  List.length (filter (is_user_transcript k) ins).


(** A [start] frame of the phone side. *)
Definition is_start_frame (i : input) : bool :=
  match i with
  | FromPhone a =>
      match fst a with
      | Text m =>
          match Json.loads m with
          | inr msg =>
              match getitem msg "event" with
              | inr event => eq_str event "start"
              | inl _ => false
              end
          | inl _ => false
          end
      | Fails _ => false
      end
  | FromAI _ => false
  end.

Definition no_start_frame (ins : list input) : bool :=
  forallb (fun i => negb (is_start_frame i)) ins.

(** [path msg k1 k2] is [msg[k1][k2]]. *)
Definition path (msg : json) (k1 k2 : string) : result json :=
  match getitem msg k1 with
  | inr x => getitem x k2
  | inl e => inl e
  end.

(** The exception that reading the expected fields of a frame raises: the
    frame has no [event], or it is a [start] without [start.streamSid], or
    a [media] without [media.payload]. *)
Definition missing_field (msg : json) : option exn :=
  match getitem msg "event" with
  | inl e => Some e
  | inr event =>
      if eq_str event "start" then
        match path msg "start" "streamSid" with
        | inl e => Some e
        | inr _ => None
        end
      else if eq_str event "media" then
        match path msg "media" "payload" with
        | inl e => Some e
        | inr _ => None
        end
      else None
  end.

(** The lines that [newServer.py] prints for the fields of a decoded
    record. *)
Definition field_lines (d : list (string * json)) : list action :=
  map (fun kv => LogField (fst kv) (snd kv)) d.

(** Standard output can encode the line of the field. *)
Definition field_encodable (kv : string * json) : bool :=
  negb (has_surrogate (fst kv)) && encodable (snd kv).

(** The fields before the first one whose line cannot be encoded. *)
Fixpoint shown (d : list (string * json)) : list (string * json) :=
  match d with
  | [] => []
  | kv :: r => if field_encodable kv then kv :: shown r else []
  end.

(** What is printed for a decoded record: the heading, the fields in
    order, and the closing rule; at the first field whose line cannot be
    encoded, the report of the error instead of the rest. *)
Definition display (d : list (string * json)) : list action :=
  [Log NewServer.rule []; Log "EXTRACTED CANDIDATE DATA:" [];
   Log NewServer.rule []]
  ++ field_lines (shown d)
  ++ [if forallb field_encodable d then Log NewServer.rule []
      else LogExn "Error processing extraction:" UnicodeEncodeError].

(** What the extraction branch of [newServer.py] binds to
    [candidate_data], when it gets that far. *)
Definition candidate_data (text : string) : option json :=
  match Regex.search_braces text with
  | Some group =>
      match Json.loads group with
      | inr v => Some v
      | inl _ => None
      end
  | None => None
  end.

(** What the extraction branch of [newServer.py] prints after the line
    that echoes the text: the record, or the report of a failure. *)
Definition parse_report (text : string) : list action :=
  match Regex.search_braces text with
  | None => [Log "No JSON found in extraction response" []]
  | Some group =>
      match Json.loads group with
      | inl JSONDecodeError =>
          [LogExn "Failed to parse extraction JSON:" JSONDecodeError]
      | inl e => [LogExn "Error processing extraction:" e]
      | inr (JObj d) => display d
      | inr _ =>
          [Log NewServer.rule []; Log "EXTRACTED CANDIDATE DATA:" [];
           Log NewServer.rule [];
           LogExn "Error processing extraction:" AttributeError]
      end
  end.



(** Both tasks of a [server.py] session have ended. *)
Definition both_ended (s : Server.session) : bool :=
  terminated (Server.inbound s) && terminated (Server.outbound s).

(** No task of [server.py] has ended with an exception, and [finally] has
    run exactly when both tasks have ended. *)
Definition settled (s : Server.session) : Prop :=
  (Server.inbound s = Running \/ Server.inbound s = Returned)
  /\ (Server.outbound s = Running \/ Server.outbound s = Returned)
  /\ Server.closed s = both_ended s.

(** The guard flag of a session. *)
Definition flag (k : variant) (s : session_of k) : bool :=
  requested k (variables_of k s).

(** The turn counter of a [newServer.py] session. *)
Definition turns (s : NewServer.session) : Z :=
  NewServer.conversation_turns (NewServer.variables s).

Definition one_if (b : bool) : Z := if b then 1%Z else 0%Z.

End Trace.

(* ===================================================================== *)
(** ** Messages used in the examples *)
(* ===================================================================== *)

Module Examples.
Import Py Relay.

Definition start_frame : string :=
  q "{'event':'start','start':{'streamSid':'MZ18ad3ab5a668481ce02b83e7395059f0'}}".
Definition media_frame : string :=
  q "{'event':'media','media':{'track':'inbound','payload':'fn5+fn5+'}}".
Definition stop_frame : string := q "{'event':'stop'}".
Definition mark_frame : string := q "{'event':'mark','mark':{'name':'m1'}}".
(** Frames that lack an expected field. *)
Definition no_event_frame : string := q "{'media':{'payload':'fn5+'}}".
Definition no_payload_frame : string := q "{'event':'media','media':{}}".
Definition no_sid_frame : string := q "{'event':'start','start':{}}".

Definition session_updated_event : string := q "{'type':'session.updated'}".
Definition delta_event : string :=
  q "{'type':'response.audio.delta','delta':'/v7+/v7+'}".
Definition user_event : string :=
  q "{'type':'conversation.item.input_audio_transcription.completed','transcript':'Yes, I am.'}".
Definition closing_event : string :=
  q "{'type':'response.audio_transcript.done','transcript':'Thank You for your time. Your telephonic interview is complete.'}".
Definition question_event : string :=
  q "{'type':'response.audio_transcript.done','transcript':'Which role are you looking for?'}".

Definition jane_event : string :=
  q "{'type':'response.output_text.done','text':'Here you go: {\'full_name\':\'Jane Doe\',\'email\':null,\'role\':\'Backend Engineer\'}'}".
Definition no_json_event : string :=
  q "{'type':'response.output_text.done','text':'I could not extract anything.'}".
Definition bad_json_event : string :=
  q "{'type':'response.output_text.done','text':'{full_name: Jane}'}".

Definition ok (m : string) : arrival := (Text m, None).

(** The phone side hangs up. *)
Definition hangup : input := FromPhone (Fails WebSocketDisconnect, None).

(** The variables of [newServer.py] once the extraction was requested. *)
Definition after_request : NewServer.vars :=
  {| NewServer.stream_sid := JNull;
     NewServer.extraction_done := true;
     NewServer.conversation_turns := 0 |}.

(** Sixteen finalized user transcripts. *)
Definition sixteen_user_turns : list input := repeat (FromAI (ok user_event)) 16.

End Examples.


(* ===================================================================== *)
(** ** The configuration and the connection to the AI service *)
(* ===================================================================== *)

(** Both servers read their configuration from the process environment
    when the module is loaded, and build from it the URL and the headers
    of the connection to the AI service: [build_openai_connection] in
    [newServer.py], the same lines inside [media_stream] in [server.py]. *)
Module Config.
Import Py.

(** [os.environ] once [load_dotenv()] has run. *)
Definition environ : Type := string -> option string.

(** [os.getenv(name)] and [os.getenv(name, default)]. *)
Definition getenv (env : environ) (name : string) : option string := env name.

Definition getenv_or (env : environ) (name default : string) : string :=
  match env name with
  | Some v => v
  | None => default
  end.

(** The value of an environment variable as a Python value, and as an
    f-string prints it. *)
Definition value (v : option string) : json :=
  match v with
  | Some s => JStr s
  | None => JNull
  end.

Definition format (v : option string) : string :=
  match v with
  | Some s => s
  | None => "None"
  end.

(** [s.replace(old, new)] for an [old] that is not empty: the occurrences
    of [old] are replaced from the left, and the search goes on after each
    one.  [skip] counts the characters of the occurrence found last that
    are still to be passed. *)
Fixpoint replace_from (skip : nat) (old new s : string) : string :=
  match s with
  | EmptyString => EmptyString
  | String c r =>
      match skip with
      | S n => replace_from n old new r
      | O =>
          if String.prefix old s
          then (new ++ replace_from (String.length old - 1) old new r)%string
          else String c (replace_from 0 old new r)
      end
  end.

Definition replace (old new s : string) : string := replace_from 0 old new s.

Definition OPENAI_REALTIME_API_KEY (env : environ) : option string :=
  getenv env "OPENAI_REALTIME_API_KEY".

Definition OPENAI_REALTIME_ENDPOINT (env : environ) : string :=
  getenv_or env "OPENAI_REALTIME_ENDPOINT" "wss://api.openai.com/v1/realtime".

Definition OPENAI_REALTIME_MODEL (env : environ) : string :=
  getenv_or env "OPENAI_REALTIME_MODEL" "gpt-4o-realtime-preview".

(** The test that opens [media_stream] in each file: [not KEY] in
    [newServer.py], and also [KEY == "your-openai-realtime-api-key-here"]
    in [server.py]. *)
Definition new_refuses (key : option string) : bool :=
  negb (truthy (value key)).

Definition old_refuses (key : option string) : bool :=
  negb (truthy (value key)) || eq_str (value key) Server.placeholder_key.

End Config.

(** The connection of [newServer.py]. *)
Module NewConfig.
Import Py Config.

Definition IS_AZURE (env : environ) : bool :=
  contains "azure" (lower (OPENAI_REALTIME_ENDPOINT env)).

(** [build_openai_connection()]: the URL and the headers. *)
Definition build_openai_connection (env : environ)
  : string * list (string * json) :=
  if IS_AZURE env then
    (replace "https://" "wss://" (OPENAI_REALTIME_ENDPOINT env),
     [("api-key", value (OPENAI_REALTIME_API_KEY env))])
  else
    ((OPENAI_REALTIME_ENDPOINT env ++ "?model=" ++ OPENAI_REALTIME_MODEL env)%string,
     [("Authorization",
       JStr ("Bearer " ++ format (OPENAI_REALTIME_API_KEY env)));
      ("OpenAI-Beta", JStr "realtime=v1")]).

End NewConfig.

(** The connection of [server.py]. *)
Module ServerConfig.
Import Py Config.

Definition IS_AZURE (env : environ) : bool :=
  contains "azure" (lower (OPENAI_REALTIME_ENDPOINT env))
  || contains "cognitiveservices" (lower (OPENAI_REALTIME_ENDPOINT env)).

Definition realtime_url (env : environ) : string :=
  if IS_AZURE env
  then replace "https://" "wss://" (OPENAI_REALTIME_ENDPOINT env)
  else (OPENAI_REALTIME_ENDPOINT env ++ "?model=" ++ OPENAI_REALTIME_MODEL env)%string.

Definition headers (env : environ) : list (string * json) :=
  if IS_AZURE env
  then [("api-key", value (OPENAI_REALTIME_API_KEY env))]
  else [("Authorization",
         JStr ("Bearer " ++ format (OPENAI_REALTIME_API_KEY env)));
        ("OpenAI-Beta", JStr "realtime=v1")].

End ServerConfig.

(** What each file passes to [websockets.connect]. *)
Module Connection.
Import Py Config Both.

Definition is_azure (k : variant) (env : environ) : bool :=
  match k with
  | new_server => NewConfig.IS_AZURE env
  | old_server => ServerConfig.IS_AZURE env
  end.

Definition url_of (k : variant) (env : environ) : string :=
  match k with
  | new_server => fst (NewConfig.build_openai_connection env)
  | old_server => ServerConfig.realtime_url env
  end.

Definition headers_of (k : variant) (env : environ) : list (string * json) :=
  match k with
  | new_server => snd (NewConfig.build_openai_connection env)
  | old_server => ServerConfig.headers env
  end.

Definition refuses (k : variant) (key : option string) : bool :=
  match k with
  | new_server => new_refuses key
  | old_server => old_refuses key
  end.

(** The reason given to the phone side when the call is refused. *)
Definition refusal_of (k : variant) : string :=
  match k with
  | new_server => "Missing OpenAI API key"
  | old_server => "OpenAI API key not configured"
  end.

(** The two commands of the opening. *)
Definition config_of (k : variant) : json :=
  match k with
  | new_server => NewServer.session_config
  | old_server => Server.session_config
  end.

Definition greeting_of (k : variant) : json :=
  match k with
  | new_server => NewServer.greeting_message
  | old_server => Server.greeting_message
  end.

(** What [finally] does to the AI connection after a failed opening:
    [server.py] closes it, [newServer.py] has no [finally]. *)
Definition cleanup_of (k : variant) : list Relay.action :=
  match k with
  | new_server => []
  | old_server => [Relay.AIClose]
  end.

End Connection.

(* ===================================================================== *)
(** ** [main.py] *)
(* ===================================================================== *)

(** The script that places the call: [make_call] and the lines under
    [if __name__ == "__main__"].  The Twilio client is the environment:
    [calls.create] answers with the text of an exception or with the
    [sid] and the [status] of the call. *)
Module MainPy.
Import Py Config.

Inductive effect : Type :=
| Print (text : string) (args : list string)
                         (** [print(...)]: the words and the values *)
| Input (prompt : string)
                         (** [input(prompt)] *)
| NewClient (account_sid auth_token : json)
                         (** [Client(account_sid, auth_token)] *)
| CallsCreate (to : string) (from_ : json) (url status_callback : string)
    (status_callback_event : list string).
                         (** [client.calls.create(...)] *)

(** [all(values)]. *)
Definition all (values : list json) : bool := forallb truthy values.

Definition make_call (env : environ) (create : string + string * string)
    (phone_number : string) : list effect :=
  let account_sid := getenv env "TWILIO_ACCOUNT_SID" in
  let auth_token := getenv env "TWILIO_AUTH_TOKEN" in
  let twilio_number := getenv env "TWILIO_PHONE_NUMBER" in
  let server_url := getenv env "SERVER_URL" in
  if negb (all [value account_sid; value auth_token; value twilio_number;
                value server_url])
  then [Print "ERROR: Missing Twilio credentials in .env file!" []]
  else
    [NewClient (value account_sid) (value auth_token);
     Print "HR AI Assistant is calling" [phone_number];
     Print "Please wait..." [];
     CallsCreate phone_number (value twilio_number)
       (format server_url ++ "/voice")%string
       (format server_url ++ "/call-status")%string
       ["completed"]]
    ++ match create with
       | inr (sid, status) =>
           [Print "Call initiated successfully!" [];
            Print "Call SID:" [sid];
            Print "Status:" [status];
            Print "The AI HR Assistant will now talk to the candidate." [];
            Print "Call will end when the candidate hangs up." []]
       | inl e => [Print "Error making call:" [e]]
       end.

Definition banner : list effect :=
  [Print (String.concat "" (repeat "=" 50)) [];
   Print "   HR AI ASSISTANT - PHONE CALL SYSTEM" [];
   Print (String.concat "" (repeat "=" 50)) [];
   Print "Make sure your Flask server is running!" [];
   Print "Run: python server.py" []].

Definition prompt : string :=
  "Enter candidate's phone number (with country code, e.g., +1234567890): ".

(** The number that the script dials for the text typed at the prompt. *)
Definition dialled (typed : string) : string :=
  if negb (String.prefix "+" typed) then ("+" ++ typed)%string else typed.

(** The script, [typed] being what [input] returns: a text read from
    standard input, which decodes as strictly as standard output encodes,
    so that the lines that show the number can be printed. *)
Definition main (env : environ) (typed : string)
    (create : string + string * string) : list effect :=
  banner ++ [Input prompt]
  ++ (if negb (String.prefix "+" typed)
      then [Print "Phone number should start with + and country code" []]
      else [])
  ++ make_call env create (dialled typed).

(** The calls placed. *)
Definition calls (t : list effect) : list effect :=
  filter (fun a => match a with CallsCreate _ _ _ _ _ => true | _ => false end) t.

End MainPy.

(* ===================================================================== *)
(** ** The vocabulary of the relay's properties *)
(* ===================================================================== *)

Module Flow.
Import Py Relay Both Trace.

(** The payload that an action appends to the input audio buffer of the
    AI session. *)
Definition appended_by (a : action) : list json :=
  match a with
  | AISend cmd =>
      match getitem cmd "type", getitem cmd "audio" with
      | inr ty, inr payload =>
          if eq_str ty "input_audio_buffer.append" then [payload] else []
      | _, _ => []
      end
  | _ => []
  end.

Definition appended (t : list action) : list json := flat_map appended_by t.

Definition is_commit (a : action) : bool :=
  match a with
  | AISend cmd =>
      match getitem cmd "type" with
      | inr ty => eq_str ty "input_audio_buffer.commit"
      | inl _ => false
      end
  | _ => false
  end.

Definition commits (t : list action) : nat := List.length (filter is_commit t).

(** What follows the first commit of a trace. *)
Fixpoint after_commit (t : list action) : list action :=
  match t with
  | [] => []
  | a :: r => if is_commit a then r else after_commit r
  end.

(** The payload of a message of the phone side, when it is a [media]
    frame that carries one. *)
Definition media_payload (i : input) : option json :=
  match i with
  | FromPhone a =>
      match fst a with
      | Text m =>
          match Json.loads m with
          | inr msg =>
              match getitem msg "event" with
              | inr event =>
                  if eq_str event "media" then
                    match path msg "media" "payload" with
                    | inr payload => Some payload
                    | inl _ => None
                    end
                  else None
              | inl _ => None
              end
          | inl _ => None
          end
      | Fails _ => None
      end
  | FromAI _ => None
  end.

Definition listed {A : Type} (x : option A) : list A :=
  match x with
  | Some a => [a]
  | None => []
  end.

(** The payloads that the phone side offers, in the order of arrival. *)
Definition offered (ins : list input) : list json :=
  flat_map (fun i => listed (media_payload i)) ins.

(** The messages sent to the phone. *)
Definition phone_message (a : action) : list json :=
  match a with
  | PhoneSend msg => [msg]
  | _ => []
  end.

Definition phone_messages (t : list action) : list json :=
  flat_map phone_message t.

(** The audio of a message of the AI session, when it is an audio delta
    that carries one. *)
Definition audio_delta (k : variant) (i : input) : option json :=
  match i with
  | FromAI a =>
      match decoded k a with
      | Some (event, ty) =>
          if eq_str ty "response.audio.delta" then
            match getitem event "delta" with
            | inr delta => Some delta
            | inl _ => None
            end
          else None
      | None => None
      end
  | FromPhone _ => None
  end.

(** The audio that the AI session produces, in the order of arrival. *)
Definition deltas (k : variant) (ins : list input) : list json :=
  flat_map (fun i => listed (audio_delta k i)) ins.

(** The commands sent into the AI session. *)
Definition ai_command (a : action) : list json :=
  match a with
  | AISend cmd => [cmd]
  | _ => []
  end.

Definition ai_commands (t : list action) : list json := flat_map ai_command t.

(** The commands of the relay proper: audio appended, the commit, and the
    extraction request of the file. *)
Definition relay_command (k : variant) (cmd : json) : Prop :=
  (exists payload, cmd = append_command payload)
  \/ cmd = commit_command
  \/ cmd = extraction_request_of k.

(** The lines of [server.py] that report the count of audio packets. *)
Definition is_packet_report (a : action) : bool :=
  match a with
  | Log text _ => String.eqb text "Received audio packets from caller:"
  | _ => false
  end.

Definition packet_reports (t : list action) : list action :=
  filter is_packet_report t.

(** What is done on a connection, the printed lines left out. *)
Definition wire (t : list action) : list action :=
  filter (fun a => negb (is_log a)) t.

(** The events that [server.py] only reports, each with the line printed
    for it: the six of [Server.logged_events] and [response.audio.done]. *)
Definition reports : list (string * string) :=
  Server.logged_events ++ [("response.audio.done", "AI finished speaking")].

(** The types of the events to which a branch of the file [k] answers. *)
Definition handled_types (k : variant) : list string :=
  match k with
  | new_server =>
      ["response.audio.delta";
       "conversation.item.input_audio_transcription.completed";
       "response.audio_transcript.done";
       "response.output_text.done";
       "response.text.done"]
  | old_server =>
      map fst reports
      ++ ["response.audio.delta";
          "response.audio_transcript.done";
          "conversation.item.input_audio_transcription.completed";
          "error";
          "response.output_text.delta";
          "response.output_text.done"]
  end.

(** The type [ty] of an event is none of [names]. *)
Definition none_of (ty : json) (names : list string) : bool :=
  forallb (fun name => negb (eq_str ty name)) names.

End Flow.

(* ===================================================================== *)
(** ** More messages for the examples *)
(* ===================================================================== *)

Module Examples2.
Import Py Relay Examples.

Definition second_start_frame : string :=
  q "{'event':'start','start':{'streamSid':'MZ2'}}".
Definition empty_sid_frame : string :=
  q "{'event':'start','start':{'streamSid':''}}".
Definition other_media_frame : string :=
  q "{'event':'media','media':{'payload':'AAAA'}}".
Definition other_delta_event : string :=
  q "{'type':'response.audio.delta','delta':'BBBB'}".

Definition typeless_event : string := q "{'delta':'/v7+'}".
Definition unknown_event : string := q "{'type':'rate_limits.updated'}".
Definition null_transcript_event : string :=
  q "{'type':'response.audio_transcript.done','transcript':null}".
Definition text_done_event : string :=
  q "{'type':'response.text.done','text':'{}'}".
Definition chunk_event : string :=
  q "{'type':'response.output_text.delta'}".
Definition not_json : string := "hello".

(** A closing line in capitals whose K is U+212A KELVIN SIGN. *)
Definition kelvin_sign : string := Json.utf8 8490.
Definition kelvin_text : string :=
  ("THAN" ++ kelvin_sign ++ " YOU FOR YOUR TIME")%string.
Definition kelvin_event : string :=
  (q "{'type':'response.audio_transcript.done','transcript':'"
   ++ kelvin_text ++ q "'}")%string.

(** Events with the escape of a surrogate, which [json.loads] decodes to
    the surrogate code point U+D83D. *)
Definition surrogate : string := Json.utf8 55357.
Definition surrogate_user_event : string :=
  q "{'type':'conversation.item.input_audio_transcription.completed','transcript':'Yes \ud83d'}".
Definition surrogate_text_event : string :=
  q "{'type':'response.output_text.done','text':'{} \ud83d'}".
Definition surrogate_error_event : string :=
  q "{'type':'error','error':'\ud83d'}".
(** An extraction text that is ASCII and holds the escape itself, in the
    second of three fields. *)
Definition escaped_field_text : string :=
  q "{'full_name':'Jane','email':'\ud83d','role':'Clerk'}".
Definition escaped_field_event : string :=
  q "{'type':'response.output_text.done','text':'{\'full_name\':\'Jane\',\'email\':\'\\ud83d\',\'role\':\'Clerk\'}'}".

(** A configuration for the direct service and two for Azure. *)
Definition direct_env : Config.environ := fun name =>
  if String.eqb name "OPENAI_REALTIME_API_KEY" then Some "sk-key" else None.

Definition azure_env : Config.environ := fun name =>
  if String.eqb name "OPENAI_REALTIME_API_KEY" then Some "az-key"
  else if String.eqb name "OPENAI_REALTIME_ENDPOINT"
  then Some "https://hr.openai.AZURE.com/openai/realtime?api-version=1&deployment=gpt"
  else None.

Definition cognitive_env : Config.environ := fun name =>
  if String.eqb name "OPENAI_REALTIME_API_KEY" then Some "az-key"
  else if String.eqb name "OPENAI_REALTIME_ENDPOINT"
  then Some "https://hr.cognitiveservices.example.com/realtime"
  else None.

(** The environment of [main.py], complete and without the token. *)
Definition twilio_env : Config.environ := fun name =>
  if String.eqb name "TWILIO_ACCOUNT_SID" then Some "AC1"
  else if String.eqb name "TWILIO_AUTH_TOKEN" then Some "secret"
  else if String.eqb name "TWILIO_PHONE_NUMBER" then Some "+15550001111"
  else if String.eqb name "SERVER_URL" then Some "https://hr.example.com"
  else None.

Definition no_token_env : Config.environ := fun name =>
  if String.eqb name "TWILIO_AUTH_TOKEN" then Some "" else twilio_env name.

End Examples2.

(* ===================================================================== *)
(** ** Proof automation *)
(* ===================================================================== *)

(** Case analysis on the innermost scrutinee of the goal. *)
Ltac scrutinee :=
  match goal with
  | |- context [match ?x with _ => _ end] =>
      match x with
      | context [match _ with _ => _ end] => fail 1
      | _ => idtac
      end;
      (is_var x; destruct x) || (let E := fresh "E" in destruct x eqn:E)
  end.

(** Two tests of the type of one event against different names cannot
    both succeed. *)
Ltac clash :=
  match goal with
  | H : Py.eq_str ?j ?a = true, H' : Py.eq_str ?j ?b = true |- _ =>
      destruct j; try discriminate H; cbn [Py.eq_str] in H, H';
      apply String.eqb_eq in H; rewrite H in H';
      vm_compute in H'; discriminate H'
  end.

(** A [get] cannot fail on a value on which a [get] or an indexing
    succeeded: that value is a dict. *)
Ltac undictable :=
  match goal with
  | H : Py.get ?j _ _ = inr _, H' : Py.get ?j ?k _ = inl _ |- _ =>
      destruct j; try discriminate H; cbn [Py.get] in H';
      destruct (Py.dict_get _ k); discriminate H'
  | H : Py.getitem ?j _ = inr _, H' : Py.get ?j ?k _ = inl _ |- _ =>
      destruct j; try discriminate H; cbn [Py.get] in H';
      destruct (Py.dict_get _ k); discriminate H'
  end.

Ltac bools :=
  repeat match goal with
  | H : _ && _ = true |- _ => apply andb_true_iff in H; destruct H
  | H : negb _ = true |- _ => apply negb_true_iff in H
  | H : negb _ = false |- _ => apply negb_false_iff in H
  end.

(* ===================================================================== *)
(** ** Facts about strings and about the regular expression *)
(* ===================================================================== *)

Module StringFacts.
Import Py.

Lemma prefix_iff (sub s : string) :
  String.prefix sub s = true <-> exists post, s = (sub ++ post)%string.
Proof.
  revert s. induction sub as [|c sub IH]; intros s.
  - destruct s; simpl; split; eauto.
  - destruct s as [|d s]; simpl.
    + split; [discriminate | intros [post H]; discriminate].
    + destruct (ascii_dec c d) as [->|Hne].
      * rewrite IH. split; intros [post H]; exists post.
        -- now rewrite H.
        -- now injection H.
      * split; [discriminate | intros [post H]; injection H; congruence].
Qed.

Lemma contains_iff (sub s : string) :
  contains sub s = true <->
  exists pre post, s = (pre ++ sub ++ post)%string.
Proof.
  induction s as [|c s IH]; cbn [contains]; rewrite orb_true_iff, prefix_iff.
  - split.
    + intros [[post H]|H]; [|discriminate]. now exists EmptyString, post.
    + intros [pre [post H]]. left. destruct pre; [|discriminate].
      now exists post.
  - rewrite IH. split.
    + intros [[post H]|[pre [post H]]].
      * now exists EmptyString, post.
      * exists (String c pre), post. simpl. now rewrite H.
    + intros [pre [post H]]. destruct pre as [|d pre]; simpl in H.
      * left. now exists post.
      * right. injection H as _ H. now exists pre, post.
Qed.

(** The equation of [lower]. *)
Lemma lower_eq (s : string) :
  lower s =
  match s with
  | EmptyString => EmptyString
  | String c r =>
      match r with
      | EmptyString => String (lower_char c) EmptyString
      | String d r1 =>
          if is_byte c 196 && is_byte d 176 then (dotted_i ++ lower r1)%string
          else
            match r1 with
            | String e r2 =>
                if is_byte c 226 && is_byte d 132 && is_byte e 170
                then String "k" (lower r2)
                else String (lower_char c) (lower r)
            | EmptyString => String (lower_char c) (lower r)
            end
      end
  end.
Proof. destruct s as [|c [|d [|e r2]]]; reflexivity. Qed.

Lemma lower_char_plain (c : ascii) :
  (nat_of (lower_char c) <? 128)%nat = true -> (nat_of c <? 128)%nat = true.
Proof.
  unfold lower_char, is_upper. intros H.
  destruct ((65 <=? nat_of c)%nat && (nat_of c <=? 90)%nat) eqn:E;
    [|assumption].
  apply andb_true_iff in E. destruct E as [_ E].
  apply Nat.leb_le in E. apply Nat.ltb_lt. lia.
Qed.

(** An ASCII character is lowered by itself. *)
Lemma lower_plain_head (c : ascii) (r : string) :
  (nat_of c <? 128)%nat = true ->
  lower (String c r) = String (lower_char c) (lower r).
Proof.
  intros H. apply Nat.ltb_lt in H.
  assert (H1 : is_byte c 196 = false) by (apply Nat.eqb_neq; lia).
  assert (H2 : is_byte c 226 = false) by (apply Nat.eqb_neq; lia).
  rewrite (lower_eq (String c r)).
  destruct r as [|d [|e r2]]; rewrite ?H1, ?H2; reflexivity.
Qed.

(** The first byte of [s] is not one that ends the bytes of U+0130 or
    continues those of U+212A. *)
Definition safe_head (s : string) : bool :=
  match s with
  | EmptyString => true
  | String c _ =>
      negb (is_byte c 176) && negb (is_byte c 132) && negb (is_byte c 170)
  end.

(** Lowering a text passes over a prefix of it without touching what
    follows, when that starts with a safe byte. *)
Lemma lower_skips (n : nat) :
  forall pre s : string,
    String.length pre <= n -> safe_head s = true ->
    exists p, lower (pre ++ s) = (p ++ lower s)%string.
Proof.
  induction n as [|n IH]; intros pre s Hn Hs.
  - destruct pre; [|cbn in Hn; lia]. now exists EmptyString.
  - destruct pre as [|c pre]; [now exists EmptyString|].
    destruct pre as [|d pre].
    + cbn [append]. destruct s as [|x s'].
      * now exists (String (lower_char c) EmptyString).
      * cbn [safe_head] in Hs. apply andb_true_iff in Hs.
        destruct Hs as [Hs H3]. apply andb_true_iff in Hs.
        destruct Hs as [H1 H2].
        apply negb_true_iff in H1, H2, H3.
        exists (String (lower_char c) EmptyString).
        rewrite (lower_eq (String c (String x s'))).
        rewrite H1, andb_false_r.
        destruct s' as [|e r2]; [reflexivity|].
        now rewrite H2, andb_false_r.
    + cbn [append]. rewrite (lower_eq (String c (String d (pre ++ s)))).
      cbn [String.length] in Hn.
      destruct (is_byte c 196 && is_byte d 176).
      * destruct (IH pre s ltac:(lia) Hs) as [p Hp].
        exists (dotted_i ++ p)%string. rewrite Hp.
        reflexivity.
      * destruct pre as [|e pre].
        -- cbn [append].
           destruct (IH (String d EmptyString) s ltac:(cbn; lia) Hs)
             as [p Hp].
           cbn [append] in Hp.
           exists (String (lower_char c) p).
           destruct s as [|x s'].
           ++ now rewrite Hp.
           ++ cbn [safe_head] in Hs. apply andb_true_iff in Hs.
              destruct Hs as [_ H3]. apply negb_true_iff in H3.
              now rewrite H3, andb_false_r, Hp.
        -- cbn [append]. cbn [String.length] in Hn.
           destruct (is_byte c 226 && is_byte d 132 && is_byte e 170).
           ++ destruct (IH pre s ltac:(lia) Hs) as [p Hp].
              exists (String "k" p). now rewrite Hp.
           ++ destruct (IH (String d (String e pre)) s ltac:(cbn; lia) Hs)
                as [p Hp].
              cbn [append] in Hp.
              exists (String (lower_char c) p). now rewrite Hp.
Qed.

(** A text whose lower case is ASCII is lowered on its own, whatever
    follows it. *)
Lemma lower_app_plain (n : nat) :
  forall m post : string,
    String.length m <= n -> plain (lower m) = true ->
    lower (m ++ post) = (lower m ++ lower post)%string.
Proof.
  induction n as [|n IH]; intros m post Hn Hp.
  - destruct m; [reflexivity|cbn in Hn; lia].
  - destruct m as [|c m]; [reflexivity|].
    cbn [String.length] in Hn.
    rewrite (lower_eq (String c m)) in Hp |- *.
    destruct m as [|d m].
    + cbn [plain] in Hp. apply andb_true_iff in Hp. destruct Hp as [Hc _].
      apply lower_char_plain in Hc.
      cbn [append]. now rewrite lower_plain_head.
    + destruct (is_byte c 196 && is_byte d 176) eqn:E1.
      * cbn in Hp. discriminate Hp.
      * assert (Hplain : forall r,
                  plain (String (lower_char c) (lower (String d r))) = true ->
                  lower (String d r ++ post)
                  = (lower (String d r) ++ lower post)%string ->
                  lower ((String c (String d r)) ++ post)
                  = (String (lower_char c) (lower (String d r))
                     ++ lower post)%string).
        { intros r Hr Hi. cbn [plain] in Hr. apply andb_true_iff in Hr.
          destruct Hr as [Hc _]. apply lower_char_plain in Hc.
          cbn [append] in *. now rewrite lower_plain_head, Hi. }
        destruct m as [|e m].
        -- apply Hplain; [assumption|].
           apply IH; [cbn [String.length] in *; lia|].
           cbn [plain] in Hp. apply andb_true_iff in Hp. apply Hp.
        -- destruct (is_byte c 226 && is_byte d 132 && is_byte e 170) eqn:E2.
           ++ cbn [plain] in Hp. apply andb_true_iff in Hp.
              destruct Hp as [_ Hp]. cbn [append].
              rewrite (lower_eq (String c (String d (String e (m ++ post))))).
              rewrite E1, E2. cbn [String.length] in Hn.
              now rewrite (IH m post ltac:(lia) Hp).
           ++ apply Hplain; [assumption|].
              apply IH; [cbn [String.length] in *; lia|].
              cbn [plain] in Hp. apply andb_true_iff in Hp. apply Hp.
Qed.

(** A text whose lower case is ASCII starts with a safe byte. *)
Lemma plain_lower_head (c : ascii) (m post : string) :
  plain (lower (String c m)) = true ->
  safe_head (String c m ++ post) = true.
Proof.
  intros Hp. cbn [append safe_head].
  assert (H : (nat_of c <? 128)%nat = true \/ is_byte c 226 = true).
  { rewrite (lower_eq (String c m)) in Hp.
    destruct m as [|d m].
    - left. cbn [plain] in Hp. apply andb_true_iff in Hp.
      now apply lower_char_plain.
    - destruct (is_byte c 196 && is_byte d 176); [cbn in Hp; discriminate|].
      destruct m as [|e m].
      + left. cbn [plain] in Hp. apply andb_true_iff in Hp.
        now apply lower_char_plain.
      + destruct (is_byte c 226 && is_byte d 132 && is_byte e 170) eqn:E.
        * right. apply andb_true_iff in E. destruct E as [E _].
          apply andb_true_iff in E. apply E.
        * left. cbn [plain] in Hp. apply andb_true_iff in Hp.
          now apply lower_char_plain. }
  unfold is_byte in *.
  destruct H as [H|H]; [apply Nat.ltb_lt in H|apply Nat.eqb_eq in H].
  - repeat (apply andb_true_iff; split); apply negb_true_iff, Nat.eqb_neq; lia.
  - repeat (apply andb_true_iff; split); apply negb_true_iff, Nat.eqb_neq; lia.
Qed.

(** A text that contains [m], whose lower case is the ASCII [phrase],
    contains [phrase] once lowered. *)
Lemma contains_lower (phrase pre m post : string) :
  plain phrase = true ->
  lower m = phrase ->
  contains phrase (lower (pre ++ m ++ post)) = true.
Proof.
  intros Hp <-. destruct m as [|c m].
  - cbn [lower]. now destruct (lower (pre ++ "" ++ post)).
  - destruct (lower_skips (String.length pre) pre (String c m ++ post)
                (le_n _) (plain_lower_head c m post Hp)) as [p Hl].
    rewrite Hl, (lower_app_plain _ _ post (le_n _) Hp).
    apply contains_iff. now exists p, (lower post).
Qed.

End StringFacts.

Module RegexFacts.
Import Regex.




End RegexFacts.

(* ===================================================================== *)
(** ** Facts about traces and about sessions in general *)
(* ===================================================================== *)

Module TraceFacts.
Import Py Relay Trace.

Lemma count_app (t u : list action) :
  count_extraction (t ++ u) = count_extraction t + count_extraction u.
Proof. unfold count_extraction. now rewrite filter_app, length_app. Qed.

Lemma count_cons (a : action) (t : list action) :
  count_extraction (a :: t) =
  (if is_extraction_request a then 1 else 0) + count_extraction t.
Proof.
  unfold count_extraction. cbn [filter].
  now destruct (is_extraction_request a).
Qed.

Lemma count_logs (t : list action) :
  forallb is_log t = true -> count_extraction t = 0.
Proof.
  induction t as [|a t IH]; [reflexivity|].
  cbn [forallb]. rewrite andb_true_iff. intros [Ha Ht].
  rewrite count_cons, IH by assumption. now destruct a.
Qed.

Lemma logs_no_phone_send (t : list action) :
  forallb is_log t = true -> no_phone_send t = true.
Proof.
  unfold no_phone_send. rewrite !forallb_forall. intros H a Ha.
  specialize (H a Ha). now destruct a.
Qed.

Lemma logs_no_ai_close (t : list action) :
  forallb is_log t = true -> no_ai_close t = true.
Proof.
  unfold no_ai_close. rewrite !forallb_forall. intros H a Ha.
  specialize (H a Ha). now destruct a.
Qed.

Lemma count_ai_close_app (t u : list action) :
  count_ai_close (t ++ u) = count_ai_close t + count_ai_close u.
Proof. unfold count_ai_close. now rewrite filter_app, length_app. Qed.

Lemma no_ai_close_count (t : list action) :
  no_ai_close t = true -> count_ai_close t = 0.
Proof.
  unfold no_ai_close, count_ai_close.
  induction t as [|a t IH]; [reflexivity|].
  cbn [forallb filter]. rewrite andb_true_iff. intros [Ha Ht].
  destruct a; try discriminate; now apply IH.
Qed.

Lemma eq_str_true (v : json) (s : string) :
  eq_str v s = true -> v = JStr s.
Proof.
  destruct v; try discriminate. cbn [eq_str].
  intros H. apply String.eqb_eq in H. now subst.
Qed.

(** The decoder raises nothing but [JSONDecodeError]. *)
Lemma loads_error (s : string) (e : exn) :
  Json.loads s = inl e -> e = JSONDecodeError.
Proof.
  unfold Json.loads.
  destruct (Json.scan_once _ _) as [[v rest]|]; [|congruence].
  destruct (Json.skip_ws rest); congruence.
Qed.

End TraceFacts.

Module Generic.
Import Relay Trace TraceFacts.

Section Iterate.
Context {S I : Type}.
Variable step : S -> I -> S * list action.


Lemma iterate_cons (x : I) (xs : list I) (s : S) :
  iterate step s (x :: xs) =
  (fst (iterate step (fst (step s x)) xs),
   snd (step s x) ++ snd (iterate step (fst (step s x)) xs)).
Proof.
  cbn [iterate]. destruct (step s x) as [s1 t1]. cbn [fst snd].
  now destruct (iterate step s1 xs).
Qed.

(** A flag that guards a kind of action: once it is set it stays set and
    the action is not done again; the action is done at most once in a
    step, and only in a step that leaves the flag set. *)
Section Guard.
Variable flag : S -> bool.
Hypothesis quiet_when_set : forall s i,
  flag s = true ->
  flag (fst (step s i)) = true /\ count_extraction (snd (step s i)) = 0.
Hypothesis once_per_step : forall s i,
  count_extraction (snd (step s i)) <= 1.
Hypothesis sets_the_flag : forall s i,
  1 <= count_extraction (snd (step s i)) -> flag (fst (step s i)) = true.

Lemma quiet_after_set (ins : list I) (s : S) :
  flag s = true ->
  flag (fst (iterate step s ins)) = true
  /\ count_extraction (snd (iterate step s ins)) = 0.
Proof.
  revert s. induction ins as [|i ins IH]; intros s Hs.
  - now split.
  - rewrite iterate_cons. cbn [fst snd].
    destruct (quiet_when_set s i Hs) as [Hf Hc].
    destruct (IH _ Hf) as [Hf' Hc'].
    split; [assumption|]. rewrite count_app. lia.
Qed.

Lemma at_most_once (ins : list I) (s : S) :
  count_extraction (snd (iterate step s ins)) <= 1.
Proof.
  revert s. induction ins as [|i ins IH]; intros s.
  - cbn. lia.
  - rewrite iterate_cons. cbn [fst snd]. rewrite count_app.
    pose proof (once_per_step s i) as H1.
    destruct (count_extraction (snd (step s i))) as [|n] eqn:E.
    + apply IH.
    + assert (Hf : flag (fst (step s i)) = true)
        by (apply sets_the_flag; lia).
      destruct (quiet_after_set ins _ Hf) as [_ ->]. lia.
Qed.

End Guard.

(** A property of the actions that every step on an allowed message keeps
    under an invariant of the state. *)
Section Invariant.
Variable inv : S -> Prop.
Variable allowed : I -> bool.
Variable p : action -> bool.
Hypothesis keeps : forall s i,
  inv s -> allowed i = true -> inv (fst (step s i)).
Hypothesis holds : forall s i,
  inv s -> allowed i = true -> forallb p (snd (step s i)) = true.

Lemma invariant_run (ins : list I) (s : S) :
  inv s -> forallb allowed ins = true ->
  inv (fst (iterate step s ins))
  /\ forallb p (snd (iterate step s ins)) = true.
Proof.
  revert s. induction ins as [|i ins IH]; intros s Hs Ha.
  - now split.
  - cbn [forallb] in Ha. apply andb_true_iff in Ha. destruct Ha as [Hi Ha].
    rewrite iterate_cons. cbn [fst snd].
    destruct (IH _ (keeps s i Hs Hi) Ha) as [Hinv Hp].
    split; [assumption|]. now rewrite forallb_app, holds, Hp.
Qed.

End Invariant.
End Iterate.

End Generic.

(* ===================================================================== *)
(** ** The decoder never runs out of fuel *)
(* ===================================================================== *)

Module JsonFacts.
Import Py Json.

Lemma skip_ws_length (s : string) :
  String.length (skip_ws s) <= String.length s.
Proof.
  induction s as [|c s IH]; cbn [skip_ws String.length]; [lia|].
  destruct (is_ws c); cbn [String.length]; lia.
Qed.

Lemma drop_length (n : nat) (s : string) :
  String.length (drop n s) = String.length s - n.
Proof.
  revert s. induction n as [|n IH]; intros s; destruct s; cbn; auto.
Qed.

Lemma literal_length (x v : json) (n : nat) (s rest : string) :
  Some (x, drop n s) = Some (v, rest) ->
  String.length rest = String.length s - n.
Proof. intros [= _ <-]. apply drop_length. Qed.

Lemma prefix_length (p s : string) :
  String.prefix p s = true -> String.length p <= String.length s.
Proof.
  revert s. induction p as [|c p IH]; intros s; [cbn; lia|].
  destruct s as [|d s]; cbn [String.prefix String.length]; [discriminate|].
  destruct (ascii_dec c d); [|discriminate].
  intros H. apply IH in H. lia.
Qed.

Lemma digits_length (acc : N) (n : nat) (s : string) :
  String.length (snd (digits acc n s)) <= String.length s.
Proof.
  revert acc n. induction s as [|c s IH]; intros acc n; cbn [digits];
    [cbn; lia|].
  destruct (is_digit c); cbn [String.length snd]; [|lia].
  specialize (IH (10 * acc + digit_val c)%N (S n)). lia.
Qed.

Ltac digits_bound :=
  repeat match goal with
  | H : digits ?a ?n ?s = (_, _, ?rest) |- _ =>
      let B := fresh "B" in
      pose proof (digits_length a n s) as B; rewrite H in B;
      cbn [snd String.length] in B; clear H
  end.

Lemma int_part_length (s rest : string) (v : N) :
  int_part s = Some (v, rest) -> String.length rest < String.length s.
Proof.
  unfold int_part. destruct s as [|c r]; [discriminate|].
  destruct (Ascii.eqb c "0").
  - intros [= _ <-]. cbn. lia.
  - destruct (is_digit c) eqn:Ed; [|discriminate].
    cbn [digits]. rewrite Ed.
    destruct (digits _ _ r) as [[v' k] rest'] eqn:E.
    intros [= _ <-]. digits_bound. cbn. lia.
Qed.

Lemma frac_part_length (m : N) (s rest : string) (v : N) (k : nat) :
  frac_part m s = Some (v, k, rest) -> String.length rest < String.length s.
Proof.
  unfold frac_part. destruct s as [|c [|d r]]; try discriminate.
  destruct (Ascii.eqb c "." && is_digit d); [|discriminate].
  destruct (digits m 0 (String d r)) as [[v' k'] rest'] eqn:E.
  intros [= _ _ <-]. digits_bound. cbn in *. lia.
Qed.

Lemma exp_part_length (s rest : string) (e : Z) :
  exp_part s = Some (e, rest) -> String.length rest < String.length s.
Proof.
  unfold exp_part. destruct s as [|c r]; [discriminate|].
  destruct (Ascii.eqb c "e" || Ascii.eqb c "E"); [|discriminate].
  destruct r as [|sg [|d r']]; [discriminate| |].
  - destruct (is_digit sg); [|discriminate].
    intros [= _ <-]. cbn. lia.
  - destruct ((Ascii.eqb sg "-" || Ascii.eqb sg "+") && is_digit d).
    + destruct (digits 0 0 (String d r')) as [[v k] rest'] eqn:E.
      intros [= _ <-]. digits_bound. cbn in *. lia.
    + destruct (is_digit sg); [|discriminate].
      destruct (digits 0 0 (String sg (String d r'))) as [[v k] rest'] eqn:E.
      intros [= _ <-]. digits_bound. cbn in *. lia.
Qed.

Lemma match_number_length (s rest : string) (n : number) :
  match_number s = Some (n, rest) -> String.length rest < String.length s.
Proof.
  unfold match_number.
  set (p := match s with
            | String c r => if Ascii.eqb c "-" then (true, r) else (false, s)
            | EmptyString => (false, s)
            end).
  assert (Hp : String.length (snd p) <= String.length s).
  { subst p. destruct s as [|c r]; cbn; [lia|].
    destruct (Ascii.eqb c "-"); cbn; lia. }
  destruct p as [neg s1]. cbn [snd] in Hp.
  destruct (int_part s1) as [[i s2]|] eqn:Ei; [|discriminate].
  apply int_part_length in Ei.
  destruct (frac_part i s2) as [[[m k] s3]|] eqn:Ef.
  - apply frac_part_length in Ef.
    destruct (exp_part s3) as [[e s4]|] eqn:Ee.
    + apply exp_part_length in Ee. intros [= _ <-]. lia.
    + intros [= _ <-]. lia.
  - destruct (exp_part s2) as [[e s3]|] eqn:Ee.
    + apply exp_part_length in Ee. intros [= _ <-]. lia.
    + intros [= _ <-]. lia.
Qed.

Lemma cons_str_inv (c : ascii) (x : option (string * string))
    (t rest : string) :
  cons_str c x = Some (t, rest) -> exists t', x = Some (t', rest).
Proof. destruct x as [[t' r]|]; [|discriminate]. intros [= _ <-]. eauto. Qed.

Lemma app_str_inv (p : string) (x : option (string * string))
    (t rest : string) :
  app_str p x = Some (t, rest) -> exists t', x = Some (t', rest).
Proof. destruct x as [[t' r]|]; [|discriminate]. intros [= _ <-]. eauto. Qed.

(** The scanner of strings reads at least the closing quote. *)
Lemma scanstring_length (n : nat) (s t rest : string) :
  String.length s <= n ->
  scanstring s = Some (t, rest) -> String.length rest < String.length s.
Proof.
  revert s t rest. induction n as [|n IH]; intros s t rest Hn.
  - destruct s; [discriminate|cbn in Hn; lia].
  - destruct s as [|c r]; [discriminate|]. cbn [scanstring].
    repeat (scrutinee; try discriminate).
    all: cbn [String.length] in Hn.
    all: intros H;
      first [ injection H as _ <-; cbn [String.length]; lia
            | first [apply cons_str_inv in H | apply app_str_inv in H];
              destruct H as [t' H]; apply IH in H;
              cbn [String.length] in *; lia ].
Qed.

(** What a scan leaves is shorter than what it was given. *)
Lemma scan_length (fuel : nat) :
  (forall s v rest, scan_once fuel s = Some (v, rest) ->
                    String.length rest < String.length s)
  /\ (forall acc s v rest, members fuel acc s = Some (v, rest) ->
                           String.length rest < String.length s)
  /\ (forall acc s v rest, elements fuel acc s = Some (v, rest) ->
                           String.length rest < String.length s).
Proof.
  induction fuel as [|f (IHs & IHm & IHe)];
    [repeat split; intros; discriminate|].
  split; [|split].
  - intros s v rest. cbn [scan_once].
    destruct s as [|c r]; [discriminate|].
    destruct (Ascii.eqb c dquote).
    { destruct (scanstring r) as [[t rest']|] eqn:E; [|discriminate].
      apply (scanstring_length _ _ _ _ (le_n _)) in E.
      intros [= _ <-]. cbn. lia. }
    destruct (Ascii.eqb c "{").
    { pose proof (skip_ws_length r) as Hw.
      destruct (skip_ws r) as [|c1 r1]; [discriminate|].
      destruct (Ascii.eqb c1 "}").
      - intros [= _ <-]. cbn in *. lia.
      - intros H. apply IHm in H. cbn in *. lia. }
    destruct (Ascii.eqb c "[").
    { pose proof (skip_ws_length r) as Hw.
      destruct (skip_ws r) as [|c1 r1]; [discriminate|].
      destruct (Ascii.eqb c1 "]").
      - intros [= _ <-]. cbn in *. lia.
      - intros H. apply IHe in H. cbn in *. lia. }
    pose proof (match_number_length (String c r)) as Hnum.
    repeat match goal with
    | |- (if String.prefix ?p ?s then _ else _) = _ -> _ =>
        let E := fresh "E" in
        destruct (String.prefix p s) eqn:E;
        [apply prefix_length in E;
         let H := fresh "H" in
         intros H; apply literal_length in H;
         cbn [String.length] in *; lia|]
    | |- match match_number ?s with _ => _ end = _ -> _ =>
        destruct (match_number s) as [[n rest']|];
        [intros [= _ <-]; now apply (Hnum rest' n)|]
    end.
    discriminate.
  - intros acc s v rest. cbn [members].
    destruct s as [|c r]; [discriminate|].
    destruct (Ascii.eqb c dquote); [|discriminate].
    destruct (scanstring r) as [[key r1]|] eqn:E; [|discriminate].
    apply (scanstring_length _ _ _ _ (le_n _)) in E.
    pose proof (skip_ws_length r1) as Hw1.
    destruct (skip_ws r1) as [|c2 r2]; [discriminate|].
    destruct (Ascii.eqb c2 ":"); [|discriminate].
    pose proof (skip_ws_length r2) as Hw2.
    destruct (scan_once f (skip_ws r2)) as [[x r3]|] eqn:Es; [|discriminate].
    apply IHs in Es.
    pose proof (skip_ws_length r3) as Hw3.
    destruct (skip_ws r3) as [|c4 r4]; [discriminate|].
    destruct (Ascii.eqb c4 "}").
    + intros [= _ <-]. cbn in *. lia.
    + destruct (Ascii.eqb c4 ","); [|discriminate].
      pose proof (skip_ws_length r4) as Hw4.
      intros H. apply IHm in H. cbn in *. lia.
  - intros acc s v rest. cbn [elements].
    destruct (scan_once f s) as [[x r1]|] eqn:Es; [|discriminate].
    apply IHs in Es.
    pose proof (skip_ws_length r1) as Hw1.
    destruct (skip_ws r1) as [|c2 r2]; [discriminate|].
    destruct (Ascii.eqb c2 "]").
    + intros [= _ <-]. cbn in *. lia.
    + destruct (Ascii.eqb c2 ","); [|discriminate].
      pose proof (skip_ws_length r2) as Hw2.
      intros H. apply IHe in H. cbn in *. lia.
Qed.

(** A fuel above twice the length of the text is never used up: more
    fuel gives the same result. *)
Lemma fuel_is_enough (fuel : nat) :
  (forall s more, 2 * String.length s + 1 <= fuel -> fuel <= more ->
                  scan_once more s = scan_once fuel s)
  /\ (forall acc s more, 2 * String.length s + 1 <= fuel -> fuel <= more ->
                         members more acc s = members fuel acc s)
  /\ (forall acc s more, 2 * String.length s + 2 <= fuel -> fuel <= more ->
                         elements more acc s = elements fuel acc s).
Proof.
  induction fuel as [|f (IHs & IHm & IHe)];
    [repeat split; intros; lia|].
  destruct (scan_length f) as (Ls & Lm & Le).
  split; [|split].
  - intros s more Hs Hm. destruct more as [|g]; [lia|].
    cbn [scan_once]. destruct s as [|c r]; [reflexivity|].
    cbn [String.length] in Hs.
    destruct (Ascii.eqb c dquote); [reflexivity|].
    destruct (Ascii.eqb c "{").
    { pose proof (skip_ws_length r) as Hw.
      destruct (skip_ws r) as [|c1 r1]; [reflexivity|].
      destruct (Ascii.eqb c1 "}"); [reflexivity|].
      apply IHm; cbn [String.length] in *; lia. }
    destruct (Ascii.eqb c "[").
    { pose proof (skip_ws_length r) as Hw.
      destruct (skip_ws r) as [|c1 r1]; [reflexivity|].
      destruct (Ascii.eqb c1 "]"); [reflexivity|].
      apply IHe; cbn [String.length] in *; lia. }
    reflexivity.
  - intros acc s more Hs Hm. destruct more as [|g]; [lia|].
    cbn [members]. destruct s as [|c r]; [reflexivity|].
    cbn [String.length] in Hs.
    destruct (Ascii.eqb c dquote); [|reflexivity].
    destruct (scanstring r) as [[key r1]|] eqn:E; [|reflexivity].
    apply (scanstring_length _ _ _ _ (le_n _)) in E.
    pose proof (skip_ws_length r1) as Hw1.
    destruct (skip_ws r1) as [|c2 r2]; [reflexivity|].
    destruct (Ascii.eqb c2 ":"); [|reflexivity].
    pose proof (skip_ws_length r2) as Hw2.
    cbn [String.length] in *.
    rewrite (IHs (skip_ws r2) g) by lia.
    destruct (scan_once f (skip_ws r2)) as [[x r3]|] eqn:Es; [|reflexivity].
    apply Ls in Es.
    pose proof (skip_ws_length r3) as Hw3.
    destruct (skip_ws r3) as [|c4 r4]; [reflexivity|].
    destruct (Ascii.eqb c4 "}"); [reflexivity|].
    destruct (Ascii.eqb c4 ","); [|reflexivity].
    pose proof (skip_ws_length r4) as Hw4.
    cbn [String.length] in *.
    apply IHm; lia.
  - intros acc s more Hs Hm. destruct more as [|g]; [lia|].
    cbn [elements].
    rewrite (IHs s g) by lia.
    destruct (scan_once f s) as [[x r1]|] eqn:Es; [|reflexivity].
    apply Ls in Es.
    pose proof (skip_ws_length r1) as Hw1.
    destruct (skip_ws r1) as [|c2 r2]; [reflexivity|].
    destruct (Ascii.eqb c2 "]"); [reflexivity|].
    destruct (Ascii.eqb c2 ","); [|reflexivity].
    pose proof (skip_ws_length r2) as Hw2.
    cbn [String.length] in *.
    apply IHe; lia.
Qed.

(** [json.loads] is the scan with any fuel above twice the length of the
    text. *)
Lemma loads_any_fuel (s : string) (more : nat) :
  S (S (2 * String.length s)) <= more ->
  loads s =
  match scan_once more (skip_ws s) with
  | Some (v, rest) =>
      match skip_ws rest with
      | EmptyString => inr v
      | String _ _ => inl JSONDecodeError
      end
  | None => inl JSONDecodeError
  end.
Proof.
  intros Hm. unfold loads.
  destruct (fuel_is_enough (S (S (2 * String.length s)))) as (Hs & _).
  rewrite (Hs (skip_ws s) more); [reflexivity| |assumption].
  pose proof (skip_ws_length s). lia.
Qed.

End JsonFacts.

(* ===================================================================== *)
(** ** Facts about [newServer.py] *)
(* ===================================================================== *)

Module NewFacts.
Import Py Relay Prompt Both Trace TraceFacts NewServer.

Lemma new_request_counts :
  is_extraction_request (AISend extraction_prompt) = true.
Proof. vm_compute. reflexivity. Qed.

Lemma new_greeting_is_no_request :
  is_extraction_request (AISend greeting_message) = false.
Proof. vm_compute. reflexivity. Qed.

Lemma new_config_is_no_request :
  is_extraction_request (AISend session_config) = false.
Proof. vm_compute. reflexivity. Qed.

(** The loop over the fields stops at the first line that cannot be
    encoded. *)
Lemma new_print_fields_run (d : list (string * json)) (v : vars) :
  print_fields d v
  = (v, field_lines (shown d),
     if forallb field_encodable d then inr tt else inl UnicodeEncodeError).
Proof.
  induction d as [|[k x] d IH]; [reflexivity|].
  cbn [print_fields shown forallb]. unfold bind, print_field, act, raise.
  change (field_encodable (k, x))
    with (negb (has_surrogate k) && encodable x).
  destruct (negb (has_surrogate k) && encodable x); [|reflexivity].
  rewrite IH. cbn [andb field_lines map fst snd app].
  now destruct (forallb field_encodable d).
Qed.

(** What the [try] block of the extraction branch does on a text. *)
Lemma new_parse_extraction_str (text : string) (v : vars) :
  parse_extraction (JStr text) v =
  match Regex.search_braces text with
  | None => (v, [Log "No JSON found in extraction response" []], inr tt)
  | Some group =>
      match Json.loads group with
      | inl e => (v, [], inl e)
      | inr (JObj d) =>
          (v,
           [Log rule []; Log "EXTRACTED CANDIDATE DATA:" []; Log rule []]
           ++ field_lines (shown d)
           ++ (if forallb field_encodable d then [Log rule []] else []),
           if forallb field_encodable d then inr tt
           else inl UnicodeEncodeError)
      | inr _ =>
          (v, [Log rule []; Log "EXTRACTED CANDIDATE DATA:" []; Log rule []],
           inl AttributeError)
      end
  end.
Proof.
  unfold parse_extraction, bind, eval, act, re_search.
  destruct (Regex.search_braces text) as [g|]; [|reflexivity].
  destruct (Json.loads g) as [e|cd]; [reflexivity|].
  destruct cd as [| | | | |d]; try reflexivity.
  cbn [items]. rewrite new_print_fields_run. cbn [app].
  destruct (forallb field_encodable d); cbn [app];
    now rewrite ?app_nil_r.
Qed.

Lemma display_logs (d : list (string * json)) :
  forallb is_log (display d) = true.
Proof.
  unfold display, field_lines. cbn [app forallb is_log andb].
  rewrite forallb_app. cbn [forallb].
  replace (is_log (if forallb field_encodable d then Log rule []
                   else LogExn "Error processing extraction:"
                          UnicodeEncodeError)) with true
    by now destruct (forallb field_encodable d).
  rewrite andb_true_r. apply forallb_forall. intros a Ha.
  apply in_map_iff in Ha. destruct Ha as [kv [<- _]]. reflexivity.
Qed.

(** The whole [try]/[except] on a text: it never raises, it changes no
    variable, and it prints [parse_report]. *)
Lemma new_guarded_parse_str (text : string) (v : vars) :
  try_except (parse_extraction (JStr text)) extraction_handler v =
  (v, parse_report text, inr tt).
Proof.
  unfold try_except, parse_report. rewrite new_parse_extraction_str.
  destruct (Regex.search_braces text) as [g|]; [|reflexivity].
  destruct (Json.loads g) as [e|cd].
  - destruct e; reflexivity.
  - destruct cd as [| | | | |d]; try reflexivity.
    unfold display. destruct (forallb field_encodable d).
    + reflexivity.
    + cbn [extraction_handler act app]. unfold act.
      now rewrite app_nil_r.
Qed.

Lemma parse_report_logs (text : string) :
  forallb is_log (parse_report text) = true.
Proof.
  unfold parse_report.
  destruct (Regex.search_braces text) as [g|]; [|reflexivity].
  destruct (Json.loads g) as [e|cd].
  - destruct e; reflexivity.
  - destruct cd; try reflexivity. apply display_logs.
Qed.

Lemma new_guarded_parse (x : json) (v : vars) :
  exists t,
    try_except (parse_extraction x) extraction_handler v = (v, t, inr tt)
    /\ forallb is_log t = true.
Proof.
  destruct x; try (eexists; split; [reflexivity|reflexivity]).
  exists (parse_report s). split.
  - apply new_guarded_parse_str.
  - apply parse_report_logs.
Qed.

Ltac new_scrutinee :=
  match goal with
  | |- context [try_except (parse_extraction ?x) extraction_handler ?v] =>
      let t := fresh "t" in let E := fresh "E" in let L := fresh "L" in
      destruct (new_guarded_parse x v) as [t [E L]]; rewrite E
  | _ => scrutinee
  end.

Ltac new_open :=
  unfold openai_to_twilio, openai_to_twilio_body, dispatch,
         twilio_to_openai, twilio_to_openai_body, route,
         incr_conversation_turns, set_extraction_done, set_stream_sid;
  unfold print, print_f;
  unfold bind, eval, read, write, await_receive, await_send, act, ret, raise.

Ltac new_calm :=
  cbn -[Json.loads get getitem eq_str truthy str_lower any_in try_except
        encodable
        parse_extraction extraction_handler Z.add Z.ltb extraction_prompt
        count_extraction no_phone_send no_ai_close closing_phrases].

Ltac new_cases := new_open; new_calm; repeat (new_scrutinee; new_calm).

Ltac logs_facts :=
  repeat match goal with
  | L : forallb is_log ?t = true |- _ =>
      pose proof (count_logs t L);
      pose proof (logs_no_phone_send t L);
      pose proof (logs_no_ai_close t L);
      clear L
  end.

Ltac new_leaf :=
  logs_facts;
  unfold no_phone_send, no_ai_close in *;
  rewrite ?app_nil_r, ?forallb_app, ?count_app, ?count_cons, ?new_request_counts;
  cbn -[extraction_prompt Z.add Z.ltb];
  repeat split; intros; bools;
  try congruence; try lia;
  repeat match goal with H : ?x = _ |- context [?x] => rewrite H end;
  try reflexivity; try congruence; try lia.

(** What one message of the AI session can do. *)
Lemma new_openai_step (a : arrival) (v : vars) :
  let '(v', t, st) := openai_to_twilio a v in
  stream_sid v' = stream_sid v
  /\ (extraction_done v = true ->
      extraction_done v' = true /\ count_extraction t = 0)
  /\ count_extraction t <= 1
  /\ (1 <= count_extraction t -> extraction_done v' = true)
  /\ (truthy (stream_sid v) = false -> no_phone_send t = true)
  /\ no_ai_close t = true
  /\ (snd a <> None -> 1 <= count_extraction t -> st <> Running).
Proof.
  destruct a as [r ans]. new_cases.
  all: new_leaf.
Qed.

(** What one frame of the phone side can do. *)
Lemma new_twilio_step (a : arrival) (v : vars) :
  let '(v', t, st) := twilio_to_openai a v in
  extraction_done v' = extraction_done v
  /\ conversation_turns v' = conversation_turns v
  /\ count_extraction t = 0
  /\ no_phone_send t = true
  /\ no_ai_close t = true
  /\ (is_start_frame (FromPhone a) = false -> stream_sid v' = stream_sid v).
Proof.
  destruct a as [r ans]. unfold is_start_frame. new_cases.
  all: new_leaf.
Qed.

Lemma new_step_quiet_when_set (s : session) (i : input) :
  flag new_server s = true ->
  flag new_server (fst (step s i)) = true
  /\ count_extraction (snd (step s i)) = 0.
Proof.
  unfold flag, step. cbn [requested variables_of]. intros Hs.
  destruct i as [a|a].
  - destruct (inbound s); try (now split).
    pose proof (new_twilio_step a (variables s)) as H.
    destruct (twilio_to_openai a (variables s)) as [[v t] st].
    cbn -[count_extraction]. destruct H as (H1 & _ & H3 & _).
    split; congruence.
  - destruct (outbound s); try (now split).
    pose proof (new_openai_step a (variables s)) as H.
    destruct (openai_to_twilio a (variables s)) as [[v t] st].
    cbn -[count_extraction]. destruct H as (_ & H2 & _). auto.
Qed.

Lemma new_step_once (s : session) (i : input) :
  count_extraction (snd (step s i)) <= 1.
Proof.
  unfold step. destruct i as [a|a].
  - destruct (inbound s); try (cbn; lia).
    pose proof (new_twilio_step a (variables s)) as H.
    destruct (twilio_to_openai a (variables s)) as [[v t] st].
    cbn -[count_extraction]. destruct H as (_ & _ & H3 & _). lia.
  - destruct (outbound s); try (cbn; lia).
    pose proof (new_openai_step a (variables s)) as H.
    destruct (openai_to_twilio a (variables s)) as [[v t] st].
    cbn -[count_extraction]. destruct H as (_ & _ & H3 & _). lia.
Qed.

Lemma new_step_sets_the_flag (s : session) (i : input) :
  1 <= count_extraction (snd (step s i)) ->
  flag new_server (fst (step s i)) = true.
Proof.
  unfold flag, step. cbn [requested variables_of]. destruct i as [a|a].
  - destruct (inbound s); try (cbn; lia).
    pose proof (new_twilio_step a (variables s)) as H.
    destruct (twilio_to_openai a (variables s)) as [[v t] st].
    cbn -[count_extraction]. destruct H as (_ & _ & H3 & _). lia.
  - destruct (outbound s); try (cbn; lia).
    pose proof (new_openai_step a (variables s)) as H.
    destruct (openai_to_twilio a (variables s)) as [[v t] st].
    cbn -[count_extraction]. destruct H as (_ & _ & _ & H4 & _). auto.
Qed.

(** The handler of [newServer.py] never closes the AI connection. *)
Lemma new_step_no_ai_close (s : session) (i : input) :
  no_ai_close (snd (step s i)) = true.
Proof.
  unfold step. destruct i as [a|a].
  - destruct (inbound s); try reflexivity.
    pose proof (new_twilio_step a (variables s)) as H.
    destruct (twilio_to_openai a (variables s)) as [[v t] st].
    cbn -[no_ai_close]. now destruct H as (_ & _ & _ & _ & H5 & _).
  - destruct (outbound s); try reflexivity.
    pose proof (new_openai_step a (variables s)) as H.
    destruct (openai_to_twilio a (variables s)) as [[v t] st].
    cbn -[no_ai_close]. now destruct H as (_ & _ & _ & _ & _ & H6 & _).
Qed.


(** A step of one task leaves the status of the other as it is. *)
Lemma new_step_other_task (s : session) (a : arrival) :
  outbound (fst (step s (FromPhone a))) = outbound s
  /\ inbound (fst (step s (FromAI a))) = inbound s.
Proof.
  unfold step. split.
  - destruct (inbound s); try reflexivity.
    now destruct (twilio_to_openai a (variables s)) as [[v t] st].
  - destruct (outbound s); try reflexivity.
    now destruct (openai_to_twilio a (variables s)) as [[v t] st].
Qed.


(** *** The turn counter *)





Lemma user_turns_cons (k : variant) (i : input) (ins : list input) :
  Z.of_nat (user_turns k (i :: ins)) =
  (one_if (is_user_transcript k i) + Z.of_nat (user_turns k ins))%Z.
Proof.
  unfold user_turns, one_if. cbn [filter].
  destruct (is_user_transcript k i); cbn [List.length]; lia.
Qed.




End NewFacts.

(* ===================================================================== *)
(** ** Facts about [server.py] *)
(* ===================================================================== *)

Module ServerFacts.
Import Py Relay Prompt Both Trace TraceFacts Server.

Lemma old_request_counts :
  is_extraction_request (AISend final_extraction) = true.
Proof. vm_compute. reflexivity. Qed.

Lemma old_greeting_is_no_request :
  is_extraction_request (AISend greeting_message) = false.
Proof. vm_compute. reflexivity. Qed.

Lemma old_config_is_no_request :
  is_extraction_request (AISend session_config) = false.
Proof. vm_compute. reflexivity. Qed.

Ltac old_open :=
  unfold openai_to_twilio, openai_to_twilio_body, openai_to_twilio_try,
         openai_to_twilio_except, dispatch,
         twilio_to_openai, twilio_to_openai_body, twilio_to_openai_try,
         twilio_to_openai_except, route,
         incr_audio_count, set_extraction_requested, set_interview_completed,
         set_stream_sid;
  unfold print, print_f;
  unfold try_except, bind, eval, read, write, await_receive, await_send, act,
         ret, raise.

Ltac old_calm :=
  cbn -[Json.loads get getitem eq_str truthy str_lower any_in logged_line
        encodable
        Z.add Z.modulo Z.eqb final_extraction
        count_extraction no_phone_send no_ai_close closing_phrases].

Ltac old_cases := old_open; old_calm; repeat (scrutinee; old_calm).

Ltac old_leaf :=
  unfold no_phone_send, no_ai_close in *;
  rewrite ?app_nil_r, ?forallb_app, ?count_app, ?count_cons, ?old_request_counts;
  cbn -[final_extraction Z.add Z.modulo Z.eqb any_in closing_phrases];
  repeat split; intros; bools;
  try congruence; try lia;
  repeat match goal with H : ?x = _ |- context [?x] => rewrite H end;
  try reflexivity; try congruence; try lia.

(** What one message of the AI session can do. *)
Lemma old_openai_step (a : arrival) (v : vars) :
  let '(v', t, st) := openai_to_twilio a v in
  stream_sid v' = stream_sid v
  /\ (extraction_requested v = true ->
      extraction_requested v' = true /\ count_extraction t = 0)
  /\ count_extraction t <= 1
  /\ (1 <= count_extraction t -> extraction_requested v' = true)
  /\ (truthy (stream_sid v) = false -> no_phone_send t = true)
  /\ no_ai_close t = true
  /\ (st = Running \/ st = Returned)
  /\ (snd a <> None -> 1 <= count_extraction t -> st <> Running)
  /\ (is_closing_transcript old_server (FromAI a) = false ->
      count_extraction t = 0).
Proof.
  destruct a as [r ans].
  unfold is_closing_transcript, decoded. cbn [event_type closing_phrases_of].
  old_cases.
  all: old_leaf.
  all: auto.
  all: try discriminate.
  all: try clash.
  all: match goal with
       | E : str_lower (JStr _) = inr _ |- _ =>
           cbn [str_lower] in E; injection E as E; subst; congruence
       end.
Qed.

(** What one frame of the phone side can do. *)
Lemma old_twilio_step (a : arrival) (v : vars) :
  let '(v', t, st) := twilio_to_openai a v in
  extraction_requested v' = extraction_requested v
  /\ count_extraction t = 0
  /\ no_phone_send t = true
  /\ no_ai_close t = true
  /\ (st = Running \/ st = Returned)
  /\ (is_start_frame (FromPhone a) = false -> stream_sid v' = stream_sid v).
Proof.
  destruct a as [r ans]. unfold is_start_frame. old_cases.
  all: old_leaf.
  all: auto.
Qed.

Lemma finish_spec (s : session) :
  variables (fst (finish s)) = variables s
  /\ inbound (fst (finish s)) = inbound s
  /\ outbound (fst (finish s)) = outbound s
  /\ count_extraction (snd (finish s)) = 0
  /\ no_phone_send (snd (finish s)) = true.
Proof.
  unfold finish. destruct (closed s); [now repeat split|].
  destruct (gather (inbound s) (outbound s)) as [[e|u]|]; now repeat split.
Qed.

Lemma deliver_spec (s : session) (i : input) :
  (flag old_server s = true ->
   flag old_server (fst (deliver s i)) = true
   /\ count_extraction (snd (deliver s i)) = 0)
  /\ count_extraction (snd (deliver s i)) <= 1
  /\ (1 <= count_extraction (snd (deliver s i)) ->
      flag old_server (fst (deliver s i)) = true)
  /\ (is_closing_transcript old_server i = false ->
      count_extraction (snd (deliver s i)) = 0).
Proof.
  unfold flag, deliver. cbn [requested variables_of]. destruct i as [a|a].
  - destruct (inbound s); try (cbn; repeat split; auto; lia).
    pose proof (old_twilio_step a (variables s)) as H.
    destruct (twilio_to_openai a (variables s)) as [[v t] st].
    cbn -[count_extraction]. destruct H as (H1 & H2 & _).
    repeat split; try congruence; lia.
  - destruct (outbound s); try (cbn; repeat split; auto; lia).
    pose proof (old_openai_step a (variables s)) as H.
    destruct (openai_to_twilio a (variables s)) as [[v t] st].
    cbn -[count_extraction is_closing_transcript].
    destruct H as (_ & H2 & H3 & H4 & _ & _ & _ & _ & H9).
    repeat split; auto; apply H2; assumption.
Qed.

Lemma old_step_fst (s : session) (i : input) :
  fst (step s i) = fst (finish (fst (deliver s i))).
Proof.
  unfold step. destruct (deliver s i) as [s1 t1]. cbn [fst].
  now destruct (finish s1).
Qed.

Lemma old_step_snd (s : session) (i : input) :
  snd (step s i) = snd (deliver s i) ++ snd (finish (fst (deliver s i))).
Proof.
  unfold step. destruct (deliver s i) as [s1 t1]. cbn [fst snd].
  now destruct (finish s1).
Qed.

Lemma old_step_count (s : session) (i : input) :
  count_extraction (snd (step s i)) = count_extraction (snd (deliver s i)).
Proof.
  rewrite old_step_snd, count_app.
  destruct (finish_spec (fst (deliver s i))) as (_ & _ & _ & -> & _). lia.
Qed.

Lemma old_step_flag (s : session) (i : input) :
  flag old_server (fst (step s i)) = flag old_server (fst (deliver s i)).
Proof.
  rewrite old_step_fst. unfold flag. cbn [requested variables_of].
  now destruct (finish_spec (fst (deliver s i))) as (-> & _).
Qed.

Lemma old_step_quiet_when_set (s : session) (i : input) :
  flag old_server s = true ->
  flag old_server (fst (step s i)) = true
  /\ count_extraction (snd (step s i)) = 0.
Proof. rewrite old_step_flag, old_step_count. apply deliver_spec. Qed.

Lemma old_step_once (s : session) (i : input) :
  count_extraction (snd (step s i)) <= 1.
Proof. rewrite old_step_count. apply deliver_spec. Qed.

Lemma old_step_sets_the_flag (s : session) (i : input) :
  1 <= count_extraction (snd (step s i)) ->
  flag old_server (fst (step s i)) = true.
Proof. rewrite old_step_flag, old_step_count. apply deliver_spec. Qed.



(** *** The end of the session *)

Lemma deliver_status (s : session) (i : input) :
  (inbound s = Running \/ inbound s = Returned) ->
  (outbound s = Running \/ outbound s = Returned) ->
  (inbound (fst (deliver s i)) = Running \/ inbound (fst (deliver s i)) = Returned)
  /\ (outbound (fst (deliver s i)) = Running
      \/ outbound (fst (deliver s i)) = Returned)
  /\ closed (fst (deliver s i)) = closed s
  /\ no_ai_close (snd (deliver s i)) = true
  /\ (both_ended s = true -> both_ended (fst (deliver s i)) = true).
Proof.
  unfold deliver, both_ended. intros Hi Ho. destruct i as [a|a].
  - destruct (inbound s) eqn:E; try solve [cbn; rewrite ?E; repeat split; auto].
    pose proof (old_twilio_step a (variables s)) as H.
    destruct (twilio_to_openai a (variables s)) as [[v t] st].
    cbn -[no_ai_close]. destruct H as (_ & _ & _ & H4 & H5 & _).
    repeat split; auto. discriminate.
  - destruct (outbound s) eqn:E; try solve [cbn; rewrite ?E; repeat split; auto].
    pose proof (old_openai_step a (variables s)) as H.
    destruct (openai_to_twilio a (variables s)) as [[v t] st].
    cbn -[no_ai_close]. destruct H as (_ & _ & _ & _ & _ & H6 & H7 & _).
    repeat split; auto. rewrite andb_false_r. discriminate.
Qed.

Lemma old_step_settled (s : session) (i : input) :
  settled s ->
  settled (fst (step s i))
  /\ count_ai_close (snd (step s i)) =
     (if both_ended (fst (step s i)) then 1 else 0)
     - (if both_ended s then 1 else 0).
Proof.
  intros (Hi & Ho & Hc).
  destruct (deliver_status s i Hi Ho) as (Hi1 & Ho1 & Hc1 & Hn & Hb).
  rewrite old_step_fst, old_step_snd, count_ai_close_app,
    (no_ai_close_count _ Hn).
  set (s1 := fst (deliver s i)) in *.
  unfold settled, finish, both_ended, gather in *.
  rewrite Hc1, Hc.
  destruct Hi1 as [Hi1|Hi1], Ho1 as [Ho1|Ho1]; rewrite ?Hi1, ?Ho1 in *;
    destruct Hi as [Hi|Hi], Ho as [Ho|Ho]; rewrite ?Hi, ?Ho in *;
    cbn in *; rewrite ?Hi1, ?Ho1; cbn;
    try (repeat split; auto; fail);
    try (specialize (Hb eq_refl); discriminate);
    repeat split; auto; congruence.
Qed.

Lemma old_step_keeps_ended (s : session) (i : input) :
  settled s -> both_ended s = true -> both_ended (fst (step s i)) = true.
Proof.
  intros (Hi & Ho & _) Hb.
  destruct (deliver_status s i Hi Ho) as (_ & _ & _ & _ & Hd).
  rewrite old_step_fst. unfold both_ended in *.
  destruct (finish_spec (fst (deliver s i))) as (_ & -> & -> & _).
  auto.
Qed.

(** The AI connection is closed once, when both tasks have ended. *)
Lemma old_run_settled (ins : list input) (s : session) :
  settled s ->
  settled (fst (run s ins))
  /\ count_ai_close (snd (run s ins)) =
     (if both_ended (fst (run s ins)) then 1 else 0)
     - (if both_ended s then 1 else 0)
  /\ (both_ended s = true -> both_ended (fst (run s ins)) = true).
Proof.
  unfold run. revert s. induction ins as [|i ins IH]; intros s Hs.
  - cbn [iterate fst snd]. split; [assumption|]. split; [|auto].
    destruct (both_ended s); reflexivity.
  - rewrite Generic.iterate_cons. cbn [fst snd].
    destruct (old_step_settled s i Hs) as [Hs1 Hc1].
    destruct (IH _ Hs1) as (Hs2 & Hc2 & Hb2).
    rewrite count_ai_close_app, Hc1, Hc2.
    pose proof (old_step_keeps_ended s i Hs) as Hmono.
    split; [assumption|]. split; [|auto].
    destruct (both_ended s) eqn:E1.
    + rewrite (Hmono eq_refl), (Hb2 (Hmono eq_refl)). reflexivity.
    + destruct (both_ended (fst (step s i))) eqn:E2.
      * rewrite (Hb2 eq_refl). reflexivity.
      * destruct (both_ended _); reflexivity.
Qed.

(** A step of one task leaves the status of the other as it is. *)
Lemma old_step_other_task (s : session) (a : arrival) :
  outbound (fst (step s (FromPhone a))) = outbound s
  /\ inbound (fst (step s (FromAI a))) = inbound s.
Proof.
  rewrite !old_step_fst.
  destruct (finish_spec (fst (deliver s (FromPhone a)))) as (_ & _ & -> & _).
  destruct (finish_spec (fst (deliver s (FromAI a)))) as (_ & -> & _).
  unfold deliver. split.
  - destruct (inbound s); try reflexivity.
    now destruct (twilio_to_openai a (variables s)) as [[v t] st].
  - destruct (outbound s); try reflexivity.
    now destruct (openai_to_twilio a (variables s)) as [[v t] st].
Qed.

End ServerFacts.

(* ===================================================================== *)
(** ** What each kind of message does, in both files *)
(* ===================================================================== *)

Module Events.
Import Py Relay Prompt Both Trace TraceFacts.
Import NewFacts ServerFacts.

(** Simplification of the facts collected by a case analysis. *)
Ltac injections :=
  repeat match goal with
  | H : inr _ = inr _ |- _ => injection H as H
  | H : inl _ = inl _ |- _ => injection H as H
  | H : Some _ = Some _ |- _ => injection H as H
  | H : inl _ = inr _ |- _ => discriminate H
  | H : inr _ = inl _ |- _ => discriminate H
  | H : Some _ = None |- _ => discriminate H
  | H : None = Some _ |- _ => discriminate H
  end.

Ltac known_types :=
  repeat match goal with
  | H : context [eq_str (JStr ?a) ?b] |- _ =>
      let r := eval vm_compute in (eq_str (JStr a) b) in
      change (eq_str (JStr a) b) with r in H; cbn [andb orb negb] in H
  | H : Server.logged_line (JStr _) _ = _ |- _ =>
      vm_compute in H; try discriminate H; clear H
  end.

(** Two readings of one field agree. *)
Ltac link :=
  repeat match goal with
  | H : get ?j ?k ?d = _, H' : get ?j ?k ?d = _ |- _ => rewrite H in H'
  | H : getitem ?j ?k = _, H' : getitem ?j ?k = _ |- _ => rewrite H in H'
  | H : Json.loads ?m = _, H' : Json.loads ?m = _ |- _ => rewrite H in H'
  end.

Ltac settle :=
  intros; repeat (progress (injections; subst; link)); known_types; bools;
  try discriminate; try clash; try undictable; try congruence.


Ltac both k :=
  destruct k;
  cbn [openai_task twilio_task event_type sid requested vars_of
       closing_phrases_of extraction_request_of closing_line_of
       transcript_line_of vars_after trace_of status_of fst snd] in *;
  [new_cases | old_cases]; settle.

(** An audio delta while the correlation id is unset: dropped. *)
Lemma delta_dropped (k : variant) (v : vars_of k) (text : string)
    (event : json) (answer : option exn) :
  Json.loads text = inr event ->
  event_type k event = inr (JStr "response.audio.delta") ->
  truthy (sid k v) = false ->
  openai_task k (Text text, answer) v = (v, [], Running).
Proof. both k. Qed.

(** An audio delta once the correlation id is set: forwarded as it is,
    with the id. *)
Lemma delta_forwarded (k : variant) (v : vars_of k) (text : string)
    (event delta : json) (answer : option exn) :
  Json.loads text = inr event ->
  event_type k event = inr (JStr "response.audio.delta") ->
  getitem event "delta" = inr delta ->
  truthy (sid k v) = true ->
  vars_after (openai_task k (Text text, answer) v) = v
  /\ exists logs,
       trace_of (openai_task k (Text text, answer) v)
       = PhoneSend (media_message (sid k v) delta) :: logs
       /\ forallb is_log logs = true
       /\ (answer = None ->
           logs = [] /\ status_of (openai_task k (Text text, answer) v) = Running).
Proof.
  both k.
  all: split; [reflexivity|eexists; split; [reflexivity|]].
  all: split; [reflexivity|intros; try discriminate; auto].
Qed.




(** A [media] frame: its payload goes into the AI session, whatever the
    correlation id. *)
Lemma media_forwarded (k : variant) (v : vars_of k) (m : string)
    (msg media payload : json) (answer : option exn) :
  Json.loads m = inr msg ->
  getitem msg "event" = inr (JStr "media") ->
  getitem msg "media" = inr media ->
  getitem media "payload" = inr payload ->
  sid k (vars_after (twilio_task k (Text m, answer) v)) = sid k v
  /\ exists logs,
       trace_of (twilio_task k (Text m, answer) v)
       = AISend (append_command payload) :: logs
       /\ forallb is_log logs = true
       /\ (answer = None ->
           status_of (twilio_task k (Text m, answer) v) = Running).
Proof.
  both k.
  all: split; [reflexivity|eexists; split; [reflexivity|]].
  all: split; [reflexivity|intros; try discriminate; auto].
Qed.

(** A [start] frame: the correlation id is captured. *)
Lemma start_captures_id (k : variant) (v : vars_of k) (m : string)
    (msg start id : json) (answer : option exn) :
  Json.loads m = inr msg ->
  getitem msg "event" = inr (JStr "start") ->
  getitem msg "start" = inr start ->
  getitem start "streamSid" = inr id ->
  sid k (vars_after (twilio_task k (Text m, answer) v)) = id
  /\ (encodable id = true ->
      trace_of (twilio_task k (Text m, answer) v)
      = [Log "Stream started:" [id]]
      /\ status_of (twilio_task k (Text m, answer) v) = Running).
Proof. both k. all: repeat split; congruence. Qed.

(** A [stop] frame: the buffer is committed and the loop ends. *)
Lemma stop_ends_the_loop (k : variant) (v : vars_of k) (m : string)
    (msg : json) (answer : option exn) :
  Json.loads m = inr msg ->
  getitem msg "event" = inr (JStr "stop") ->
  vars_after (twilio_task k (Text m, answer) v) = v
  /\ In (AISend commit_command) (trace_of (twilio_task k (Text m, answer) v))
  /\ status_of (twilio_task k (Text m, answer) v) <> Running.
Proof.
  both k.
  all: repeat split; cbn; auto; try discriminate.
Qed.

(** A frame of another kind: skipped, without a word. *)
Lemma other_frame_skipped (k : variant) (v : vars_of k) (m : string)
    (msg event : json) (answer : option exn) :
  Json.loads m = inr msg ->
  getitem msg "event" = inr event ->
  eq_str event "start" = false ->
  eq_str event "media" = false ->
  eq_str event "stop" = false ->
  twilio_task k (Text m, answer) v = (v, [], Running).
Proof. both k. Qed.

(** The phone side hangs up: the receiver ends. *)
Lemma disconnect_ends_the_loop (k : variant) (v : vars_of k)
    (answer : option exn) :
  twilio_task k (Fails WebSocketDisconnect, answer) v
  = (v, [Log "Twilio disconnected" []], Returned).
Proof. both k. Qed.

Lemma missing_field_kind (msg : json) (e : exn) :
  missing_field msg = Some e -> e = KeyError \/ e = TypeError.
Proof.
  assert (G : forall x k e', getitem x k = inl e' ->
                             e' = KeyError \/ e' = TypeError).
  { intros x k e'. destruct x; cbn; try (intros [= <-]; auto).
    destruct (dict_get fields k); intros [= <-]; auto. }
  unfold missing_field, path.
  destruct (getitem msg "event") as [e0|event] eqn:E0.
  - intros [= <-]. eauto.
  - destruct (eq_str event "start").
    + destruct (getitem msg "start") as [e1|x] eqn:E1.
      * intros [= <-]. eauto.
      * destruct (getitem x "streamSid") eqn:E2; [|discriminate].
        intros [= <-]. eauto.
    + destruct (eq_str event "media"); [|discriminate].
      destruct (getitem msg "media") as [e1|x] eqn:E1.
      * intros [= <-]. eauto.
      * destruct (getitem x "payload") eqn:E2; [|discriminate].
        intros [= <-]. eauto.
Qed.

(** A frame that lacks an expected field ends the receiver of
    [newServer.py] with the exception, nothing printed. *)
Lemma new_malformed_frame (v : NewServer.vars) (m : string) (msg : json)
    (e : exn) (answer : option exn) :
  Json.loads m = inr msg ->
  missing_field msg = Some e ->
  NewServer.twilio_to_openai (Text m, answer) v = (v, [], Raised e).
Proof.
  intros Hl Hm. pose proof (missing_field_kind msg e Hm) as Hk.
  revert Hl Hm. unfold missing_field, path.
  new_cases; settle.
  all: destruct Hk; congruence.
Qed.

(** The same frame ends the receiver of [server.py] too, after a line
    that reports the exception. *)
Lemma old_malformed_frame (v : Server.vars) (m : string) (msg : json)
    (e : exn) (answer : option exn) :
  Json.loads m = inr msg ->
  missing_field msg = Some e ->
  Server.twilio_to_openai (Text m, answer) v
  = (v, [LogExn "Error receiving from Twilio:" e], Returned).
Proof.
  intros Hl Hm. pose proof (missing_field_kind msg e Hm) as Hk.
  revert Hl Hm. unfold missing_field, path.
  old_cases; settle.
  all: destruct Hk; congruence.
Qed.




(** Neither opening sends an extraction request. *)
Lemma opening_requests_nothing (k : variant) (key : option string)
    (connect a1 a2 : option exn) (ins : list input) :
  count_extraction (media_stream_of k key connect a1 a2 ins)
  <= count_extraction (snd (run_of k (initial_of k) ins)).
Proof.
  unfold run_of. destruct k; cbn [media_stream_of step_of initial_of].
  - change (iterate NewServer.step NewServer.initial ins)
      with (NewServer.run NewServer.initial ins).
    unfold NewServer.media_stream, NewServer.open_session, act_of.
    unfold bind, act, ret, raise, await_send.
    cbn -[count_extraction NewServer.run NewServer.session_config
          NewServer.greeting_message String.eqb].
    repeat (scrutinee;
            cbn -[count_extraction NewServer.run NewServer.session_config
                  NewServer.greeting_message String.eqb]).
    all: injections; subst.
    all: rewrite ?count_app, ?count_cons, ?new_config_is_no_request,
           ?new_greeting_is_no_request; cbn -[NewServer.run]; try lia.
    all: discriminate.
  - change (iterate Server.step Server.initial ins)
      with (Server.run Server.initial ins).
    unfold Server.media_stream, Server.open_session, act_of.
    unfold try_except, bind, act, ret, raise, await_send.
    cbn -[count_extraction Server.run Server.session_config
          Server.greeting_message String.eqb].
    repeat (scrutinee;
            cbn -[count_extraction Server.run Server.session_config
                  Server.greeting_message String.eqb]).
    all: injections; subst.
    all: rewrite ?count_app, ?count_cons, ?old_config_is_no_request,
           ?old_greeting_is_no_request; cbn -[Server.run]; try lia.
    all: discriminate.
Qed.

(** In both files the flag guards the request over whole runs. *)
Lemma run_at_most_once (k : variant) (s : session_of k) (ins : list input) :
  count_extraction (snd (run_of k s ins)) <= 1.
Proof.
  unfold run_of. destruct k; cbn [step_of session_of] in *.
  - apply (Generic.at_most_once NewServer.step (flag new_server)
             new_step_quiet_when_set new_step_once new_step_sets_the_flag).
  - apply (Generic.at_most_once Server.step (flag old_server)
             old_step_quiet_when_set old_step_once old_step_sets_the_flag).
Qed.

Lemma run_quiet_after_set (k : variant) (s : session_of k) (ins : list input) :
  flag k s = true ->
  flag k (fst (run_of k s ins)) = true
  /\ count_extraction (snd (run_of k s ins)) = 0.
Proof.
  unfold run_of. destruct k; cbn [step_of session_of] in *.
  - apply (Generic.quiet_after_set NewServer.step (flag new_server)
             new_step_quiet_when_set).
  - apply (Generic.quiet_after_set Server.step (flag old_server)
             old_step_quiet_when_set).
Qed.

Lemma step_sets_flag (k : variant) (s : session_of k) (i : input) :
  1 <= count_extraction (snd (step_of k s i)) ->
  flag k (fst (step_of k s i)) = true.
Proof.
  destruct k; cbn [step_of session_of] in *.
  - apply new_step_sets_the_flag.
  - apply old_step_sets_the_flag.
Qed.

(** A request whose send raises ends the loop of the AI task. *)
Lemma failed_request_ends_task (k : variant) (s : session_of k)
    (r : received) (e : exn) :
  1 <= count_extraction (snd (step_of k s (FromAI (r, Some e)))) ->
  outbound_of k (fst (step_of k s (FromAI (r, Some e)))) <> Running.
Proof.
  destruct k; cbn [step_of session_of outbound_of] in *.
  - unfold NewServer.step.
    destruct (NewServer.outbound s) eqn:Eo; try (cbn; lia).
    pose proof (new_openai_step (r, Some e) (NewServer.variables s)) as H.
    destruct (NewServer.openai_to_twilio _ _) as [[v t] st].
    cbn -[count_extraction].
    destruct H as (_ & _ & _ & _ & _ & _ & H7). intros Hc.
    apply H7; [discriminate|assumption].
  - rewrite old_step_count, old_step_fst.
    destruct (finish_spec (fst (Server.deliver s (FromAI (r, Some e)))))
      as (_ & _ & -> & _).
    unfold Server.deliver.
    destruct (Server.outbound s) eqn:Eo; try (cbn; lia).
    pose proof (old_openai_step (r, Some e) (Server.variables s)) as H.
    destruct (Server.openai_to_twilio _ _) as [[v t] st].
    cbn -[count_extraction].
    destruct H as (_ & _ & _ & _ & _ & _ & _ & H8 & _). intros Hc.
    apply H8; [discriminate|assumption].
Qed.


(** While the correlation id is unset, no message of the AI session
    reaches the phone. *)
Lemma unset_drops_everything (k : variant) (v : vars_of k) (a : arrival) :
  truthy (sid k v) = false ->
  no_phone_send (trace_of (openai_task k a v)) = true.
Proof.
  destruct k; cbn [openai_task sid vars_of trace_of] in *; intros Hs.
  - pose proof (new_openai_step a v) as H.
    destruct (NewServer.openai_to_twilio a v) as [[v' t] st].
    cbn [fst snd]. now apply H.
  - pose proof (old_openai_step a v) as H.
    destruct (Server.openai_to_twilio a v) as [[v' t] st].
    cbn [fst snd]. now apply H.
Qed.





End Events.

(* ===================================================================== *)
(** ** Whole calls, evaluated *)
(* ===================================================================== *)

Module Runs.
Import Py Relay Prompt Both Trace Examples.

(** [json.loads] on a frame, on white space and numbers, and on texts
    that it refuses. *)
Example loads_media_frame :
  Json.loads media_frame
  = inr (JObj [("event", JStr "media");
               ("media", JObj [("track", JStr "inbound");
                               ("payload", JStr "fn5+fn5+")])]).
Proof. vm_compute. reflexivity. Qed.

Example loads_numbers :
  Json.loads (q " { 'a' : [1, -0, 2.50, 1e-3, true, null], 'a' : 'xA\n' } ")
  = inr (JObj [("a", JStr (String "x" (String "A" (str1 "010"))))])
  /\ Json.loads "[1, -0, 2.50, 1e-3, NaN]"
     = inr (JArr [JNum (NInt 1); JNum (NInt 0); JNum (NFloat false 250 (-2));
                  JNum (NFloat false 1 (-3)); JNum NNaN]).
Proof. split; vm_compute; reflexivity. Qed.

Example loads_refuses :
  Json.loads "[1,]" = inl JSONDecodeError
  /\ Json.loads (q "{'a':1,}") = inl JSONDecodeError
  /\ Json.loads "01" = inl JSONDecodeError
  /\ Json.loads (q "{'a':1} x") = inl JSONDecodeError
  /\ Json.loads "" = inl JSONDecodeError.
Proof. repeat split; vm_compute; reflexivity. Qed.

(** The regular expression on a text with braces on both sides, and on a
    text whose only closing brace comes first. *)
Example search_braces_cut :
  Regex.search_braces "a {b} c {d} e }" = Some "{b} c {d} e }"
  /\ Regex.search_braces "} {" = None
  /\ Regex.search_braces "no braces" = None.
Proof. repeat split; vm_compute; reflexivity. Qed.

(** Truth values of correlation ids. *)
Example truthy_ids :
  truthy JNull = false
  /\ truthy (JStr "MZ18ad3ab5a668481ce02b83e7395059f0") = true
  /\ truthy (JStr "") = false
  /\ truthy (JNum (NFloat false 1 (-400))) = false.
Proof. repeat split; vm_compute; reflexivity. Qed.

(** A frame of a kind that the receiver does not know is skipped. *)
Example mark_frame_skipped :
  NewServer.twilio_to_openai (ok mark_frame) NewServer.initial_vars
  = (NewServer.initial_vars, [], Running)
  /\ Server.twilio_to_openai (ok mark_frame) Server.initial_vars
     = (Server.initial_vars, [], Running).
Proof. split; vm_compute; reflexivity. Qed.

(** A [start] frame without [streamSid]. *)
Example start_without_sid :
  NewServer.twilio_to_openai (ok no_sid_frame) NewServer.initial_vars
  = (NewServer.initial_vars, [], Raised KeyError)
  /\ Server.twilio_to_openai (ok no_sid_frame) Server.initial_vars
     = (Server.initial_vars,
        [LogExn "Error receiving from Twilio:" KeyError], Returned).
Proof. split; vm_compute; reflexivity. Qed.

(** Extraction texts without JSON and with broken JSON, in
    [newServer.py]. *)
Example extraction_failures :
  NewServer.openai_to_twilio (ok no_json_event) after_request
  = (after_request,
     [Log "EXTRACTION RESPONSE:" [JStr "I could not extract anything."];
      Log "No JSON found in extraction response" []],
     Running)
  /\ NewServer.openai_to_twilio (ok bad_json_event) after_request
     = (after_request,
        [Log "EXTRACTION RESPONSE:" [JStr "{full_name: Jane}"];
         LogExn "Failed to parse extraction JSON:" JSONDecodeError],
        Running).
Proof. split; vm_compute; reflexivity. Qed.

(** A call of [server.py] from the [start] frame to the end: audio in
    both directions, the closing line, the [stop] frame, then the AI
    connection closes and [finally] runs. *)
Example server_call :
  Server.run Server.initial
    [FromPhone (ok start_frame); FromPhone (ok media_frame);
     FromAI (ok session_updated_event); FromAI (ok delta_event);
     FromAI (ok closing_event); FromPhone (ok stop_frame);
     FromAI (Fails ConnectionClosed, None)]
  = ({| Server.variables :=
          {| Server.stream_sid := JStr "MZ18ad3ab5a668481ce02b83e7395059f0";
             Server.interview_completed := true;
             Server.extraction_requested := true;
             Server.audio_count := 1 |};
        Server.inbound := Returned;
        Server.outbound := Returned;
        Server.closed := true |},
     [Log "Stream started:" [JStr "MZ18ad3ab5a668481ce02b83e7395059f0"];
      AISend (append_command (JStr "fn5+fn5+"));
      Log "OpenAI session updated" [];
      PhoneSend (media_message (JStr "MZ18ad3ab5a668481ce02b83e7395059f0")
                   (JStr "/v7+/v7+"));
      Log "AI said:"
        [JStr "Thank You for your time. Your telephonic interview is complete."];
      Log "Interview completion detected - starting extraction" [];
      AISend Server.final_extraction;
      Log "Stream stopped by Twilio" [];
      AISend commit_command;
      Log "OpenAI connection closed" [];
      AIClose;
      Log "Connections closed" []]).
Proof. vm_compute. reflexivity. Qed.

(** A call of [newServer.py] in which the closing line comes first and
    the user goes on for sixteen turns: one request. *)
Example new_server_call :
  count_extraction
    (NewServer.media_stream (Some "sk-key") None None None
       (FromPhone (ok start_frame) :: FromAI (ok closing_event)
        :: sixteen_user_turns ++ [FromAI (ok jane_event)])) = 1.
Proof. vm_compute. reflexivity. Qed.

(** Without a key nothing is sent to the AI session. *)
Example no_key :
  NewServer.media_stream None None None None [FromAI (ok closing_event)]
  = [Log "Twilio WebSocket connected" [];
     PhoneClose 1008 "Missing OpenAI API key"]
  /\ filter is_ai_send
       (Server.media_stream (Some Server.placeholder_key) None None None
          [FromAI (ok closing_event)]) = [].
Proof. split; vm_compute; reflexivity. Qed.

End Runs.

(* ===================================================================== *)
(** ** Facts about the audio that crosses the relay *)
(* ===================================================================== *)

Module FlowFacts.
Import Py Relay Prompt Both Trace TraceFacts Flow.
Import NewFacts ServerFacts.

Lemma appended_app (t u : list action) :
  appended (t ++ u) = appended t ++ appended u.
Proof. apply flat_map_app. Qed.

Lemma phone_messages_app (t u : list action) :
  phone_messages (t ++ u) = phone_messages t ++ phone_messages u.
Proof. apply flat_map_app. Qed.

Lemma commits_app (t u : list action) :
  commits (t ++ u) = commits t + commits u.
Proof. unfold commits. now rewrite filter_app, length_app. Qed.

Lemma packet_reports_app (t u : list action) :
  packet_reports (t ++ u) = packet_reports t ++ packet_reports u.
Proof. apply filter_app. Qed.

Lemma logs_appended (t : list action) :
  forallb is_log t = true -> appended t = [].
Proof.
  induction t as [|a t IH]; [reflexivity|].
  cbn [forallb]. rewrite andb_true_iff. intros [Ha Ht].
  cbn [appended flat_map]. fold (appended t). rewrite (IH Ht).
  now destruct a.
Qed.

Lemma logs_phone_messages (t : list action) :
  forallb is_log t = true -> phone_messages t = [].
Proof.
  induction t as [|a t IH]; [reflexivity|].
  cbn [forallb]. rewrite andb_true_iff. intros [Ha Ht].
  cbn [phone_messages flat_map]. fold (phone_messages t). rewrite (IH Ht).
  now destruct a.
Qed.

Lemma logs_commits (t : list action) :
  forallb is_log t = true -> commits t = 0.
Proof.
  unfold commits. induction t as [|a t IH]; [reflexivity|].
  cbn [forallb]. rewrite andb_true_iff. intros [Ha Ht].
  cbn [filter]. destruct a; try discriminate; cbn [is_commit]; auto.
Qed.

Lemma new_request_flow :
  appended_by (AISend NewServer.extraction_prompt) = []
  /\ is_commit (AISend NewServer.extraction_prompt) = false.
Proof. split; vm_compute; reflexivity. Qed.

Lemma old_request_flow :
  appended_by (AISend Server.final_extraction) = []
  /\ is_commit (AISend Server.final_extraction) = false.
Proof. split; vm_compute; reflexivity. Qed.

(** The count of hundreds grows by one exactly when the new count is a
    multiple of one hundred. *)
Lemma hundreds_step (c : Z) :
  ((c + 1) / 100 - c / 100 = if (c + 1) mod 100 =? 0 then 1 else 0)%Z.
Proof.
  pose proof (Z.div_mod c 100 ltac:(lia)) as H.
  pose proof (Z.mod_pos_bound c 100 ltac:(lia)) as Hb.
  pose proof (Z.div_mod (c + 1) 100 ltac:(lia)) as H1.
  pose proof (Z.mod_pos_bound (c + 1) 100 ltac:(lia)) as Hb1.
  destruct ((c + 1) mod 100 =? 0)%Z eqn:E.
  - apply Z.eqb_eq in E. lia.
  - apply Z.eqb_neq in E. lia.
Qed.

Ltac flow_facts :=
  repeat match goal with
  | L : forallb is_log ?t = true |- _ =>
      pose proof (logs_appended t L);
      pose proof (logs_phone_messages t L);
      pose proof (logs_commits t L);
      clear L
  end.

Ltac zfacts :=
  repeat match goal with
  | H : (_ =? _)%Z = true |- _ => apply Z.eqb_eq in H
  | H : (_ =? _)%Z = false |- _ => apply Z.eqb_neq in H
  | H : (_ <? _)%Z = true |- _ => apply Z.ltb_lt in H
  | H : (_ <? _)%Z = false |- _ => apply Z.ltb_ge in H
  end.

Ltac new_calm2 :=
  cbn -[Json.loads get getitem eq_str truthy str_lower any_in try_except
        NewServer.parse_extraction NewServer.extraction_handler Z.add Z.ltb
        NewServer.extraction_prompt NewServer.closing_phrases
        appended commits phone_messages packet_reports].

Ltac new_cases2 :=
  NewFacts.new_open; new_calm2; repeat (NewFacts.new_scrutinee; new_calm2).

Ltac old_calm2 :=
  cbn -[Json.loads get getitem eq_str truthy str_lower any_in
        Server.logged_line Z.add Z.modulo Z.eqb Server.final_extraction
        Server.closing_phrases
        appended commits phone_messages packet_reports].

Ltac old_cases2 :=
  ServerFacts.old_open; old_calm2; repeat (scrutinee; old_calm2).

(** A type test that succeeded names the type. *)
Ltac name_types :=
  repeat match goal with
  | H : eq_str ?j ?a = true |- _ =>
      is_var j; destruct j; try discriminate H;
      cbn [eq_str] in H; apply String.eqb_eq in H; subst
  end.

Ltac flow_leaf :=
  flow_facts;
  unfold commits, packet_reports, one_if in *;
  rewrite ?app_nil_r, ?appended_app, ?phone_messages_app, ?filter_app;
  cbn -[Z.add Z.modulo Z.eqb Z.ltb NewServer.extraction_prompt
        Server.final_extraction];
  rewrite ?(proj1 new_request_flow), ?(proj2 new_request_flow),
          ?(proj1 old_request_flow), ?(proj2 old_request_flow);
  cbn -[Z.add Z.modulo Z.eqb Z.ltb];
  repeat split; intros; bools;
  try congruence; try lia;
  repeat match goal with H : ?x = _ |- context [?x] => rewrite H end;
  try reflexivity; try congruence; try lia; try assumption;
  try (name_types; cbn in *; first [reflexivity | congruence | lia]).

(** What one frame of the phone side appends, in [newServer.py]. *)
Lemma new_twilio_flow (a : arrival) (v : NewServer.vars) :
  let '(v', t, st) := NewServer.twilio_to_openai a v in
  appended t = listed (media_payload (FromPhone a))
  /\ commits t <= 1
  /\ (1 <= commits t -> st <> Running /\ appended t = [])
  /\ phone_messages t = [].
Proof.
  destruct a as [r ans]. unfold media_payload, path. cbn [fst].
  new_cases2.
  all: flow_leaf.
  all: try clash.
Qed.

(** What one message of the AI session sends to the phone, in
    [newServer.py], and how it moves the turn counter. *)
Lemma new_openai_flow (a : arrival) (v : NewServer.vars) :
  let '(v', t, st) := NewServer.openai_to_twilio a v in
  appended t = []
  /\ commits t = 0
  /\ phone_messages t =
     (if truthy (NewServer.stream_sid v)
      then map (media_message (NewServer.stream_sid v))
             (listed (audio_delta new_server (FromAI a)))
      else [])
  /\ (st = Running ->
      NewServer.conversation_turns v'
      = (NewServer.conversation_turns v
         + one_if (is_user_transcript new_server (FromAI a)))%Z).
Proof.
  destruct a as [r ans].
  unfold audio_delta, is_user_transcript, decoded. cbn [fst event_type].
  new_cases2.
  all: flow_leaf.
  all: try clash.
Qed.

Lemma logged_line_not_report (ty : json) (line : string) :
  Server.logged_line ty Server.logged_events = Some line ->
  String.eqb line "Received audio packets from caller:" = false.
Proof.
  unfold Server.logged_events. cbn [Server.logged_line].
  repeat (destruct (eq_str ty _); [intros [= <-]; reflexivity|]).
  discriminate.
Qed.

(** An event that [server.py] only reports is of none of the other
    types. *)
Ltac not_reported :=
  name_types;
  match goal with
  | H : Server.logged_line (JStr _) _ = _ |- _ =>
      vm_compute in H; discriminate H
  end.

Ltac old_flow_leaf :=
  repeat match goal with
  | E : Server.logged_line _ _ = Some ?s |- _ =>
      lazymatch goal with
      | _ : String.eqb s _ = false |- _ => fail
      | _ => pose proof (logged_line_not_report _ _ E)
      end
  end;
  flow_leaf; zfacts; try lia; try not_reported.

(** The same for [server.py]; its AI task leaves the packet counter
    alone and sets its two flags together. *)
Lemma old_openai_flow (a : arrival) (v : Server.vars) :
  let '(v', t, st) := Server.openai_to_twilio a v in
  appended t = []
  /\ commits t = 0
  /\ phone_messages t =
     (if truthy (Server.stream_sid v)
      then map (media_message (Server.stream_sid v))
             (listed (audio_delta old_server (FromAI a)))
      else [])
  /\ Server.audio_count v' = Server.audio_count v
  /\ (Server.interview_completed v = Server.extraction_requested v ->
      Server.interview_completed v' = Server.extraction_requested v')
  /\ packet_reports t = [].
Proof.
  destruct a as [r ans].
  unfold audio_delta, decoded. cbn [fst event_type].
  old_cases2.
  all: old_flow_leaf.
  all: try clash.
Qed.

(** What one frame of the phone side appends, in [server.py], and how it
    moves the packet counter. *)
Lemma old_twilio_flow (a : arrival) (v : Server.vars) :
  let '(v', t, st) := Server.twilio_to_openai a v in
  appended t = listed (media_payload (FromPhone a))
  /\ commits t <= 1
  /\ (1 <= commits t -> st <> Running /\ appended t = [])
  /\ phone_messages t = []
  /\ Server.interview_completed v' = Server.interview_completed v
  /\ (st = Running ->
      Server.audio_count v'
      = (Server.audio_count v
         + Z.of_nat (List.length (listed (media_payload (FromPhone a)))))%Z)
  /\ packet_reports t =
     (if (Server.audio_count v' mod 100 =? 0)%Z
         && negb (Server.audio_count v' =? Server.audio_count v)%Z
      then [Log "Received audio packets from caller:"
              [num (Server.audio_count v')]]
      else [])
  /\ (Server.audio_count v' = Server.audio_count v
      \/ Server.audio_count v' = (Server.audio_count v + 1)%Z).
Proof.
  destruct a as [r ans]. unfold media_payload, path. cbn [fst].
  old_cases2.
  all: old_flow_leaf.
  all: try clash.
Qed.

End FlowFacts.

(* ===================================================================== *)
(** ** Facts about whole runs of the relay *)
(* ===================================================================== *)

Module RunFacts.
Import Py Relay Prompt Both Trace TraceFacts Flow FlowFacts.
Import NewFacts ServerFacts.

Ltac fin :=
  repeat split; intros; auto; try congruence; try lia; try (cbn; lia);
  try discriminate; try contradiction;
  try match goal with
      | H : 1 <= commits [] |- _ => cbn in H; lia
      end;
  try solve [intuition (try congruence; try lia)];
  try (repeat match goal with
              | |- context [if ?b then _ else _] => destruct b
              end; reflexivity).

(** What [finally] does in [server.py] is no audio. *)
Lemma finish_flow (s : Server.session) :
  appended (snd (Server.finish s)) = []
  /\ phone_messages (snd (Server.finish s)) = []
  /\ commits (snd (Server.finish s)) = 0
  /\ packet_reports (snd (Server.finish s)) = [].
Proof.
  unfold Server.finish. destruct (Server.closed s); [now repeat split|].
  destruct (Server.gather _ _) as [[e|u]|]; now repeat split.
Qed.

(** One step of a session of [newServer.py]. *)
Lemma new_step_flow (s : NewServer.session) (i : input) :
  let s1 := fst (NewServer.step s i) in
  let t := snd (NewServer.step s i) in
  appended t
  = (if terminated (NewServer.inbound s) then [] else listed (media_payload i))
  /\ phone_messages t
     = (if terminated (NewServer.outbound s) then []
        else if truthy (NewServer.stream_sid (NewServer.variables s))
        then map (media_message (NewServer.stream_sid (NewServer.variables s)))
               (listed (audio_delta new_server i))
        else [])
  /\ (NewServer.inbound s1 = Running -> NewServer.inbound s = Running)
  /\ (NewServer.outbound s1 = Running -> NewServer.outbound s = Running)
  /\ commits t <= 1
  /\ (1 <= commits t -> NewServer.inbound s1 <> Running /\ appended t = [])
  /\ (NewServer.inbound s <> Running -> commits t = 0)
  /\ (NewServer.outbound s1 = Running ->
      turns s1 = (turns s + one_if (is_user_transcript new_server i))%Z)
  /\ (is_start_frame i = false ->
      NewServer.stream_sid (NewServer.variables s1)
      = NewServer.stream_sid (NewServer.variables s)).
Proof.
  unfold NewServer.step, turns. destruct i as [a|a].
  - pose proof (new_twilio_flow a (NewServer.variables s)) as F.
    pose proof (new_twilio_step a (NewServer.variables s)) as G.
    destruct (NewServer.inbound s) eqn:Ei.
    + destruct (NewServer.twilio_to_openai a (NewServer.variables s))
        as [[v t] st].
      destruct F as (F1 & F2 & F3 & F4).
      destruct G as (_ & G2 & _ & _ & _ & G6).
      cbn [fst snd NewServer.variables NewServer.inbound NewServer.outbound
           terminated is_user_transcript one_if audio_delta listed map].
      rewrite F4, G2.
      fin.
    + cbn [fst snd terminated audio_delta listed map is_user_transcript one_if].
      rewrite Ei.
      fin.
    + cbn [fst snd terminated audio_delta listed map is_user_transcript one_if].
      rewrite Ei.
      fin.
  - pose proof (new_openai_flow a (NewServer.variables s)) as F.
    pose proof (new_openai_step a (NewServer.variables s)) as G.
    assert (Hm : listed (media_payload (FromAI a)) = []) by reflexivity.
    assert (Hs : is_start_frame (FromAI a) = false) by reflexivity.
    destruct (NewServer.outbound s) eqn:Eo.
    + destruct (NewServer.openai_to_twilio a (NewServer.variables s))
        as [[v t] st].
      destruct F as (F1 & F2 & F3 & F4).
      destruct G as (G1 & _).
      cbn [fst snd NewServer.variables NewServer.inbound NewServer.outbound
           terminated].
      rewrite F1, F2, F3, Hm.
      fin.
    + cbn [fst snd terminated]. rewrite Eo, Hm.
      fin.
    + cbn [fst snd terminated]. rewrite Eo, Hm.
      fin.
Qed.

(** One delivery of a message in a session of [server.py]. *)
Lemma old_deliver_flow (s : Server.session) (i : input) :
  let s1 := fst (Server.deliver s i) in
  let t := snd (Server.deliver s i) in
  appended t
  = (if terminated (Server.inbound s) then [] else listed (media_payload i))
  /\ phone_messages t
     = (if terminated (Server.outbound s) then []
        else if truthy (Server.stream_sid (Server.variables s))
        then map (media_message (Server.stream_sid (Server.variables s)))
               (listed (audio_delta old_server i))
        else [])
  /\ (Server.inbound s1 = Running -> Server.inbound s = Running)
  /\ (Server.outbound s1 = Running -> Server.outbound s = Running)
  /\ commits t <= 1
  /\ (1 <= commits t -> Server.inbound s1 <> Running /\ appended t = [])
  /\ (Server.inbound s <> Running -> commits t = 0)
  /\ (is_start_frame i = false ->
      Server.stream_sid (Server.variables s1)
      = Server.stream_sid (Server.variables s))
  /\ (Server.inbound s1 = Running ->
      Server.audio_count (Server.variables s1)
      = (Server.audio_count (Server.variables s)
         + Z.of_nat (List.length (listed (media_payload i))))%Z)
  /\ Z.of_nat (List.length (packet_reports t))
     = (Server.audio_count (Server.variables s1) / 100
        - Server.audio_count (Server.variables s) / 100)%Z
  /\ (Server.interview_completed (Server.variables s)
      = Server.extraction_requested (Server.variables s) ->
      Server.interview_completed (Server.variables s1)
      = Server.extraction_requested (Server.variables s1)).
Proof.
  unfold Server.deliver. destruct i as [a|a].
  - pose proof (old_twilio_flow a (Server.variables s)) as F.
    pose proof (old_twilio_step a (Server.variables s)) as G.
    destruct (Server.inbound s) eqn:Ei.
    + destruct (Server.twilio_to_openai a (Server.variables s))
        as [[v t] st].
      destruct F as (F1 & F2 & F3 & F4 & F5 & F6 & F7 & F8).
      destruct G as (G1 & _ & _ & _ & _ & G6).
      cbn [fst snd Server.variables Server.inbound Server.outbound
           terminated audio_delta listed map].
      rewrite F4, F7.
      assert (Hp : Z.of_nat
                     (List.length
                        (if (Server.audio_count v mod 100 =? 0)%Z
                            && negb (Server.audio_count v
                                     =? Server.audio_count (Server.variables s))%Z
                         then [Log "Received audio packets from caller:"
                                 [num (Server.audio_count v)]]
                         else []))
                   = (Server.audio_count v / 100
                      - Server.audio_count (Server.variables s) / 100)%Z).
      { destruct F8 as [-> | ->].
        - rewrite Z.eqb_refl, andb_false_r. cbn. lia.
        - rewrite hundreds_step.
          replace (Server.audio_count (Server.variables s) + 1
                   =? Server.audio_count (Server.variables s))%Z with false
            by (symmetry; apply Z.eqb_neq; lia).
          rewrite andb_true_r.
          destruct ((Server.audio_count (Server.variables s) + 1) mod 100
                    =? 0)%Z; reflexivity. }
      fin.
    + cbn [fst snd terminated audio_delta listed map].
      rewrite Ei.
      fin.
    + cbn [fst snd terminated audio_delta listed map].
      rewrite Ei.
      fin.
  - pose proof (old_openai_flow a (Server.variables s)) as F.
    pose proof (old_openai_step a (Server.variables s)) as G.
    assert (Hm : listed (media_payload (FromAI a)) = []) by reflexivity.
    assert (Hs : is_start_frame (FromAI a) = false) by reflexivity.
    destruct (Server.outbound s) eqn:Eo.
    + destruct (Server.openai_to_twilio a (Server.variables s))
        as [[v t] st].
      destruct F as (F1 & F2 & F3 & F4 & F5 & F6).
      destruct G as (G1 & _).
      cbn [fst snd Server.variables Server.inbound Server.outbound
           terminated].
      rewrite F1, F2, F3, F4, F6, Hm.
      fin.
    + cbn [fst snd terminated]. rewrite Eo, Hm.
      fin.
    + cbn [fst snd terminated]. rewrite Eo, Hm.
      fin.
Qed.

(** One step of a session of [server.py]: the delivery, then [finally]
    when the session is over. *)
Lemma old_step_flow (s : Server.session) (i : input) :
  let s1 := fst (Server.step s i) in
  let t := snd (Server.step s i) in
  appended t
  = (if terminated (Server.inbound s) then [] else listed (media_payload i))
  /\ phone_messages t
     = (if terminated (Server.outbound s) then []
        else if truthy (Server.stream_sid (Server.variables s))
        then map (media_message (Server.stream_sid (Server.variables s)))
               (listed (audio_delta old_server i))
        else [])
  /\ (Server.inbound s1 = Running -> Server.inbound s = Running)
  /\ (Server.outbound s1 = Running -> Server.outbound s = Running)
  /\ commits t <= 1
  /\ (1 <= commits t -> Server.inbound s1 <> Running /\ appended t = [])
  /\ (Server.inbound s <> Running -> commits t = 0)
  /\ (is_start_frame i = false ->
      Server.stream_sid (Server.variables s1)
      = Server.stream_sid (Server.variables s))
  /\ (Server.inbound s1 = Running ->
      Server.audio_count (Server.variables s1)
      = (Server.audio_count (Server.variables s)
         + Z.of_nat (List.length (listed (media_payload i))))%Z)
  /\ Z.of_nat (List.length (packet_reports t))
     = (Server.audio_count (Server.variables s1) / 100
        - Server.audio_count (Server.variables s) / 100)%Z
  /\ (Server.interview_completed (Server.variables s)
      = Server.extraction_requested (Server.variables s) ->
      Server.interview_completed (Server.variables s1)
      = Server.extraction_requested (Server.variables s1)).
Proof.
  cbv zeta. rewrite old_step_fst, old_step_snd.
  destruct (finish_spec (fst (Server.deliver s i))) as (-> & -> & -> & _).
  destruct (finish_flow (fst (Server.deliver s i))) as (E1 & E2 & E3 & E4).
  rewrite appended_app, phone_messages_app, commits_app, packet_reports_app.
  rewrite E1, E2, E3, E4, !app_nil_r, Nat.add_0_r.
  apply (old_deliver_flow s i).
Qed.

(** The same step, for both files. *)
Lemma step_flow (k : variant) (s : session_of k) (i : input) :
  let s1 := fst (step_of k s i) in
  let t := snd (step_of k s i) in
  appended t
  = (if terminated (inbound_of k s) then [] else listed (media_payload i))
  /\ phone_messages t
     = (if terminated (outbound_of k s) then []
        else if truthy (sid k (variables_of k s))
        then map (media_message (sid k (variables_of k s)))
               (listed (audio_delta k i))
        else [])
  /\ (inbound_of k s1 = Running -> inbound_of k s = Running)
  /\ (outbound_of k s1 = Running -> outbound_of k s = Running)
  /\ commits t <= 1
  /\ (1 <= commits t -> inbound_of k s1 <> Running /\ appended t = [])
  /\ (inbound_of k s <> Running -> commits t = 0)
  /\ (is_start_frame i = false ->
      sid k (variables_of k s1) = sid k (variables_of k s)).
Proof.
  destruct k; cbn [step_of session_of inbound_of outbound_of sid variables_of].
  - destruct (new_step_flow s i) as (H1 & H2 & H3 & H4 & H5 & H6 & H7 & _ & H9).
    repeat split; auto; now apply H6.
  - destruct (old_step_flow s i)
      as (H1 & H2 & H3 & H4 & H5 & H6 & H7 & H8 & _).
    repeat split; auto; now apply H6.
Qed.

Lemma run_cons (k : variant) (s : session_of k) (i : input)
    (ins : list input) :
  run_of k s (i :: ins)
  = (fst (run_of k (fst (step_of k s i)) ins),
     snd (step_of k s i) ++ snd (run_of k (fst (step_of k s i)) ins)).
Proof. apply Generic.iterate_cons. Qed.

(** A task that has ended stays ended. *)
Lemma run_keeps_ended (k : variant) (ins : list input) (s : session_of k) :
  (inbound_of k (fst (run_of k s ins)) = Running -> inbound_of k s = Running)
  /\ (outbound_of k (fst (run_of k s ins)) = Running ->
      outbound_of k s = Running).
Proof.
  revert s. induction ins as [|i ins IH]; intros s; [now split|].
  rewrite run_cons. cbn [fst].
  destruct (IH (fst (step_of k s i))) as [Hi Ho].
  destruct (step_flow k s i) as (_ & _ & H3 & H4 & _).
  split; auto.
Qed.

(** Once the receiver has ended, nothing is appended or committed. *)
Lemma run_dead_inbound (k : variant) (ins : list input) (s : session_of k) :
  inbound_of k s <> Running ->
  appended (snd (run_of k s ins)) = [] /\ commits (snd (run_of k s ins)) = 0.
Proof.
  revert s. induction ins as [|i ins IH]; intros s Hs; [now split|].
  rewrite run_cons. cbn [snd]. rewrite appended_app, commits_app.
  destruct (step_flow k s i) as (H1 & _ & H3 & _ & _ & _ & H7 & _).
  destruct (IH (fst (step_of k s i))) as [E1 E2]; [auto|].
  rewrite H1, E1, E2, (H7 Hs).
  destruct (inbound_of k s); [contradiction|now split|now split].
Qed.

Lemma offered_cons (i : input) (ins : list input) :
  offered (i :: ins) = listed (media_payload i) ++ offered ins.
Proof. reflexivity. Qed.

Lemma deltas_cons (k : variant) (i : input) (ins : list input) :
  deltas k (i :: ins) = listed (audio_delta k i) ++ deltas k ins.
Proof. reflexivity. Qed.

Lemma appended_nil_cons (a : action) (t : list action) :
  appended (a :: t) = [] -> appended t = [].
Proof.
  change (appended (a :: t)) with (appended_by a ++ appended t).
  intros H. now apply app_eq_nil in H.
Qed.

Lemma after_commit_quiet (t : list action) :
  appended t = [] -> appended (after_commit t) = [].
Proof.
  induction t as [|a t IH]; [reflexivity|].
  intros H. apply appended_nil_cons in H. cbn [after_commit].
  destruct (is_commit a); auto.
Qed.

Lemma after_commit_app (t u : list action) :
  after_commit (t ++ u)
  = (if (commits t =? 0)%nat then after_commit u else after_commit t ++ u).
Proof.
  unfold commits. induction t as [|a t IH]; [reflexivity|].
  cbn [app after_commit filter].
  destruct (is_commit a); [reflexivity|apply IH].
Qed.

Lemma no_start_cons (i : input) (ins : list input) :
  no_start_frame (i :: ins) = true ->
  is_start_frame i = false /\ no_start_frame ins = true.
Proof.
  unfold no_start_frame. cbn [forallb]. rewrite andb_true_iff.
  intros [H1 H2]. apply negb_true_iff in H1. now split.
Qed.

Lemma run_dead_outbound (k : variant) (ins : list input) (s : session_of k) :
  outbound_of k s <> Running ->
  phone_messages (snd (run_of k s ins)) = [].
Proof.
  revert s. induction ins as [|i ins IH]; intros s Hs; [reflexivity|].
  rewrite run_cons. cbn [snd]. rewrite phone_messages_app.
  destruct (step_flow k s i) as (_ & H2 & _ & H4 & _).
  rewrite H2, IH by auto.
  destruct (outbound_of k s); [contradiction|reflexivity|reflexivity].
Qed.

End RunFacts.

(* ===================================================================== *)
(** ** Facts about [str.replace] and the configuration *)
(* ===================================================================== *)

Module ConfigFacts.
Import Py Config StringFacts.

(** No character of [q] is [c]. *)
Fixpoint lacks (c : ascii) (q : string) : bool :=
  match q with
  | EmptyString => true
  | String a r => negb (Ascii.eqb a c) && lacks c r
  end.

(** What starts the text after a replacement by a text that starts with
    [c] and holds no [c] started the text before. *)
Lemma prefix_replace_inv (old new' : string) (c : ascii) (s q : string) :
  lacks c q = true ->
  String.prefix q (replace_from 0 old (String c new') s) = true ->
  String.prefix q s = true.
Proof.
  revert q. induction s as [|d r IH]; intros q Hq.
  - cbn [replace_from]. auto.
  - destruct q as [|a q']; [reflexivity|].
    cbn [lacks] in Hq. apply andb_true_iff in Hq. destruct Hq as [Ha Hq].
    apply negb_true_iff, Ascii.eqb_neq in Ha.
    cbn [replace_from].
    destruct (String.prefix old (String d r)).
    + cbn [append String.prefix].
      destruct (ascii_dec a c); [contradiction|discriminate].
    + cbn [String.prefix].
      destruct (ascii_dec a d); [|discriminate]. now apply IH.
Qed.

(** No [https://] is left in a text in which every [https://] was
    replaced by [wss://]. *)
Lemma replace_leaves_none (skip : nat) (s : string) :
  contains "https://" (replace_from skip "https://" "wss://" s) = false.
Proof.
  revert skip. induction s as [|c r IH]; intros skip.
  - reflexivity.
  - cbn [replace_from]. destruct skip as [|n]; [|apply IH].
    destruct (String.prefix "https://" (String c r)) eqn:Ep.
    + cbn [String.length Nat.sub].
      specialize (IH 7).
      set (x := replace_from 7 "https://" "wss://" r) in *.
      cbn [append contains String.prefix].
      repeat match goal with
             | |- context [ascii_dec ?a ?b] =>
                 destruct (ascii_dec a b); [discriminate|]
             end.
      exact IH.
    + cbn [contains]. rewrite IH, orb_false_r.
      destruct (String.prefix "https://"
                  (String c (replace_from 0 "https://" "wss://" r))) eqn:Eq;
        [|reflexivity].
      assert (H : String.prefix "https://"
                    (replace_from 0 "https://" "wss://" (String c r)) = true).
      { cbn [replace_from]. now rewrite Ep. }
      apply (prefix_replace_inv "https://" "ss://" "w") in H;
        [congruence|reflexivity].
Qed.

(** A text without [old] is left as it is. *)
Lemma replace_nothing (old new s : string) :
  contains old s = false -> replace_from 0 old new s = s.
Proof.
  induction s as [|c r IH]; [reflexivity|].
  cbn [contains replace_from]. intros H.
  apply orb_false_iff in H. destruct H as [-> H]. now rewrite IH.
Qed.

End ConfigFacts.

(* ===================================================================== *)
(** ** Facts about the commands sent into the AI session *)
(* ===================================================================== *)

Module CommandFacts.
Import Py Relay Prompt Both Trace TraceFacts Flow FlowFacts.
Import NewFacts ServerFacts.

Lemma ai_commands_app (t u : list action) :
  ai_commands (t ++ u) = ai_commands t ++ ai_commands u.
Proof. apply flat_map_app. Qed.

Lemma logs_ai_commands (t : list action) :
  forallb is_log t = true -> ai_commands t = [].
Proof.
  induction t as [|a t IH]; [reflexivity|].
  cbn [forallb]. rewrite andb_true_iff. intros [Ha Ht].
  cbn [ai_commands flat_map]. fold (ai_commands t). rewrite (IH Ht).
  now destruct a.
Qed.

Ltac new_calm3 :=
  cbn -[Json.loads get getitem eq_str truthy str_lower any_in try_except
        NewServer.parse_extraction NewServer.extraction_handler Z.add Z.ltb
        NewServer.extraction_prompt NewServer.closing_phrases ai_commands].

Ltac new_cases3 :=
  NewFacts.new_open; new_calm3; repeat (NewFacts.new_scrutinee; new_calm3).

Ltac old_calm3 :=
  cbn -[Json.loads get getitem eq_str truthy str_lower any_in
        Server.logged_line Z.add Z.modulo Z.eqb Server.final_extraction
        Server.closing_phrases ai_commands].

Ltac old_cases3 :=
  ServerFacts.old_open; old_calm3; repeat (scrutinee; old_calm3).

Ltac command_leaf :=
  repeat match goal with
  | L : forallb is_log ?t = true |- _ =>
      pose proof (logs_ai_commands t L); clear L
  end;
  rewrite ?app_nil_r, ?ai_commands_app;
  cbn -[NewServer.extraction_prompt Server.final_extraction Z.add Z.modulo
        Z.eqb Z.ltb];
  repeat match goal with H : ai_commands ?t = [] |- _ =>
    change (flat_map ai_command t) with (ai_commands t); rewrite H
  end;
  first [ left; reflexivity
        | right; reflexivity
        | right; left; eexists; reflexivity
        | right; right; reflexivity
        | idtac ].

(** A frame of the phone side makes the receiver send nothing, one append
    command or the commit; a message of the AI session makes the AI task
    send nothing or the extraction request. *)
Lemma new_twilio_commands (a : arrival) (v : NewServer.vars) :
  let '(v', t, st) := NewServer.twilio_to_openai a v in
  ai_commands t = []
  \/ (exists payload, ai_commands t = [append_command payload])
  \/ ai_commands t = [commit_command].
Proof. destruct a as [r ans]. new_cases3. all: command_leaf. Qed.

Lemma new_openai_commands (a : arrival) (v : NewServer.vars) :
  let '(v', t, st) := NewServer.openai_to_twilio a v in
  ai_commands t = [] \/ ai_commands t = [NewServer.extraction_prompt].
Proof. destruct a as [r ans]. new_cases3. all: command_leaf. Qed.

Lemma old_twilio_commands (a : arrival) (v : Server.vars) :
  let '(v', t, st) := Server.twilio_to_openai a v in
  ai_commands t = []
  \/ (exists payload, ai_commands t = [append_command payload])
  \/ ai_commands t = [commit_command].
Proof. destruct a as [r ans]. old_cases3. all: command_leaf. Qed.

Lemma old_openai_commands (a : arrival) (v : Server.vars) :
  let '(v', t, st) := Server.openai_to_twilio a v in
  ai_commands t = [] \/ ai_commands t = [Server.final_extraction].
Proof. destruct a as [r ans]. old_cases3. all: command_leaf. Qed.

Lemma relay_commands_of (k : variant) (l : list json) :
  l = []
  \/ (exists payload, l = [append_command payload])
  \/ l = [commit_command]
  \/ l = [extraction_request_of k] ->
  Forall (relay_command k) l.
Proof.
  unfold relay_command.
  intros [-> | [[p ->] | [-> | ->]]].
  - constructor.
  - constructor; [left; eauto|constructor].
  - constructor; [right; left; reflexivity|constructor].
  - constructor; [right; right; reflexivity|constructor].
Qed.

(** Every command of a step is a command of the relay. *)
Lemma step_commands (k : variant) (s : session_of k) (i : input) :
  Forall (relay_command k) (ai_commands (snd (step_of k s i))).
Proof.
  apply relay_commands_of.
  destruct k; cbn [step_of session_of extraction_request_of] in *.
  - unfold NewServer.step. destruct i as [a|a].
    + destruct (NewServer.inbound s); try (now left).
      pose proof (new_twilio_commands a (NewServer.variables s)) as H.
      destruct (NewServer.twilio_to_openai a (NewServer.variables s))
        as [[v t] st]. cbn [snd]. tauto.
    + destruct (NewServer.outbound s); try (now left).
      pose proof (new_openai_commands a (NewServer.variables s)) as H.
      destruct (NewServer.openai_to_twilio a (NewServer.variables s))
        as [[v t] st]. cbn [snd]. tauto.
  - rewrite old_step_snd, ai_commands_app.
    assert (Hf : ai_commands (snd (Server.finish (fst (Server.deliver s i))))
                 = []).
    { unfold Server.finish. destruct (Server.closed _); [reflexivity|].
      destruct (Server.gather _ _) as [[e|u]|]; reflexivity. }
    rewrite Hf, app_nil_r. unfold Server.deliver. destruct i as [a|a].
    + destruct (Server.inbound s); try (now left).
      pose proof (old_twilio_commands a (Server.variables s)) as H.
      destruct (Server.twilio_to_openai a (Server.variables s))
        as [[v t] st]. cbn [snd]. tauto.
    + destruct (Server.outbound s); try (now left).
      pose proof (old_openai_commands a (Server.variables s)) as H.
      destruct (Server.openai_to_twilio a (Server.variables s))
        as [[v t] st]. cbn [snd]. tauto.
Qed.

End CommandFacts.

(* ===================================================================== *)
(** ** More calls, evaluated *)
(* ===================================================================== *)

Module MoreRuns.
Import Py Relay Prompt Both Trace Examples Config Flow Examples2.

(** A [start] frame with an empty [streamSid]: the id is set to the empty
    text, and the audio delta that follows is still dropped. *)
Example empty_sid_keeps_the_relay_mute :
  NewServer.run NewServer.initial
    [FromPhone (ok empty_sid_frame); FromAI (ok delta_event)]
  = ({| NewServer.variables :=
          {| NewServer.stream_sid := JStr "";
             NewServer.extraction_done := false;
             NewServer.conversation_turns := 0 |};
        NewServer.inbound := Running;
        NewServer.outbound := Running |},
     [Log "Stream started:" [JStr ""]]).
Proof. vm_compute. reflexivity. Qed.

(** A chunk of the extraction text without [delta] ends the AI task of
    [server.py]; [newServer.py] has no branch for the chunks. *)
Example chunk_without_delta :
  Server.openai_to_twilio (ok chunk_event) Server.initial_vars
  = (Server.initial_vars,
     [LogExn "Error receiving from OpenAI:" KeyError], Returned)
  /\ NewServer.openai_to_twilio (ok chunk_event) NewServer.initial_vars
     = (NewServer.initial_vars, [], Running).
Proof. split; vm_compute; reflexivity. Qed.

(** The [response.text.done] event: printed by [newServer.py] after the
    request, never decoded; [server.py] has no branch for it. *)
Example text_done_is_only_printed :
  NewServer.openai_to_twilio (ok text_done_event) after_request
  = (after_request, [Log "TEXT EXTRACTION:" [JStr "{}"]], Running)
  /\ NewServer.openai_to_twilio (ok text_done_event) NewServer.initial_vars
     = (NewServer.initial_vars, [], Running)
  /\ Server.openai_to_twilio (ok text_done_event) Server.initial_vars
     = (Server.initial_vars, [], Running).
Proof. repeat split; vm_compute; reflexivity. Qed.

(** [str.replace] on an endpoint, and the connection built without any
    setting but the key. *)
Example replace_runs :
  replace "https://" "wss://" "https://a.azure.com/x?u=https://b"
  = "wss://a.azure.com/x?u=wss://b"
  /\ replace "https://" "wss://" "http://a.azure.com" = "http://a.azure.com"
  /\ NewConfig.build_openai_connection direct_env
     = ("wss://api.openai.com/v1/realtime?model=gpt-4o-realtime-preview",
        [("Authorization", JStr "Bearer sk-key");
         ("OpenAI-Beta", JStr "realtime=v1")]).
Proof. repeat split; vm_compute; reflexivity. Qed.

(** The script of [main.py] on a number typed without [+], the service
    accepting the call. *)
Example main_runs :
  MainPy.main twilio_env "4915112345678" (inr ("CA1", "queued"))
  = MainPy.banner
    ++ [MainPy.Input MainPy.prompt;
        MainPy.Print "Phone number should start with + and country code" [];
        MainPy.NewClient (JStr "AC1") (JStr "secret");
        MainPy.Print "HR AI Assistant is calling" ["+4915112345678"];
        MainPy.Print "Please wait..." [];
        MainPy.CallsCreate "+4915112345678" (JStr "+15550001111")
          "https://hr.example.com/voice" "https://hr.example.com/call-status"
          ["completed"];
        MainPy.Print "Call initiated successfully!" [];
        MainPy.Print "Call SID:" ["CA1"];
        MainPy.Print "Status:" ["queued"];
        MainPy.Print "The AI HR Assistant will now talk to the candidate." [];
        MainPy.Print "Call will end when the candidate hangs up." []].
Proof. vm_compute. reflexivity. Qed.

(** [str.lower] on the two characters outside ASCII whose lower case
    holds an ASCII letter, and the search for a surrogate. *)
Example lower_runs :
  lower kelvin_text = "thank you for your time"
  /\ lower (Json.utf8 304 ++ "STANBUL") = (dotted_i ++ "stanbul")%string
  /\ lower "RÃSUMÃ" = "rÃsumÃ"
  /\ has_surrogate surrogate = true
  /\ has_surrogate kelvin_text = false.
Proof. repeat split; vm_compute; reflexivity. Qed.

(** The closing line with the Kelvin sign starts the extraction in both
    files. *)
Example kelvin_sign_closes :
  count_extraction
    (trace_of (NewServer.openai_to_twilio (ok kelvin_event)
                 NewServer.initial_vars)) = 1
  /\ count_extraction
       (trace_of (Server.openai_to_twilio (ok kelvin_event)
                    Server.initial_vars)) = 1.
Proof. split; vm_compute; reflexivity. Qed.

(** A user transcript with a surrogate: [newServer.py] has written the
    words of the line when [print] raises, and the transcript is not
    counted; [server.py] reports the exception. *)
Example surrogate_user_transcript :
  NewServer.openai_to_twilio (ok surrogate_user_event) NewServer.initial_vars
  = (NewServer.initial_vars, [LogCut "User:"], Raised UnicodeEncodeError)
  /\ Server.openai_to_twilio (ok surrogate_user_event) Server.initial_vars
     = (Server.initial_vars,
        [LogExn "Error receiving from OpenAI:" UnicodeEncodeError], Returned).
Proof. split; vm_compute; reflexivity. Qed.

(** An error whose object is a string with a surrogate, in [server.py],
    and an extraction text with one, in both files. *)
Example surrogate_error_and_text :
  Server.openai_to_twilio (ok surrogate_error_event) Server.initial_vars
  = (Server.initial_vars,
     [LogExn "Error receiving from OpenAI:" UnicodeEncodeError], Returned)
  /\ Server.openai_to_twilio (ok surrogate_text_event) Server.initial_vars
     = (Server.initial_vars,
        [LogCut "FINAL CANDIDATE DATA:";
         LogExn "Error receiving from OpenAI:" UnicodeEncodeError], Returned)
  /\ NewServer.openai_to_twilio (ok surrogate_text_event) after_request
     = (after_request, [LogCut "EXTRACTION RESPONSE:"],
        Raised UnicodeEncodeError).
Proof. repeat split; vm_compute; reflexivity. Qed.

(** An extraction text that can be printed and whose second field
    cannot: the first field is shown, then the error is reported. *)
Example escaped_field_run :
  has_surrogate escaped_field_text = false
  /\ NewServer.openai_to_twilio (ok escaped_field_event) after_request
     = (after_request,
        [Log "EXTRACTION RESPONSE:" [JStr escaped_field_text];
         Log NewServer.rule []; Log "EXTRACTED CANDIDATE DATA:" [];
         Log NewServer.rule [];
         LogField "full_name" (JStr "Jane");
         LogExn "Error processing extraction:" UnicodeEncodeError],
        Running).
Proof. split; vm_compute; reflexivity. Qed.

End MoreRuns.

(* ===================================================================== *)
(** ** The properties of the relay *)
(* ===================================================================== *)

Import Py Relay Prompt Both Trace Examples Examples2.
Import TraceFacts NewFacts ServerFacts Events.


(** C1.  In a whole call of [media_stream], of either file, whatever the
    opening and whatever messages the two tasks receive afterwards, and
    whatever the environment answers to each send, at most one extraction
    request (a [response.create] with the seven-field strict-JSON
    instructions) is sent into the AI session. *)
Theorem C1_at_most_one_extraction_request (k : variant)
    (key : option string) (connect a1 a2 : option exn) (ins : list input) :
  count_extraction (media_stream_of k key connect a1 a2 ins) <= 1.
Proof.
  pose proof (opening_requests_nothing k key connect a1 a2 ins) as Ho.
  pose proof (run_at_most_once k (initial_of k) ins) as Hr.
  lia.
Qed.

(** C9.  When the handling of an AI message sends the extraction request
    and that send raises [e], the state left behind already has the guard
    flag set, the loop of the AI task has ended, and no message that
    follows can make the session send a request again: the flag is set
    before the send is awaited. *)
Theorem C9_flag_is_set_before_the_send (k : variant) (s : session_of k)
    (r : received) (e : exn) (ins : list input) :
  1 <= count_extraction (snd (step_of k s (FromAI (r, Some e)))) ->
  flag k (fst (step_of k s (FromAI (r, Some e)))) = true
  /\ outbound_of k (fst (step_of k s (FromAI (r, Some e)))) <> Running
  /\ count_extraction
       (snd (run_of k (fst (step_of k s (FromAI (r, Some e)))) ins)) = 0.
Proof.
  intros Hc.
  pose proof (step_sets_flag k s _ Hc) as Hf.
  split; [assumption|]. split.
  - now apply failed_request_ends_task.
  - now apply run_quiet_after_set.
Qed.

(** The closing line arrives, the send of the request fails, and a second
    closing line and sixteen user transcripts follow: in both files. *)
Lemma C9_witness :
  (1 <= count_extraction
          (snd (step_of new_server (initial_of new_server)
                  (FromAI (Text closing_event, Some ConnectionClosed))))
   /\ flag new_server
        (fst (step_of new_server (initial_of new_server)
                (FromAI (Text closing_event, Some ConnectionClosed)))) = true
   /\ outbound_of new_server
        (fst (step_of new_server (initial_of new_server)
                (FromAI (Text closing_event, Some ConnectionClosed))))
      <> Running
   /\ count_extraction
        (snd (run_of new_server
                (fst (step_of new_server (initial_of new_server)
                        (FromAI (Text closing_event, Some ConnectionClosed))))
                (FromAI (ok closing_event) :: sixteen_user_turns))) = 0)
  /\ (1 <= count_extraction
             (snd (step_of old_server (initial_of old_server)
                     (FromAI (Text closing_event, Some ConnectionClosed))))
      /\ flag old_server
           (fst (step_of old_server (initial_of old_server)
                   (FromAI (Text closing_event, Some ConnectionClosed)))) = true
      /\ outbound_of old_server
           (fst (step_of old_server (initial_of old_server)
                   (FromAI (Text closing_event, Some ConnectionClosed))))
         <> Running
      /\ count_extraction
           (snd (run_of old_server
                   (fst (step_of old_server (initial_of old_server)
                           (FromAI (Text closing_event, Some ConnectionClosed))))
                   (FromAI (ok closing_event) :: sixteen_user_turns))) = 0).
Proof.
  split.
  - split; [vm_compute; lia|].
    apply (C9_flag_is_set_before_the_send new_server). vm_compute. lia.
  - split; [vm_compute; lia|].
    apply (C9_flag_is_set_before_the_send old_server). vm_compute. lia.
Defined.

(** C10.  A [media] frame is forwarded into the input audio buffer of the
    AI session in every state of the variables [v], so also while the
    correlation id is unset: the command sent carries the payload of the
    frame and nothing of the id.  In a state [v0] where the id is unset
    it is the other direction that is gated: no message of the AI session
    makes the handler send anything to the phone. *)
Theorem C10_inbound_media_is_never_gated (k : variant) (v v0 : vars_of k)
    (m : string) (msg media payload : json) (answer : option exn)
    (a : arrival) :
  Json.loads m = inr msg ->
  getitem msg "event" = inr (JStr "media") ->
  getitem msg "media" = inr media ->
  getitem media "payload" = inr payload ->
  sid k v0 = JNull ->
  (exists logs,
     trace_of (twilio_task k (Text m, answer) v)
     = AISend (append_command payload) :: logs
     /\ forallb is_log logs = true)
  /\ sid k (vars_after (twilio_task k (Text m, answer) v)) = sid k v
  /\ no_phone_send (trace_of (openai_task k a v0)) = true.
Proof.
  intros Hl He Hm Hp H0.
  destruct (media_forwarded k v m msg media payload answer Hl He Hm Hp)
    as (Hs & logs & Ht & Hlogs & _).
  split; [exists logs; split; assumption|]. split; [assumption|].
  apply unset_drops_everything. now rewrite H0.
Qed.

(** A [media] frame and an audio delta, both before any [start] frame. *)
Lemma C10_witness :
  (exists logs,
     trace_of (twilio_task new_server (Text media_frame, None)
                 (initial_vars_of new_server))
     = AISend (append_command (JStr "fn5+fn5+")) :: logs
     /\ forallb is_log logs = true)
  /\ sid new_server
       (vars_after (twilio_task new_server (Text media_frame, None)
                      (initial_vars_of new_server)))
     = sid new_server (initial_vars_of new_server)
  /\ no_phone_send
       (trace_of (openai_task new_server (ok delta_event)
                    (initial_vars_of new_server))) = true.
Proof.
  apply (C10_inbound_media_is_never_gated new_server
           (initial_vars_of new_server) (initial_vars_of new_server)
           media_frame
           (JObj [("event", JStr "media");
                  ("media", JObj [("track", JStr "inbound");
                                  ("payload", JStr "fn5+fn5+")])])
           (JObj [("track", JStr "inbound"); ("payload", JStr "fn5+fn5+")])
           (JStr "fn5+fn5+") None (ok delta_event)).
  all: vm_compute; reflexivity.
Defined.






(** C4, as the code has it.  A frame that lacks an expected field
    ([event], [start.streamSid] of a [start], [media.payload] of a
    [media]) ends the receive loop: in [server.py] the exception is
    printed and the loop is left, in [newServer.py] the exception leaves
    the task, nothing printed; no variable changes and nothing is sent.
    A [stop] frame ends the loop as well, and so does the disconnect of
    the phone side, which both files report. *)
Theorem C4_malformed_frame_ends_the_receiver (v : NewServer.vars)
    (w : Server.vars) (m m' : string) (msg msg' : json) (e : exn)
    (answer : option exn) :
  Json.loads m = inr msg ->
  missing_field msg = Some e ->
  Json.loads m' = inr msg' ->
  getitem msg' "event" = inr (JStr "stop") ->
  NewServer.twilio_to_openai (Text m, answer) v = (v, [], Raised e)
  /\ Server.twilio_to_openai (Text m, answer) w
     = (w, [LogExn "Error receiving from Twilio:" e], Returned)
  /\ status_of (NewServer.twilio_to_openai (Text m', answer) v) <> Running
  /\ status_of (Server.twilio_to_openai (Text m', answer) w) <> Running
  /\ NewServer.twilio_to_openai (Fails WebSocketDisconnect, answer) v
     = (v, [Log "Twilio disconnected" []], Returned)
  /\ Server.twilio_to_openai (Fails WebSocketDisconnect, answer) w
     = (w, [Log "Twilio disconnected" []], Returned).
Proof.
  intros Hl Hm Hl' Hs.
  split; [now apply new_malformed_frame with (msg := msg)|].
  split; [now apply old_malformed_frame with (msg := msg)|].
  split; [apply (stop_ends_the_loop new_server v m' msg' answer Hl' Hs)|].
  split; [apply (stop_ends_the_loop old_server w m' msg' answer Hl' Hs)|].
  split.
  - apply (disconnect_ends_the_loop new_server v answer).
  - apply (disconnect_ends_the_loop old_server w answer).
Qed.

(** A [media] frame without payload, and a [stop] frame. *)
Lemma C4_witness :
  NewServer.twilio_to_openai (Text no_payload_frame, None) NewServer.initial_vars
  = (NewServer.initial_vars, [], Raised KeyError)
  /\ Server.twilio_to_openai (Text no_payload_frame, None) Server.initial_vars
     = (Server.initial_vars,
        [LogExn "Error receiving from Twilio:" KeyError], Returned)
  /\ status_of (NewServer.twilio_to_openai (Text stop_frame, None)
                  NewServer.initial_vars) <> Running
  /\ status_of (Server.twilio_to_openai (Text stop_frame, None)
                  Server.initial_vars) <> Running
  /\ NewServer.twilio_to_openai (Fails WebSocketDisconnect, None)
       NewServer.initial_vars
     = (NewServer.initial_vars, [Log "Twilio disconnected" []], Returned)
  /\ Server.twilio_to_openai (Fails WebSocketDisconnect, None)
       Server.initial_vars
     = (Server.initial_vars, [Log "Twilio disconnected" []], Returned).
Proof.
  apply (C4_malformed_frame_ends_the_receiver NewServer.initial_vars
           Server.initial_vars no_payload_frame stop_frame
           (JObj [("event", JStr "media"); ("media", JObj [])])
           (JObj [("event", JStr "stop")]) KeyError None).
  all: vm_compute; reflexivity.
Defined.

(** The claim as written fails in both files: after a frame without
    [event] the receiver is no longer in its loop, and the [media] frame
    that follows is not forwarded. *)
Lemma C4_counterexample :
  Json.loads no_event_frame
  = inr (JObj [("media", JObj [("payload", JStr "fn5+")])])
  /\ Server.run Server.initial
       [FromPhone (ok no_event_frame); FromPhone (ok media_frame)]
     = ({| Server.variables := Server.initial_vars;
           Server.inbound := Returned;
           Server.outbound := Running;
           Server.closed := false |},
        [LogExn "Error receiving from Twilio:" KeyError])
  /\ NewServer.run NewServer.initial
       [FromPhone (ok no_event_frame); FromPhone (ok media_frame)]
     = ({| NewServer.variables := NewServer.initial_vars;
           NewServer.inbound := Raised KeyError;
           NewServer.outbound := Running |},
        []).
Proof. repeat split; vm_compute; reflexivity. Qed.










(** C8, as the code has it.  Neither file cancels a task or closes a
    connection because the other task has ended: a step of one task
    leaves the status of the other as it is.  In [server.py] the tasks
    never end with an exception, and the AI connection is closed by
    [finally] once, at the moment when both tasks have ended and not
    before.  In [newServer.py] the handler never closes the AI
    connection. *)
Theorem C8_session_end (ins ins' : list input) (s : Server.session)
    (s' : NewServer.session) (a : arrival) :
  settled (fst (Server.run Server.initial ins))
  /\ count_ai_close (snd (Server.run Server.initial ins))
     = (if both_ended (fst (Server.run Server.initial ins)) then 1 else 0)
  /\ Server.outbound (fst (Server.step s (FromPhone a))) = Server.outbound s
  /\ Server.inbound (fst (Server.step s (FromAI a))) = Server.inbound s
  /\ NewServer.outbound (fst (NewServer.step s' (FromPhone a)))
     = NewServer.outbound s'
  /\ NewServer.inbound (fst (NewServer.step s' (FromAI a)))
     = NewServer.inbound s'
  /\ no_ai_close (snd (NewServer.run NewServer.initial ins')) = true.
Proof.
  assert (H0 : settled Server.initial) by (repeat split; auto).
  destruct (old_run_settled ins Server.initial H0) as (Hs & Hc & _).
  split; [assumption|]. split; [rewrite Hc; cbn; lia|].
  destruct (old_step_other_task s a) as [H1 H2].
  destruct (new_step_other_task s' a) as [H3 H4].
  repeat (split; [assumption|]).
  unfold NewServer.run, no_ai_close.
  refine (proj2 (Generic.invariant_run NewServer.step (fun _ => True)
                   (fun _ => true) _ _ _ ins' NewServer.initial I _)).
  - auto.
  - intros s1 i _ _. apply new_step_no_ai_close.
  - apply forallb_forall. auto.
Qed.

(** The claim as written fails in both files: the phone side hangs up,
    the receiver ends, and the AI task is still in its loop, with the AI
    connection open; it handles the next message of the AI session as
    before. *)
Lemma C8_counterexample :
  Server.run Server.initial [hangup; FromAI (ok user_event)]
  = ({| Server.variables := Server.initial_vars;
        Server.inbound := Returned;
        Server.outbound := Running;
        Server.closed := false |},
     [Log "Twilio disconnected" []; Log "User said:" [JStr "Yes, I am."]])
  /\ NewServer.run NewServer.initial [hangup; FromAI (ok user_event)]
     = ({| NewServer.variables :=
             {| NewServer.stream_sid := JNull;
                NewServer.extraction_done := false;
                NewServer.conversation_turns := 1 |};
           NewServer.inbound := Returned;
           NewServer.outbound := Running |},
        [Log "Twilio disconnected" []; Log "User:" [JStr "Yes, I am."]])
  /\ Server.gather Returned Running = None
  /\ NewServer.gather Returned Running = None.
Proof. repeat split; vm_compute; reflexivity. Qed.

(** C6, evaluated.  With a key and a connection, both files send two
    commands at the start, the session configuration and then the
    greeting; the configuration declares the codec, the voice, the
    transcription model and the voice-activity detection (0.5, 300 ms,
    700 ms).  The greeting of [newServer.py] is the line that the system
    prompt mandates; the greeting of [server.py] is not: it names AIRA
    where the prompt of the same file says SAVIRA. *)
Theorem C6_opening_commands :
  filter is_ai_send (fst (NewServer.open_session (Some "sk-key") None None None))
  = [AISend NewServer.session_config; AISend NewServer.greeting_message]
  /\ filter is_ai_send (fst (Server.open_session (Some "sk-key") None None None))
     = [AISend Server.session_config; AISend Server.greeting_message]
  /\ path NewServer.session_config "session" "turn_detection"
     = inr (JObj [("type", JStr "server_vad"); ("threshold", half);
                  ("prefix_padding_ms", num 300);
                  ("silence_duration_ms", num 700)])
  /\ path Server.session_config "session" "turn_detection"
     = path NewServer.session_config "session" "turn_detection"
  /\ path NewServer.session_config "session" "voice" = inr (JStr "alloy")
  /\ path NewServer.session_config "session" "input_audio_format"
     = inr (JStr "g711_ulaw")
  /\ path NewServer.session_config "session" "input_audio_transcription"
     = inr (JObj [("model", JStr "whisper-1")])
  /\ mandated_greeting SYSTEM_INSTRUCTIONS
     = instructions_of NewServer.greeting_message
  /\ mandated_greeting SYSTEM_INSTRUCTIONS
     <> instructions_of Server.greeting_message
  /\ instructions_of Server.greeting_message
     = Some "Hello, I am AIRA from Kainskep Solutions. Are you currently looking for a job or considering a job change?".
Proof.
  repeat split; try (vm_compute; reflexivity).
  vm_compute. discriminate.
Qed.

(* ===================================================================== *)
(** ** Further properties of the two servers *)
(* ===================================================================== *)

Import Config Connection Flow Examples2.
Import FlowFacts RunFacts.

(** Every hypothesis that names the result of one reading is used, and
    the tests of a type against literal names are decided. *)
Ltac drive :=
  repeat (progress (
    cbn -[Json.loads get getitem truthy str_lower any_in try_except
          encodable
          NewServer.parse_extraction NewServer.extraction_handler
          Z.add Z.ltb Z.modulo Z.eqb
          NewServer.extraction_prompt Server.final_extraction
          NewServer.closing_phrases Server.closing_phrases];
    repeat match goal with
    | H : Json.loads ?m = _ |- context [Json.loads ?m] => rewrite H
    | H : get ?j ?k ?d = _ |- context [get ?j ?k ?d] => rewrite H
    | H : getitem ?j ?k = _ |- context [getitem ?j ?k] => rewrite H
    | H : truthy ?x = _ |- context [truthy ?x] => rewrite H
    | H : str_lower ?x = _ |- context [str_lower ?x] => rewrite H
    | H : encodable ?x = _ |- context [encodable ?x] => rewrite H
    | H : any_in ?l ?x = _ |- context [any_in ?l ?x] => rewrite H
    | H : NewServer.extraction_done ?v = _
      |- context [NewServer.extraction_done ?v] => rewrite H
    | H : Server.extraction_requested ?v = _
      |- context [Server.extraction_requested ?v] => rewrite H
    end)).

Ltac open_tasks :=
  cbn [openai_task twilio_task event_type sid requested vars_of
       closing_phrases_of extraction_request_of closing_line_of
       transcript_line_of vars_after trace_of status_of] in *;
  unfold NewServer.openai_to_twilio, NewServer.openai_to_twilio_body,
         NewServer.dispatch, NewServer.twilio_to_openai,
         NewServer.twilio_to_openai_body, NewServer.route,
         NewServer.incr_conversation_turns, NewServer.set_extraction_done,
         NewServer.set_stream_sid,
         Server.openai_to_twilio, Server.openai_to_twilio_body,
         Server.openai_to_twilio_try, Server.openai_to_twilio_except,
         Server.dispatch, Server.twilio_to_openai,
         Server.twilio_to_openai_body, Server.twilio_to_openai_try,
         Server.twilio_to_openai_except, Server.route,
         Server.incr_audio_count, Server.set_extraction_requested,
         Server.set_interview_completed, Server.set_stream_sid;
  unfold print, print_f;
  unfold bind, eval, read, write, await_receive, await_send, act, ret, raise.

Ltac old_try := unfold try_except.

(** X11.  The events that only tell how the session goes ([session.created],
    [session.updated], the three of the input audio buffer,
    [response.created] and [response.audio.done]) change no variable, send
    nothing and leave the loop running, in both files; [server.py] prints
    one line for each, [newServer.py] has no branch for them and prints
    nothing. *)
Theorem X11_lifecycle_events_are_only_reported (v : NewServer.vars)
    (w : Server.vars) (m : string) (event : json) (ty line : string)
    (answer : option exn) :
  Json.loads m = inr event ->
  getitem event "type" = inr (JStr ty) ->
  In (ty, line) reports ->
  NewServer.openai_to_twilio (Text m, answer) v = (v, [], Running)
  /\ Server.openai_to_twilio (Text m, answer) w = (w, [Log line []], Running).
Proof.
  intros Hl Ht Hin.
  assert (Hg : get event "type" JNull = inr (JStr ty)).
  { destruct event; try discriminate. cbn [getitem get] in *.
    destruct (dict_get fields "type"); congruence. }
  unfold reports, Server.logged_events in Hin. cbn [app In] in Hin.
  repeat (destruct Hin as [Hin|Hin];
          [injection Hin as <- <-; split; open_tasks; [|old_try]; drive;
           reflexivity|]).
  contradiction.
Qed.

Lemma X11_witness :
  NewServer.openai_to_twilio (Text session_updated_event, None)
    NewServer.initial_vars
  = (NewServer.initial_vars, [], Running)
  /\ Server.openai_to_twilio (Text session_updated_event, None)
       Server.initial_vars
     = (Server.initial_vars, [Log "OpenAI session updated" []], Running).
Proof.
  apply (X11_lifecycle_events_are_only_reported NewServer.initial_vars
           Server.initial_vars session_updated_event
           (JObj [("type", JStr "session.updated")])
           "session.updated" "OpenAI session updated" None).
  - vm_compute. reflexivity.
  - vm_compute. reflexivity.
  - cbn. auto.
Defined.

Lemma get_of_getitem (j : json) (k : string) (d x : json) :
  getitem j k = inr x -> get j k d = inr x.
Proof.
  destruct j; try discriminate. cbn [getitem get].
  destruct (dict_get fields k); congruence.
Qed.



(** The same as [drive], the tests of a type that is not known kept as
    they are and rewritten with what is known of them. *)
Ltac drive_types :=
  repeat (progress (
    cbn -[Json.loads get getitem truthy str_lower any_in try_except eq_str
          encodable
          NewServer.parse_extraction NewServer.extraction_handler
          Z.add Z.ltb Z.modulo Z.eqb
          NewServer.extraction_prompt Server.final_extraction
          NewServer.closing_phrases Server.closing_phrases];
    repeat match goal with
    | H : Json.loads ?m = _ |- context [Json.loads ?m] => rewrite H
    | H : get ?j ?k ?d = _ |- context [get ?j ?k ?d] => rewrite H
    | H : getitem ?j ?k = _ |- context [getitem ?j ?k] => rewrite H
    | H : eq_str ?j ?a = _ |- context [eq_str ?j ?a] => rewrite H
    end)).

(** X13.  An event whose type is none of those that the file has a branch
    for is ignored: no variable changes, nothing is sent or printed, and
    the loop goes on.  (In [newServer.py] the type may be anything, a
    missing one included; in [server.py] it is the value of
    [response['type']].) *)
Theorem X13_unknown_events_are_ignored (k : variant) (v : vars_of k)
    (m : string) (event ty : json) (answer : option exn) :
  Json.loads m = inr event ->
  event_type k event = inr ty ->
  none_of ty (handled_types k) = true ->
  openai_task k (Text m, answer) v = (v, [], Running).
Proof.
  intros Hl Ht Hn. unfold none_of, handled_types, reports in Hn.
  destruct k; cbn [forallb map fst app Server.logged_events] in Hn; bools;
    open_tasks; [|old_try]; drive_types; reflexivity.
Qed.

Lemma X13_witness :
  openai_task new_server (Text unknown_event, None) NewServer.initial_vars
  = (NewServer.initial_vars, [], Running).
Proof.
  apply (X13_unknown_events_are_ignored new_server NewServer.initial_vars
           unknown_event (JObj [("type", JStr "rate_limits.updated")])
           (JStr "rate_limits.updated") None).
  all: vm_compute; reflexivity.
Defined.

(** X14.  A frame of the phone side whose [event] is not [start], [media]
    or [stop] (Twilio also sends [connected], [mark] and [dtmf]) is
    skipped in both files: no variable changes, nothing is sent or
    printed, and the receiver goes on. *)
Theorem X14_other_frames_are_skipped (k : variant) (v : vars_of k)
    (m : string) (msg event : json) (answer : option exn) :
  Json.loads m = inr msg ->
  getitem msg "event" = inr event ->
  none_of event ["start"; "media"; "stop"] = true ->
  twilio_task k (Text m, answer) v = (v, [], Running).
Proof.
  intros Hl He Hn. unfold none_of in Hn. cbn [forallb] in Hn. bools.
  destruct k; open_tasks; [|old_try]; drive_types; reflexivity.
Qed.

Lemma X14_witness :
  twilio_task old_server (Text mark_frame, None) Server.initial_vars
  = (Server.initial_vars, [], Running).
Proof.
  apply (X14_other_frames_are_skipped old_server Server.initial_vars
           mark_frame
           (JObj [("event", JStr "mark"); ("mark", JObj [("name", JStr "m1")])])
           (JStr "mark") None).
  all: vm_compute; reflexivity.
Defined.

(** X15.  An event from which [server.py] cannot read [response['type']]
    (a dict without [type], or a JSON value that is no dict) ends its AI
    task: the exception is printed and the loop is left.  [newServer.py]
    reads the type with [event.get("type")]: a dict without [type] is
    ignored and the loop goes on, a value that is no dict ends the task
    with [AttributeError]. *)
Theorem X15_event_without_type (v : NewServer.vars) (w : Server.vars)
    (m : string) (event : json) (e : exn) (answer : option exn) :
  Json.loads m = inr event ->
  getitem event "type" = inl e ->
  Server.openai_to_twilio (Text m, answer) w
  = (w, [LogExn "Error receiving from OpenAI:" e], Returned)
  /\ NewServer.openai_to_twilio (Text m, answer) v
     = (v, [],
        match event with
        | JObj _ => Running
        | _ => Raised AttributeError
        end).
Proof.
  intros Hl Ht. split.
  - open_tasks. old_try. drive.
    destruct event; cbn [getitem] in Ht;
      try (destruct (dict_get fields "type")); injection Ht as <- || discriminate;
      reflexivity.
  - assert (Hg : get event "type" JNull
                 = match event with
                   | JObj _ => inr JNull
                   | _ => inl AttributeError
                   end).
    { destruct event; try reflexivity. cbn [getitem get] in *.
      destruct (dict_get fields "type"); [discriminate|reflexivity]. }
    destruct event; open_tasks; drive; reflexivity.
Qed.

Lemma X15_witness :
  Server.openai_to_twilio (Text typeless_event, None) Server.initial_vars
  = (Server.initial_vars,
     [LogExn "Error receiving from OpenAI:" KeyError], Returned)
  /\ NewServer.openai_to_twilio (Text typeless_event, None)
       NewServer.initial_vars
     = (NewServer.initial_vars, [],
        match JObj [("delta", JStr "/v7+")] with
        | JObj _ => Running
        | _ => Raised AttributeError
        end).
Proof.
  apply (X15_event_without_type NewServer.initial_vars Server.initial_vars
           typeless_event (JObj [("delta", JStr "/v7+")]) KeyError None).
  all: vm_compute; reflexivity.
Defined.

(** X16.  A text that is not JSON ends the task that received it, in both
    directions: in [newServer.py] the [JSONDecodeError] leaves the task,
    nothing printed; in [server.py] it is printed and the loop is left.
    No variable changes and nothing is sent. *)
Theorem X16_text_that_is_not_json (v : NewServer.vars) (w : Server.vars)
    (m : string) (e : exn) (answer : option exn) :
  Json.loads m = inl e ->
  e = JSONDecodeError
  /\ NewServer.twilio_to_openai (Text m, answer) v = (v, [], Raised e)
  /\ NewServer.openai_to_twilio (Text m, answer) v = (v, [], Raised e)
  /\ Server.twilio_to_openai (Text m, answer) w
     = (w, [LogExn "Error receiving from Twilio:" e], Returned)
  /\ Server.openai_to_twilio (Text m, answer) w
     = (w, [LogExn "Error receiving from OpenAI:" e], Returned).
Proof.
  intros Hl. pose proof (loads_error _ _ Hl) as ->.
  split; [reflexivity|].
  repeat split; open_tasks; try old_try; drive; reflexivity.
Qed.

Lemma X16_witness :
  JSONDecodeError = JSONDecodeError
  /\ NewServer.twilio_to_openai (Text not_json, None) NewServer.initial_vars
     = (NewServer.initial_vars, [], Raised JSONDecodeError)
  /\ NewServer.openai_to_twilio (Text not_json, None) NewServer.initial_vars
     = (NewServer.initial_vars, [], Raised JSONDecodeError)
  /\ Server.twilio_to_openai (Text not_json, None) Server.initial_vars
     = (Server.initial_vars,
        [LogExn "Error receiving from Twilio:" JSONDecodeError], Returned)
  /\ Server.openai_to_twilio (Text not_json, None) Server.initial_vars
     = (Server.initial_vars,
        [LogExn "Error receiving from OpenAI:" JSONDecodeError], Returned).
Proof.
  apply (X16_text_that_is_not_json NewServer.initial_vars Server.initial_vars
           not_json JSONDecodeError None).
  vm_compute. reflexivity.
Defined.

(** X17.  A receive that raises ends the task that awaited it.  In
    [server.py] the exception is caught and named in one printed line
    (the closing of the AI connection and the disconnect of the phone
    have lines of their own) and the task returns; in [newServer.py] only
    the disconnect of the phone is caught, every other exception leaves
    the task.  No variable changes and nothing is sent. *)
Theorem X17_failed_receive_ends_the_task (v : NewServer.vars)
    (w : Server.vars) (e : exn) (answer : option exn) :
  Server.openai_to_twilio (Fails e, answer) w
  = (w,
     [match e with
      | ConnectionClosed => Log "OpenAI connection closed" []
      | _ => LogExn "Error receiving from OpenAI:" e
      end], Returned)
  /\ Server.twilio_to_openai (Fails e, answer) w
     = (w,
        [match e with
         | WebSocketDisconnect => Log "Twilio disconnected" []
         | _ => LogExn "Error receiving from Twilio:" e
         end], Returned)
  /\ NewServer.openai_to_twilio (Fails e, answer) v = (v, [], Raised e)
  /\ NewServer.twilio_to_openai (Fails e, answer) v
     = match e with
       | WebSocketDisconnect => (v, [Log "Twilio disconnected" []], Returned)
       | _ => (v, [], Raised e)
       end.
Proof. repeat split; destruct e; reflexivity. Qed.

(** X18.  A [media] frame whose forwarding fails: the append command was
    attempted, then the receiver ends, in [server.py] after a printed
    line and in [newServer.py] with the exception; the variables are as
    before, so the packet of [server.py] is not counted. *)
Theorem X18_failed_forward_ends_the_receiver (v : NewServer.vars)
    (w : Server.vars) (m : string) (msg media payload : json) (e : exn) :
  Json.loads m = inr msg ->
  getitem msg "event" = inr (JStr "media") ->
  getitem msg "media" = inr media ->
  getitem media "payload" = inr payload ->
  Server.twilio_to_openai (Text m, Some e) w
  = (w,
     [AISend (append_command payload);
      match e with
      | WebSocketDisconnect => Log "Twilio disconnected" []
      | _ => LogExn "Error receiving from Twilio:" e
      end], Returned)
  /\ NewServer.twilio_to_openai (Text m, Some e) v
     = match e with
       | WebSocketDisconnect =>
           (v, [AISend (append_command payload);
                Log "Twilio disconnected" []], Returned)
       | _ => (v, [AISend (append_command payload)], Raised e)
       end.
Proof.
  intros Hl He Hm Hp.
  split; open_tasks; [old_try|]; drive; destruct e; reflexivity.
Qed.

Lemma X18_witness :
  Server.twilio_to_openai (Text media_frame, Some ConnectionClosed)
    Server.initial_vars
  = (Server.initial_vars,
     [AISend (append_command (JStr "fn5+fn5+"));
      match ConnectionClosed with
      | WebSocketDisconnect => Log "Twilio disconnected" []
      | _ => LogExn "Error receiving from Twilio:" ConnectionClosed
      end], Returned)
  /\ NewServer.twilio_to_openai (Text media_frame, Some ConnectionClosed)
       NewServer.initial_vars
     = match ConnectionClosed with
       | WebSocketDisconnect =>
           (NewServer.initial_vars,
            [AISend (append_command (JStr "fn5+fn5+"));
             Log "Twilio disconnected" []], Returned)
       | _ => (NewServer.initial_vars,
               [AISend (append_command (JStr "fn5+fn5+"))],
               Raised ConnectionClosed)
       end.
Proof.
  apply (X18_failed_forward_ends_the_receiver NewServer.initial_vars
           Server.initial_vars media_frame
           (JObj [("event", JStr "media");
                  ("media", JObj [("track", JStr "inbound");
                                  ("payload", JStr "fn5+fn5+")])])
           (JObj [("track", JStr "inbound"); ("payload", JStr "fn5+fn5+")])
           (JStr "fn5+fn5+") ConnectionClosed).
  all: vm_compute; reflexivity.
Defined.

(** X19.  An assistant transcript whose [transcript] is no string (null,
    a number, ...) is printed as it is; while the extraction has not been
    requested the closing-phrase test then calls [.lower()] on it, and
    the [AttributeError] ends the AI task, in [server.py] after a printed
    line, in [newServer.py] with the exception.  Once the extraction was
    requested the test is not evaluated and the loop goes on. *)
Theorem X19_transcript_that_is_no_text (v : NewServer.vars) (w : Server.vars)
    (m : string) (event x : json) (answer : option exn) :
  Json.loads m = inr event ->
  getitem event "type" = inr (JStr "response.audio_transcript.done") ->
  get event "transcript" (JStr "") = inr x ->
  str_lower x = inl AttributeError ->
  NewServer.openai_to_twilio (Text m, answer) v
  = (v, [Log "AI:" [x]],
     if NewServer.extraction_done v then Running else Raised AttributeError)
  /\ Server.openai_to_twilio (Text m, answer) w
     = (w,
        Log "AI said:" [x]
        :: (if Server.extraction_requested w then []
            else [LogExn "Error receiving from OpenAI:" AttributeError]),
        if Server.extraction_requested w then Running else Returned).
Proof.
  intros Hl Ht Hx Hs.
  pose proof (get_of_getitem _ _ JNull _ Ht) as Hg.
  assert (He : encodable x = true) by (destruct x; try reflexivity;
                                       discriminate Hs).
  split.
  - destruct (NewServer.extraction_done v) eqn:Ed;
      open_tasks; drive; reflexivity.
  - destruct (Server.extraction_requested w) eqn:Ed;
      open_tasks; old_try; drive; reflexivity.
Qed.

Lemma X19_witness :
  NewServer.openai_to_twilio (Text null_transcript_event, None)
    NewServer.initial_vars
  = (NewServer.initial_vars, [Log "AI:" [JNull]],
     if NewServer.extraction_done NewServer.initial_vars
     then Running else Raised AttributeError)
  /\ Server.openai_to_twilio (Text null_transcript_event, None)
       Server.initial_vars
     = (Server.initial_vars,
        Log "AI said:" [JNull]
        :: (if Server.extraction_requested Server.initial_vars then []
            else [LogExn "Error receiving from OpenAI:" AttributeError]),
        if Server.extraction_requested Server.initial_vars
        then Running else Returned).
Proof.
  apply (X19_transcript_that_is_no_text NewServer.initial_vars
           Server.initial_vars null_transcript_event
           (JObj [("type", JStr "response.audio_transcript.done");
                  ("transcript", JNull)])
           JNull None).
  all: vm_compute; reflexivity.
Defined.





(** X22.  The correlation id is the one of the [start] frame received
    last: a [start] frame replaces whatever id was there, and the audio
    delta that follows is sent to the phone with the new id when that id
    passes the test [if stream_sid], and dropped when it does not (an
    empty [streamSid], for one). *)
Theorem X22_last_start_frame_names_the_stream (k : variant) (v : vars_of k)
    (m1 m2 : string) (msg start id event delta : json) :
  Json.loads m1 = inr msg ->
  getitem msg "event" = inr (JStr "start") ->
  getitem msg "start" = inr start ->
  getitem start "streamSid" = inr id ->
  Json.loads m2 = inr event ->
  event_type k event = inr (JStr "response.audio.delta") ->
  getitem event "delta" = inr delta ->
  sid k (vars_after (twilio_task k (Text m1, None) v)) = id
  /\ trace_of
       (openai_task k (Text m2, None)
          (vars_after (twilio_task k (Text m1, None) v)))
     = (if truthy id then [PhoneSend (media_message id delta)] else [])
  /\ status_of
       (openai_task k (Text m2, None)
          (vars_after (twilio_task k (Text m1, None) v)))
     = Running.
Proof.
  intros Hl1 He Hs Hi Hl2 Ht Hd.
  destruct (start_captures_id k v m1 msg start id None Hl1 He Hs Hi)
    as (Hid & _).
  split; [assumption|].
  set (v1 := vars_after (twilio_task k (Text m1, None) v)) in *.
  destruct (truthy id) eqn:Et.
  - destruct (delta_forwarded k v1 m2 event delta None Hl2 Ht Hd)
      as (_ & logs & Htr & _ & Hok); [now rewrite Hid|].
    destruct (Hok eq_refl) as [-> Hst].
    rewrite Htr, Hid. now split.
  - rewrite (delta_dropped k v1 m2 event None Hl2 Ht) by now rewrite Hid.
    now split.
Qed.

Lemma X22_witness :
  sid new_server
    (vars_after (twilio_task new_server (Text second_start_frame, None)
                   (vars_after (twilio_task new_server (Text start_frame, None)
                                  NewServer.initial_vars))))
  = JStr "MZ2"
  /\ trace_of
       (openai_task new_server (Text delta_event, None)
          (vars_after (twilio_task new_server (Text second_start_frame, None)
                         (vars_after (twilio_task new_server
                                        (Text start_frame, None)
                                        NewServer.initial_vars)))))
     = (if truthy (JStr "MZ2")
        then [PhoneSend (media_message (JStr "MZ2") (JStr "/v7+/v7+"))]
        else [])
  /\ status_of
       (openai_task new_server (Text delta_event, None)
          (vars_after (twilio_task new_server (Text second_start_frame, None)
                         (vars_after (twilio_task new_server
                                        (Text start_frame, None)
                                        NewServer.initial_vars)))))
     = Running.
Proof.
  apply (X22_last_start_frame_names_the_stream new_server
           (vars_after (twilio_task new_server (Text start_frame, None)
                          NewServer.initial_vars))
           second_start_frame delta_event
           (JObj [("event", JStr "start");
                  ("start", JObj [("streamSid", JStr "MZ2")])])
           (JObj [("streamSid", JStr "MZ2")])
           (JStr "MZ2")
           (JObj [("type", JStr "response.audio.delta");
                  ("delta", JStr "/v7+/v7+")])
           (JStr "/v7+/v7+")).
  all: vm_compute; reflexivity.
Defined.

(** X3.  Audio goes from the phone to the AI session in the order of
    arrival, nothing added, nothing left out and nothing sent twice: in
    every run of a session whose receiver is in its loop, the payloads
    appended to the input audio buffer (a failed send counts as sent)
    are the payloads of the [media] frames received, one for one, up to
    the frame at which the receiver ended; when the receiver is still in
    its loop at the end, they are all of them. *)
Theorem X3_audio_reaches_the_ai_in_order (k : variant) (ins : list input)
    (s : session_of k) :
  inbound_of k s = Running ->
  exists rest,
    offered ins = appended (snd (run_of k s ins)) ++ rest
    /\ (inbound_of k (fst (run_of k s ins)) = Running -> rest = []).
Proof.
  revert s. induction ins as [|i ins IH]; intros s Hs.
  - exists []. now split.
  - rewrite run_cons, offered_cons. cbn [fst snd]. rewrite appended_app.
    destruct (step_flow k s i) as (H1 & _).
    rewrite H1, Hs. cbn [terminated].
    destruct (inbound_of k (fst (step_of k s i))) eqn:E1.
    + destruct (IH _ E1) as (rest & Hr & Hz).
      exists rest. split; [now rewrite Hr, app_assoc|assumption].
    + destruct (run_dead_inbound k ins (fst (step_of k s i))) as [E2 _];
        [congruence|].
      rewrite E2, app_nil_r. exists (offered ins). split; [reflexivity|].
      intros Hrun.
      apply (proj1 (run_keeps_ended k ins _)) in Hrun. congruence.
    + destruct (run_dead_inbound k ins (fst (step_of k s i))) as [E2 _];
        [congruence|].
      rewrite E2, app_nil_r. exists (offered ins). split; [reflexivity|].
      intros Hrun.
      apply (proj1 (run_keeps_ended k ins _)) in Hrun. congruence.
Qed.

Lemma X3_witness :
  exists rest,
    offered [FromPhone (ok media_frame); FromAI (ok delta_event);
             FromPhone (ok start_frame); FromPhone (ok other_media_frame);
             FromPhone (ok stop_frame); FromPhone (ok media_frame)]
    = appended
        (snd (run_of old_server Server.initial
                [FromPhone (ok media_frame); FromAI (ok delta_event);
                 FromPhone (ok start_frame); FromPhone (ok other_media_frame);
                 FromPhone (ok stop_frame); FromPhone (ok media_frame)]))
      ++ rest
    /\ (inbound_of old_server
          (fst (run_of old_server Server.initial
                  [FromPhone (ok media_frame); FromAI (ok delta_event);
                   FromPhone (ok start_frame);
                   FromPhone (ok other_media_frame);
                   FromPhone (ok stop_frame); FromPhone (ok media_frame)]))
        = Running -> rest = []).
Proof.
  apply (X3_audio_reaches_the_ai_in_order old_server
           [FromPhone (ok media_frame); FromAI (ok delta_event);
            FromPhone (ok start_frame); FromPhone (ok other_media_frame);
            FromPhone (ok stop_frame); FromPhone (ok media_frame)]
           Server.initial).
  reflexivity.
Defined.

(** X4.  Audio goes from the AI session to the phone in the order of
    arrival: in a run that starts with the correlation id set and the AI
    task in its loop, and in which no [start] frame changes the id, the
    messages sent to the phone are the [media] messages of the audio
    deltas received, each with that id and its audio as it came, one for
    one, up to the event at which the AI task ended. *)
Theorem X4_audio_reaches_the_phone_in_order (k : variant) (ins : list input)
    (s : session_of k) :
  outbound_of k s = Running ->
  truthy (sid k (variables_of k s)) = true ->
  no_start_frame ins = true ->
  exists rest,
    map (media_message (sid k (variables_of k s))) (deltas k ins)
    = phone_messages (snd (run_of k s ins)) ++ rest
    /\ (outbound_of k (fst (run_of k s ins)) = Running -> rest = []).
Proof.
  revert s. induction ins as [|i ins IH]; intros s Hs Ht Hn.
  - exists []. now split.
  - apply no_start_cons in Hn. destruct Hn as [Hi Hn].
    rewrite run_cons, deltas_cons, map_app. cbn [fst snd].
    rewrite phone_messages_app.
    destruct (step_flow k s i) as (_ & H2 & _ & _ & _ & _ & _ & H8).
    rewrite H2, Hs, Ht. cbn [terminated].
    specialize (H8 Hi).
    destruct (outbound_of k (fst (step_of k s i))) eqn:E1.
    + destruct (IH _ E1) as (rest & Hr & Hz);
        [now rewrite H8|assumption|].
      rewrite H8 in Hr.
      exists rest. split; [now rewrite Hr, app_assoc|assumption].
    + rewrite (run_dead_outbound k ins (fst (step_of k s i))), app_nil_r
        by congruence.
      eexists. split; [reflexivity|].
      intros Hrun.
      apply (proj2 (run_keeps_ended k ins _)) in Hrun. congruence.
    + rewrite (run_dead_outbound k ins (fst (step_of k s i))), app_nil_r
        by congruence.
      eexists. split; [reflexivity|].
      intros Hrun.
      apply (proj2 (run_keeps_ended k ins _)) in Hrun. congruence.
Qed.

Lemma X4_witness :
  exists rest,
    map (media_message
           (sid new_server
              (variables_of new_server
                 (fst (NewServer.step NewServer.initial
                         (FromPhone (ok start_frame)))))))
      (deltas new_server
         [FromAI (ok delta_event); FromPhone (ok media_frame);
          FromAI (ok user_event); FromAI (ok other_delta_event)])
    = phone_messages
        (snd (run_of new_server
                (fst (NewServer.step NewServer.initial
                        (FromPhone (ok start_frame))))
                [FromAI (ok delta_event); FromPhone (ok media_frame);
                 FromAI (ok user_event); FromAI (ok other_delta_event)]))
      ++ rest
    /\ (outbound_of new_server
          (fst (run_of new_server
                  (fst (NewServer.step NewServer.initial
                          (FromPhone (ok start_frame))))
                  [FromAI (ok delta_event); FromPhone (ok media_frame);
                   FromAI (ok user_event); FromAI (ok other_delta_event)]))
        = Running -> rest = []).
Proof.
  apply (X4_audio_reaches_the_phone_in_order new_server
           [FromAI (ok delta_event); FromPhone (ok media_frame);
            FromAI (ok user_event); FromAI (ok other_delta_event)]
           (fst (NewServer.step NewServer.initial
                   (FromPhone (ok start_frame))))).
  all: vm_compute; reflexivity.
Defined.

(** X5.  Nothing but audio is ever sent to the phone: in every run of
    either file, each message sent on the phone connection is a [media]
    message whose [streamSid] passes the test [if stream_sid] and whose
    payload is the audio of one of the audio deltas of the run. *)
Theorem X5_the_phone_gets_only_media (k : variant) (ins : list input)
    (s : session_of k) :
  Forall (fun msg =>
            exists id delta,
              msg = media_message id delta
              /\ truthy id = true
              /\ In delta (deltas k ins))
         (phone_messages (snd (run_of k s ins))).
Proof.
  apply Forall_forall. revert s.
  induction ins as [|i ins IH]; intros s msg; [contradiction|].
  rewrite run_cons, deltas_cons. cbn [snd]. rewrite phone_messages_app.
  destruct (step_flow k s i) as (_ & H2 & _).
  rewrite H2. intros Hin. apply in_app_or in Hin. destruct Hin as [Hin|Hin].
  - destruct (terminated _); [contradiction|].
    destruct (truthy _) eqn:Et; [|contradiction].
    apply in_map_iff in Hin. destruct Hin as (d & <- & Hd).
    exists (sid k (variables_of k s)), d.
    split; [reflexivity|]. split; [assumption|].
    apply in_or_app. now left.
  - destruct (IH _ _ Hin) as (id & d & -> & Hid & Hd).
    exists id, d. split; [reflexivity|]. split; [assumption|].
    apply in_or_app. now right.
Qed.

(** X6.  In every run of either file the input audio buffer is committed
    at most once (by the [stop] frame), and no audio is appended after
    the commit: the frames that come after a [stop] frame are not
    forwarded. *)
Theorem X6_one_commit_and_nothing_after (k : variant) (ins : list input)
    (s : session_of k) :
  commits (snd (run_of k s ins)) <= 1
  /\ appended (after_commit (snd (run_of k s ins))) = [].
Proof.
  revert s. induction ins as [|i ins IH]; intros s.
  - cbn. split; [lia|reflexivity].
  - rewrite run_cons. cbn [snd]. rewrite commits_app, after_commit_app.
    destruct (step_flow k s i) as (_ & _ & _ & _ & H5 & H6 & _).
    destruct (IH (fst (step_of k s i))) as [E1 E2].
    destruct (commits (snd (step_of k s i))) as [|n] eqn:Ec.
    + cbn [Nat.eqb Nat.add]. split; assumption.
    + destruct H6 as [Hd Ha]; [lia|].
      destruct (run_dead_inbound k ins _ Hd) as [F1 F2].
      rewrite F2. cbn [Nat.eqb]. split; [lia|].
      rewrite appended_app, F1, app_nil_r.
      now apply after_commit_quiet.
Qed.

(** X7.  The packet counter of [server.py]: in every run the number of
    lines that report the count is the number of hundreds the counter
    has passed, and while the receiver is in its loop the counter has
    grown by the number of [media] payloads received. *)
Theorem X7_packets_are_counted_by_hundreds (ins : list input)
    (s : Server.session) :
  Z.of_nat (List.length (packet_reports (snd (Server.run s ins))))
  = (Server.audio_count (Server.variables (fst (Server.run s ins))) / 100
     - Server.audio_count (Server.variables s) / 100)%Z
  /\ (Server.inbound (fst (Server.run s ins)) = Running ->
      Server.audio_count (Server.variables (fst (Server.run s ins)))
      = (Server.audio_count (Server.variables s)
         + Z.of_nat (List.length (offered ins)))%Z).
Proof.
  unfold Server.run. revert s.
  induction ins as [|i ins IH]; intros s.
  - cbn [iterate fst snd packet_reports filter List.length offered flat_map].
    split; intros; lia.
  - rewrite Generic.iterate_cons. cbn [fst snd].
    rewrite packet_reports_app, length_app, offered_cons, length_app.
    destruct (IH (fst (Server.step s i))) as [E1 E2].
    destruct (old_step_flow s i)
      as (_ & _ & _ & _ & _ & _ & _ & _ & H9 & H10 & _).
    split; [lia|].
    intros Hr. rewrite (E2 Hr).
    pose proof (proj1 (run_keeps_ended old_server ins
                         (fst (Server.step s i))) Hr) as H1.
    rewrite (H9 H1). lia.
Qed.

(** X8.  Each variable that the two tasks share has one writer: a message
    of the AI session never changes the correlation id (nor the packet
    counter of [server.py]), and a frame of the phone side never changes
    the flag that guards the extraction request (nor the turn counter of
    [newServer.py], nor [interview_completed] of [server.py]). *)
Theorem X8_one_writer_for_each_variable (k : variant) (a : arrival)
    (v : vars_of k) (n : NewServer.vars) (w : Server.vars) :
  sid k (vars_after (openai_task k a v)) = sid k v
  /\ requested k (vars_after (twilio_task k a v)) = requested k v
  /\ NewServer.conversation_turns
       (vars_after (NewServer.twilio_to_openai a n))
     = NewServer.conversation_turns n
  /\ Server.interview_completed (vars_after (Server.twilio_to_openai a w))
     = Server.interview_completed w
  /\ Server.audio_count (vars_after (Server.openai_to_twilio a w))
     = Server.audio_count w.
Proof.
  pose proof (new_twilio_step a n) as N1.
  pose proof (old_twilio_flow a w) as O1.
  pose proof (old_openai_flow a w) as O2.
  split; [|split; [|split; [|split]]].
  - destruct k; cbn [openai_task sid vars_of] in *.
    + pose proof (new_openai_step a v) as H.
      destruct (NewServer.openai_to_twilio a v) as [[v' t] st]. apply H.
    + pose proof (old_openai_step a v) as H.
      destruct (Server.openai_to_twilio a v) as [[v' t] st]. apply H.
  - destruct k; cbn [twilio_task requested vars_of] in *.
    + pose proof (new_twilio_step a v) as H.
      destruct (NewServer.twilio_to_openai a v) as [[v' t] st]. apply H.
    + pose proof (old_twilio_step a v) as H.
      destruct (Server.twilio_to_openai a v) as [[v' t] st]. apply H.
  - destruct (NewServer.twilio_to_openai a n) as [[v' t] st]. apply N1.
  - destruct (Server.twilio_to_openai a w) as [[v' t] st]. apply O1.
  - destruct (Server.openai_to_twilio a w) as [[v' t] st]. apply O2.
Qed.

(** X9.  The extraction state never goes back: in every run of either
    file a flag that is set stays set; and in [server.py], where the AI
    task sets [interview_completed] and [extraction_requested] together,
    the two are equal after every run that starts with them equal. *)
Theorem X9_the_flags_are_never_reset (k : variant) (ins : list input)
    (s : session_of k) (o : Server.session) :
  flag k s = true ->
  Server.interview_completed (Server.variables o)
  = Server.extraction_requested (Server.variables o) ->
  flag k (fst (run_of k s ins)) = true
  /\ Server.interview_completed (Server.variables (fst (Server.run o ins)))
     = Server.extraction_requested
         (Server.variables (fst (Server.run o ins))).
Proof.
  intros Hf Ho. split; [now apply run_quiet_after_set|].
  clear Hf s. unfold Server.run. revert o Ho.
  induction ins as [|i ins IH]; intros o Ho; [assumption|].
  rewrite Generic.iterate_cons. cbn [fst]. apply IH.
  now apply (old_step_flow o i).
Qed.

Lemma X9_witness :
  flag new_server
    (fst (run_of new_server
            (fst (NewServer.step NewServer.initial (FromAI (ok closing_event))))
            (FromAI (ok question_event) :: sixteen_user_turns))) = true
  /\ Server.interview_completed
       (Server.variables
          (fst (Server.run Server.initial
                  (FromAI (ok question_event) :: sixteen_user_turns))))
     = Server.extraction_requested
         (Server.variables
            (fst (Server.run Server.initial
                    (FromAI (ok question_event) :: sixteen_user_turns)))).
Proof.
  apply (X9_the_flags_are_never_reset new_server
           (FromAI (ok question_event) :: sixteen_user_turns)
           (fst (NewServer.step NewServer.initial (FromAI (ok closing_event))))
           Server.initial).
  all: vm_compute; reflexivity.
Defined.

(** X10.  The turn counter of [newServer.py] counts every finalized user
    transcript, before and after the extraction request alike: at the
    end of a run in which the AI task is still in its loop, the counter
    has grown by the number of user transcripts of the run. *)
Theorem X10_every_user_transcript_is_counted (ins : list input)
    (s : NewServer.session) :
  NewServer.outbound (fst (NewServer.run s ins)) = Running ->
  turns (fst (NewServer.run s ins))
  = (turns s + Z.of_nat (user_turns new_server ins))%Z.
Proof.
  unfold NewServer.run. revert s.
  induction ins as [|i ins IH]; intros s Hr.
  - cbn. lia.
  - rewrite Generic.iterate_cons in *. cbn [fst] in *.
    rewrite (IH _ Hr), user_turns_cons.
    pose proof (proj2 (run_keeps_ended new_server ins
                         (fst (NewServer.step s i))) Hr) as H1.
    destruct (new_step_flow s i) as (_ & _ & _ & _ & _ & _ & _ & H8 & _).
    rewrite (H8 H1). lia.
Qed.

Lemma X10_witness :
  turns (fst (NewServer.run NewServer.initial
                (FromAI (ok closing_event) :: sixteen_user_turns
                 ++ [FromAI (ok jane_event)])))
  = (turns NewServer.initial
     + Z.of_nat (user_turns new_server
                   (FromAI (ok closing_event) :: sixteen_user_turns
                    ++ [FromAI (ok jane_event)])))%Z.
Proof.
  apply (X10_every_user_transcript_is_counted
           (FromAI (ok closing_event) :: sixteen_user_turns
            ++ [FromAI (ok jane_event)])
           NewServer.initial).
  vm_compute. reflexivity.
Defined.

(** X29.  Once the opening is over, nothing goes into the AI session but
    the audio of the caller, the commit of the [stop] frame and the
    extraction request of the file: in every run of either file, every
    command sent on the AI connection is one of these three. *)
Theorem X29_the_ai_gets_audio_commit_and_request (k : variant)
    (ins : list input) (s : session_of k) :
  Forall (relay_command k) (ai_commands (snd (run_of k s ins))).
Proof.
  revert s. induction ins as [|i ins IH]; intros s; [constructor|].
  rewrite run_cons. cbn [snd].
  rewrite CommandFacts.ai_commands_app. apply Forall_app. split.
  - apply CommandFacts.step_commands.
  - apply IH.
Qed.

Lemma wire_app (t u : list action) : wire (t ++ u) = wire t ++ wire u.
Proof. apply filter_app. Qed.

(** X1.  A call without a usable key is refused before anything else
    happens: when the test of the key fails ([not KEY], and in
    [server.py] also the placeholder of the sample configuration), the
    phone connection is closed with code 1008 and the reason of the
    file, no connection to the AI service is attempted, nothing is sent
    and no message of the call is handled, whatever would have come. *)
Theorem X1_call_without_key_is_refused (k : variant) (key : option string)
    (connect a1 a2 : option exn) (ins : list input) :
  refuses k key = true ->
  wire (media_stream_of k key connect a1 a2 ins)
  = [PhoneClose 1008 (refusal_of k)].
Proof.
  destruct k; cbn [refuses media_stream_of refusal_of];
    unfold new_refuses, old_refuses, NewServer.media_stream,
      Server.media_stream, NewServer.open_session, Server.open_session;
    destruct key as [s|]; cbn [value truthy eq_str negb orb];
    rewrite ?negb_involutive; intros H; rewrite ?H; reflexivity.
Qed.

Lemma X1_witness :
  wire (media_stream_of old_server (Some Server.placeholder_key)
          None None None [FromPhone (ok start_frame); FromAI (ok closing_event)])
  = [PhoneClose 1008 (refusal_of old_server)].
Proof.
  apply (X1_call_without_key_is_refused old_server
           (Some Server.placeholder_key) None None None
           [FromPhone (ok start_frame); FromAI (ok closing_event)]).
  vm_compute. reflexivity.
Defined.

(** X2.  With a usable key, what the call does on the two connections
    starts with the connection to the AI service and the two commands of
    the opening, and the messages of the call are handled only when all
    three succeeded.  When the connection fails nothing is sent; when one
    of the two sends fails, what was sent stays sent and no message is
    handled; [server.py] then closes the AI connection in its [finally],
    [newServer.py] has none and leaves it open.  (With the placeholder of
    the sample configuration as the key, [newServer.py] goes on like
    this, [server.py] refuses.) *)
Theorem X2_the_opening_and_its_failures (k : variant) (key : option string)
    (connect a1 a2 : option exn) (ins : list input) :
  refuses k key = false ->
  wire (media_stream_of k key connect a1 a2 ins)
  = match connect, a1, a2 with
    | Some _, _, _ => []
    | None, Some _, _ => AISend (config_of k) :: cleanup_of k
    | None, None, Some _ =>
        AISend (config_of k) :: AISend (greeting_of k) :: cleanup_of k
    | None, None, None =>
        AISend (config_of k) :: AISend (greeting_of k)
        :: wire (snd (run_of k (initial_of k) ins))
    end.
Proof.
  assert (Hn : forall s, negb (negb (String.eqb s "")) = String.eqb s "")
    by (intros; apply negb_involutive).
  destruct k; cbn [refuses media_stream_of config_of greeting_of cleanup_of
                   run_of step_of initial_of];
    unfold new_refuses, old_refuses, NewServer.media_stream,
      Server.media_stream, NewServer.open_session, Server.open_session;
    (destruct key as [s|]; [|discriminate]);
    cbn [value truthy eq_str negb]; rewrite Hn; intros H; rewrite H.
  - unfold act_of, bind, act, ret, raise, await_send.
    destruct connect, a1, a2;
      cbn -[NewServer.session_config NewServer.greeting_message
            NewServer.run];
      rewrite ?wire_app; reflexivity.
  - unfold act_of, try_except, bind, act, ret, raise, await_send.
    destruct connect, a1, a2;
      cbn -[Server.session_config Server.greeting_message Server.run];
      rewrite ?wire_app; reflexivity.
Qed.

Lemma X2_witness :
  wire (media_stream_of new_server (Some Server.placeholder_key)
          None None (Some ConnectionClosed) [FromPhone (ok media_frame)])
  = AISend (config_of new_server) :: AISend (greeting_of new_server)
    :: cleanup_of new_server.
Proof.
  apply (X2_the_opening_and_its_failures new_server
           (Some Server.placeholder_key) None None (Some ConnectionClosed)
           [FromPhone (ok media_frame)]).
  vm_compute. reflexivity.
Defined.

(** X23.  An endpoint that names Azure, in any mix of upper and lower
    case, makes both files connect the Azure way: the URL is the
    endpoint with every [https://] replaced by [wss://], so that no
    [https://] is left in it and no model parameter is added, and the
    only header is [api-key]. *)
Theorem X23_azure_endpoint (k : variant) (env : environ)
    (pre mid post : string) :
  OPENAI_REALTIME_ENDPOINT env = (pre ++ mid ++ post)%string ->
  lower mid = "azure" ->
  is_azure k env = true
  /\ url_of k env = replace "https://" "wss://" (OPENAI_REALTIME_ENDPOINT env)
  /\ contains "https://" (url_of k env) = false
  /\ headers_of k env = [("api-key", value (OPENAI_REALTIME_API_KEY env))].
Proof.
  intros He Hm.
  assert (Ha : contains "azure" (lower (OPENAI_REALTIME_ENDPOINT env)) = true)
    by (rewrite He; now apply StringFacts.contains_lower).
  assert (Hk : is_azure k env = true).
  { destruct k; cbn [is_azure]; unfold NewConfig.IS_AZURE,
      ServerConfig.IS_AZURE; now rewrite Ha. }
  assert (Hu : url_of k env
               = replace "https://" "wss://" (OPENAI_REALTIME_ENDPOINT env)).
  { destruct k; cbn [is_azure url_of] in *;
      unfold NewConfig.build_openai_connection, ServerConfig.realtime_url;
      now rewrite Hk. }
  split; [assumption|]. split; [assumption|]. split.
  - rewrite Hu. apply ConfigFacts.replace_leaves_none.
  - destruct k; cbn [is_azure headers_of] in *;
      unfold NewConfig.build_openai_connection, ServerConfig.headers;
      now rewrite Hk.
Qed.

Lemma X23_witness :
  is_azure new_server azure_env = true
  /\ url_of new_server azure_env
     = replace "https://" "wss://" (OPENAI_REALTIME_ENDPOINT azure_env)
  /\ contains "https://" (url_of new_server azure_env) = false
  /\ headers_of new_server azure_env
     = [("api-key", value (OPENAI_REALTIME_API_KEY azure_env))].
Proof.
  apply (X23_azure_endpoint new_server azure_env
           "https://hr.openai." "AZURE"
           ".com/openai/realtime?api-version=1&deployment=gpt").
  all: vm_compute; reflexivity.
Defined.

(** X24.  A call that is not refused authenticates with the key itself:
    the test of the key comes before the connection is built, so the
    header is [api-key: KEY] for Azure and [Authorization: Bearer KEY]
    otherwise, with the configured key and never with a missing one. *)
Theorem X24_the_headers_carry_the_key (k : variant) (env : environ) :
  refuses k (OPENAI_REALTIME_API_KEY env) = false ->
  exists key,
    OPENAI_REALTIME_API_KEY env = Some key
    /\ key <> ""
    /\ headers_of k env
       = if is_azure k env
         then [("api-key", JStr key)]
         else [("Authorization", JStr ("Bearer " ++ key));
               ("OpenAI-Beta", JStr "realtime=v1")].
Proof.
  intros Hr.
  destruct (OPENAI_REALTIME_API_KEY env) as [key|] eqn:Ek.
  - exists key. split; [reflexivity|]. split.
    + intros ->. destruct k; discriminate Hr.
    + destruct k; cbn [headers_of is_azure];
        unfold NewConfig.build_openai_connection, ServerConfig.headers;
        rewrite Ek.
      * now destruct (NewConfig.IS_AZURE env).
      * now destruct (ServerConfig.IS_AZURE env).
  - destruct k; discriminate Hr.
Qed.

Lemma X24_witness :
  exists key,
    OPENAI_REALTIME_API_KEY direct_env = Some key
    /\ key <> ""
    /\ headers_of old_server direct_env
       = if is_azure old_server direct_env
         then [("api-key", JStr key)]
         else [("Authorization", JStr ("Bearer " ++ key));
               ("OpenAI-Beta", JStr "realtime=v1")].
Proof.
  apply (X24_the_headers_carry_the_key old_server direct_env).
  vm_compute. reflexivity.
Defined.

(** X25.  The two files do not take the same endpoints for Azure: an
    endpoint that names [cognitiveservices] and not [azure] is connected
    the Azure way by [server.py] ([api-key] header, the [https://] of the
    endpoint replaced) and the direct way by [newServer.py] (the model
    parameter added to the endpoint as it is, [Authorization] header). *)
Theorem X25_cognitiveservices_endpoint (env : environ) :
  contains "cognitiveservices" (lower (OPENAI_REALTIME_ENDPOINT env)) = true ->
  contains "azure" (lower (OPENAI_REALTIME_ENDPOINT env)) = false ->
  ServerConfig.realtime_url env
  = replace "https://" "wss://" (OPENAI_REALTIME_ENDPOINT env)
  /\ ServerConfig.headers env
     = [("api-key", value (OPENAI_REALTIME_API_KEY env))]
  /\ NewConfig.build_openai_connection env
     = ((OPENAI_REALTIME_ENDPOINT env ++ "?model="
         ++ OPENAI_REALTIME_MODEL env)%string,
        [("Authorization",
          JStr ("Bearer " ++ format (OPENAI_REALTIME_API_KEY env)));
         ("OpenAI-Beta", JStr "realtime=v1")]).
Proof.
  intros Hc Ha.
  unfold ServerConfig.realtime_url, ServerConfig.headers,
    ServerConfig.IS_AZURE, NewConfig.build_openai_connection,
    NewConfig.IS_AZURE.
  rewrite Hc, Ha. cbn [orb]. now repeat split.
Qed.

Lemma X25_witness :
  ServerConfig.realtime_url cognitive_env
  = replace "https://" "wss://" (OPENAI_REALTIME_ENDPOINT cognitive_env)
  /\ ServerConfig.headers cognitive_env
     = [("api-key", value (OPENAI_REALTIME_API_KEY cognitive_env))]
  /\ NewConfig.build_openai_connection cognitive_env
     = ((OPENAI_REALTIME_ENDPOINT cognitive_env ++ "?model="
         ++ OPENAI_REALTIME_MODEL cognitive_env)%string,
        [("Authorization",
          JStr ("Bearer " ++ format (OPENAI_REALTIME_API_KEY cognitive_env)));
         ("OpenAI-Beta", JStr "realtime=v1")]).
Proof.
  apply (X25_cognitiveservices_endpoint cognitive_env).
  all: vm_compute; reflexivity.
Defined.

(** X26.  [make_call] places no call without its four settings: when one
    of [TWILIO_ACCOUNT_SID], [TWILIO_AUTH_TOKEN], [TWILIO_PHONE_NUMBER]
    and [SERVER_URL] is unset or empty, it prints the error and returns;
    no client is created and nothing is dialled, whatever the number. *)
Theorem X26_no_call_without_credentials (env : environ)
    (create : string + string * string) (phone_number name : string) :
  In name ["TWILIO_ACCOUNT_SID"; "TWILIO_AUTH_TOKEN"; "TWILIO_PHONE_NUMBER";
           "SERVER_URL"] ->
  env name = None \/ env name = Some "" ->
  MainPy.make_call env create phone_number
  = [MainPy.Print "ERROR: Missing Twilio credentials in .env file!" []].
Proof.
  intros Hin Hv.
  assert (Ht : truthy (value (env name)) = false)
    by (destruct Hv as [-> | ->]; reflexivity).
  unfold MainPy.make_call, MainPy.all, getenv. cbn [forallb].
  cbn [In] in Hin.
  repeat (destruct Hin as [<-|Hin];
          [rewrite Ht, ?andb_false_r; reflexivity|]).
  contradiction.
Qed.

Lemma X26_witness :
  MainPy.make_call no_token_env (inr ("CA1", "queued")) "+4915112345678"
  = [MainPy.Print "ERROR: Missing Twilio credentials in .env file!" []].
Proof.
  apply (X26_no_call_without_credentials no_token_env
           (inr ("CA1", "queued")) "+4915112345678" "TWILIO_AUTH_TOKEN").
  - cbn. auto.
  - right. reflexivity.
Defined.

Lemma prefix_plus (s : string) : String.prefix "+" ("+" ++ s) = true.
Proof. destruct s; reflexivity. Qed.

(** X27.  The number that the script dials always starts with [+]: the
    text typed at the prompt is used as it is when it starts with [+],
    and with one [+] put in front when it does not (the empty text
    included); doing it twice changes nothing more.  Every call that the
    script places goes to that number, and it places one call at most. *)
Theorem X27_the_dialled_number_starts_with_plus (env : environ)
    (typed : string) (create : string + string * string) :
  String.prefix "+" (MainPy.dialled typed) = true
  /\ MainPy.dialled (MainPy.dialled typed) = MainPy.dialled typed
  /\ (MainPy.calls (MainPy.main env typed create) = []
      \/ exists from_ url status_callback events,
           MainPy.calls (MainPy.main env typed create)
           = [MainPy.CallsCreate (MainPy.dialled typed) from_ url
                status_callback events]).
Proof.
  assert (Hp : String.prefix "+" (MainPy.dialled typed) = true).
  { unfold MainPy.dialled.
    destruct (String.prefix "+" typed) eqn:E; cbn [negb];
      [assumption|apply prefix_plus]. }
  split; [assumption|]. split.
  - unfold MainPy.dialled at 1. now rewrite Hp.
  - unfold MainPy.main, MainPy.make_call, MainPy.calls.
    rewrite !filter_app.
    assert (H1 : filter
                   (fun a => match a with
                             | MainPy.CallsCreate _ _ _ _ _ => true
                             | _ => false
                             end)
                   (if negb (String.prefix "+" typed)
                    then [MainPy.Print
                            "Phone number should start with + and country code"
                            []]
                    else []) = [])
      by now destruct (negb _).
    rewrite H1.
    destruct (negb (MainPy.all _)).
    + left. reflexivity.
    + right. destruct create as [e|[sid status]]; repeat eexists.
Qed.

(** X28.  With the four settings in place the script places exactly one
    call, whatever the Twilio service answers: to the number dialled,
    from the configured number, with [SERVER_URL/voice] as the URL that
    handles the call and [SERVER_URL/call-status] as the status callback,
    asked for the [completed] event only.  A failure of the service is
    printed and there is no second attempt. *)
Theorem X28_one_call_to_the_voice_endpoint (env : environ) (typed : string)
    (create : string + string * string)
    (account_sid auth_token twilio_number server_url : string) :
  env "TWILIO_ACCOUNT_SID" = Some account_sid ->
  env "TWILIO_AUTH_TOKEN" = Some auth_token ->
  env "TWILIO_PHONE_NUMBER" = Some twilio_number ->
  env "SERVER_URL" = Some server_url ->
  account_sid <> "" -> auth_token <> "" -> twilio_number <> "" ->
  server_url <> "" ->
  MainPy.calls (MainPy.main env typed create)
  = [MainPy.CallsCreate (MainPy.dialled typed) (JStr twilio_number)
       (server_url ++ "/voice") (server_url ++ "/call-status") ["completed"]].
Proof.
  intros E1 E2 E3 E4 N1 N2 N3 N4.
  apply String.eqb_neq in N1, N2, N3, N4.
  unfold MainPy.main, MainPy.make_call, MainPy.all, MainPy.calls, getenv.
  rewrite E1, E2, E3, E4.
  cbn [value format forallb truthy]. rewrite N1, N2, N3, N4.
  cbn [negb andb]. rewrite !filter_app.
  destruct (negb (String.prefix "+" typed));
    destruct create as [e|[sid status]]; reflexivity.
Qed.

Lemma X28_witness :
  MainPy.calls (MainPy.main twilio_env "4915112345678" (inl "HTTP 401"))
  = [MainPy.CallsCreate (MainPy.dialled "4915112345678")
       (JStr "+15550001111")
       ("https://hr.example.com" ++ "/voice")
       ("https://hr.example.com" ++ "/call-status") ["completed"]].
Proof.
  apply (X28_one_call_to_the_voice_endpoint twilio_env "4915112345678"
           (inl "HTTP 401") "AC1" "secret" "+15550001111"
           "https://hr.example.com").
  all: try reflexivity.
  all: discriminate.
Defined.
